(** * Copy-job orchestration (dunetuf.copy): a shallow embedding

    The Python classes [Copy], [CopyDune], [CopyEnterprise], [CopyDesignJet]
    and [CopyHomePro] drive a copy job on a remote device.  Every call that
    leaves the orchestrator (job manager, job ticket store, underware, CDM,
    clock, logger) is answered by an environment and recorded in a trace, so
    that the order of the calls can be stated and proved. *)

From Stdlib Require Import ZArith QArith Lqa String Ascii List Lia DecimalString.
From stdpp Require Import base option gmap strings.
Import ListNotations.

Local Open Scope Z_scope.
Local Open Scope string_scope.
Local Open Scope list_scope.

(** ** Python values *)

Module Py.

(** The JSON-like values that travel in payloads, tickets and replies.  A
    value is held as a tree: it stands for a Python value in which no dict
    or list object is reachable by two paths. *)
#[warnings="-register-all"]
Inductive pyval : Type :=
| PNone
| PBool (b : bool)
| PInt (z : Z)
| PStr (s : string)
| PList (l : list pyval)
| PDict (d : gmap string pyval).

Inductive exn_class : Type :=
| TimeoutError
| AssertionError
| KeyError
| TypeError
| AttributeError
| RuntimeError
| OtherError (name : string).

Inductive exn : Type := Exn (c : exn_class) (msg : string).

Inductive outcome (A : Type) : Type :=
| Ret (a : A)
| Raise (e : exn).
Arguments Ret {A} a.
Arguments Raise {A} e.

Definition exn_class_of (e : exn) : exn_class := let 'Exn c _ := e in c.

(** [except TimeoutError] *)
Definition is_TimeoutError (e : exn) : bool :=
  match exn_class_of e with TimeoutError => true | _ => false end.

(** Substring test, Python's [needle in haystack] on two strings. *)
Fixpoint str_contains (needle hay : string) : bool :=
  if String.prefix needle hay then true
  else match hay with
       | EmptyString => false
       | String _ rest => str_contains needle rest
       end.

(** [v == s] for a string literal [s]. *)
Definition eq_str (v : pyval) (s : string) : bool :=
  match v with PStr t => String.eqb t s | _ => false end.

(** [v == z] for an integer literal [z]; Python's [bool] is an [int]. *)
Definition eq_int (v : pyval) (z : Z) : bool :=
  match v with
  | PInt y => Z.eqb y z
  | PBool b => Z.eqb (Z.b2z b) z
  | _ => false
  end.

(** [v is True] *)
Definition is_True (v : pyval) : bool :=
  match v with PBool true => true | _ => false end.

(** Truth value of an object. *)
Definition truthy (v : pyval) : bool :=
  match v with
  | PNone => false
  | PBool b => b
  | PInt z => negb (Z.eqb z 0)
  | PStr s => negb (String.eqb s "")
  | PList l => match l with [] => false | _ => true end
  | PDict d => negb (bool_decide (d = ∅))
  end.

(** [k in c] for a string literal [k]. *)
Definition contains (k : string) (c : pyval) : outcome bool :=
  match c with
  | PDict d => Ret (match d !! k with Some _ => true | None => false end)
  | PStr s => Ret (str_contains k s)
  | PList l => Ret (existsb (fun v => eq_str v k) l)
  | _ => Raise (Exn TypeError "argument is not iterable")
  end.

(** [c[k]] for a string literal [k]. *)
Definition getitem (c : pyval) (k : string) : outcome pyval :=
  match c with
  | PDict d => match d !! k with
               | Some v => Ret v
               | None => Raise (Exn KeyError k)
               end
  | PStr _ | PList _ => Raise (Exn TypeError "indices must be integers")
  | _ => Raise (Exn TypeError "object is not subscriptable")
  end.

(** [c[k] = v] for a string literal [k]; the updated container is returned. *)
Definition setitem (c : pyval) (k : string) (v : pyval) : outcome pyval :=
  match c with
  | PDict d => Ret (PDict (<[k := v]> d))
  | PList _ => Raise (Exn TypeError "indices must be integers")
  | _ => Raise (Exn TypeError "object does not support item assignment")
  end.

(** [c.get(k, default)] *)
Definition get (c : pyval) (k : string) (default : pyval) : outcome pyval :=
  match c with
  | PDict d => Ret (match d !! k with Some v => v | None => default end)
  | _ => Raise (Exn AttributeError "get")
  end.

End Py.

Import Py.

(** ** The device and the trace of calls *)

(** [change_job_state] is called with three positional arguments by
    [preview_start] and with an explicit [header] through
    [Copy.change_job_state]; the tests tell the two call shapes apart. *)
Inductive header_arg : Type :=
| NoHeader
| Header (h : pyval).

Inductive cdm_endpoint : Type := COPY_CONFIGURATION_ENDPOINT.

(** Calls to the collaborators: [_job_manager] (JM), [_job_ticket] (JT),
    [_udw.mainApp.ScanMedia] (UDW) and [_cdm] (CDM). *)
Inductive call : Type :=
| JM_change_job_state (jobID action jobState : string) (header : header_arg)
| JM_get_job_info (jobid : string) (header : pyval)
| JM_wait_for_job_state (jobid : string) (states : list string)
| JM_wait_for_all_previews_done (jobid : string)
| JM_wait_for_job_processing_sub_status (status : string)
| JM_wait_for_alerts (name : string)
| JM_alert_action (name token : string)
| JT_create (payload : pyval)
| JT_update (ticket_id payload : pyval)
| JT_get_info (ticket_id : string)
| UDW_isMediaLoaded (source : string)
| CDM_get (endpoint : cdm_endpoint).

Inductive event : Type :=
| EvCall (c : call) (r : outcome pyval)
| EvTime (t : Q)
| EvSleep (d : Q)
| EvLog (template : string) (args : list pyval).

(** The environment answers a call from the history of everything that
    happened before it; the clock is read the same way.
    [WAIT_START_JOB_TIMEOUT] is the job manager's constant. *)
Record Env : Type := {
  env_call : list event -> call -> outcome pyval;
  env_time : list event -> Q;
  WAIT_START_JOB_TIMEOUT : Z
}.

(** The instance attributes that [Copy.__init__] initialises to [None]. *)
Record instance : Type := {
  _adf_loaded : pyval;
  _output_duplex : pyval;
  _duplex : pyval
}.

(** [Copy.__init__], lines 88-91. *)
Definition init_instance : instance :=
  {| _adf_loaded := PNone; _output_duplex := PNone; _duplex := PNone |}.

(** ** The monad of orchestration steps

    A step runs against the environment, the history [h] of the events that
    precede it and the instance [self]; it yields its outcome, the instance
    as it leaves it and the events it added.  [None] is reserved for a
    readiness loop that was cut off by its fuel. *)
Definition M (A : Type) : Type :=
  Env -> list event -> instance -> option (outcome A * instance * list event).

#[global] Instance M_ret : MRet M := fun A a _ _ self => Some (Ret a, self, []).

#[global] Instance M_bind : MBind M := fun A B k m env h self =>
  match m env h self with
  | Some (Ret a, self1, evs1) =>
      match k a env (h ++ evs1) self1 with
      | Some (o, self2, evs2) => Some (o, self2, evs1 ++ evs2)
      | None => None
      end
  | Some (Raise e, self1, evs1) => Some (Raise e, self1, evs1)
  | None => None
  end.

Definition raise {A} (e : exn) : M A := fun _ _ self => Some (Raise e, self, []).

Definition out_of_fuel {A} : M A := fun _ _ _ => None.

Definition lift {A} (o : outcome A) : M A := fun _ _ self => Some (o, self, []).

Definition call_ (c : call) : M pyval := fun env h self =>
  let r := env_call env h c in Some (r, self, [EvCall c r]).

Definition time_time : M Q := fun env h self =>
  let t := env_time env h in Some (Ret t, self, [EvTime t]).

Definition time_sleep (d : Q) : M unit := fun _ _ self => Some (Ret tt, self, [EvSleep d]).

Definition logging_info (template : string) (args : list pyval) : M unit :=
  fun _ _ self => Some (Ret tt, self, [EvLog template args]).

Definition read_WAIT_START_JOB_TIMEOUT : M Z := fun env _ self =>
  Some (Ret (WAIT_START_JOB_TIMEOUT env), self, []).

Definition get_self {A} (f : instance -> A) : M A := fun _ _ self => Some (Ret (f self), self, []).

Definition set_adf_loaded (v : pyval) : M unit := fun _ _ self =>
  Some (Ret tt, {| _adf_loaded := v; _output_duplex := _output_duplex self;
                   _duplex := _duplex self |}, []).

Definition set_output_duplex (v : pyval) : M unit := fun _ _ self =>
  Some (Ret tt, {| _adf_loaded := _adf_loaded self; _output_duplex := v;
                   _duplex := _duplex self |}, []).

Definition set_duplex (v : pyval) : M unit := fun _ _ self =>
  Some (Ret tt, {| _adf_loaded := _adf_loaded self; _output_duplex := _output_duplex self;
                   _duplex := v |}, []).

(** [assert cond, msg] *)
Definition assert_ (cond : bool) (msg : string) : M unit :=
  if cond then mret tt else raise (Exn AssertionError msg).

(** [try: body except <handled>: handler]; an exception that [handles]
    rejects keeps propagating. *)
Definition try_except {A} (body : M A) (handles : exn -> bool) (handler : M A) : M A :=
  fun env h self =>
    match body env h self with
    | Some (Raise e, self1, evs1) =>
        if handles e then
          match handler env (h ++ evs1) self1 with
          | Some (o, self2, evs2) => Some (o, self2, evs1 ++ evs2)
          | None => None
          end
        else Some (Raise e, self1, evs1)
    | r => r
    end.

(** [for _ in range(n): body] *)
Fixpoint for_range_nat (n : nat) (body : M unit) : M unit :=
  match n with
  | O => mret tt
  | S n' => body ≫= fun _ => for_range_nat n' body
  end.

Definition for_range (n : Z) (body : M unit) : M unit := for_range_nat (Z.to_nat n) body.

Definition Qlt_bool (x y : Q) : bool := negb (Qle_bool y x).

(** [str(n)] for an integer. *)
Definition str_of_int (n : Z) : string := NilZero.string_of_int (Z.to_int n).

#[global] Instance outcome_bind : MBind outcome := fun A B k o =>
  match o with
  | Ret a => k a
  | Raise e => Raise e
  end.

(** [p[a][b]] and [p[a][b][c]] *)
Definition item2 (p : pyval) (a b : string) : outcome pyval :=
  x ← getitem p a; getitem x b.

Definition item3 (p : pyval) (a b c : string) : outcome pyval :=
  x ← item2 p a b; getitem x c.

(** [p[a][b][c] = v] on a payload held as a tree: the inner dict is updated
    and put back in place.  This is what Python's in-place assignment
    leaves at the path [a], [b], [c] of any payload, and in the whole of a
    payload in which the dict [p[a][b]] is reachable by that path only; in
    a payload that holds the same dict object at a second place, Python
    shows the new entry there as well and this tree does not. *)
Definition setitem3 (p : pyval) (a b c : string) (v : pyval) : outcome pyval :=
  x ← getitem p a;
  y ← getitem x b;
  y' ← setitem y c v;
  x' ← setitem x b y';
  setitem p a x'.

(** ** class Copy (copy/copy.py) *)

Module Copy.

(** Lines 128-136. *)
Definition get_job_info (jobid : string) (header : pyval) : M pyval :=
  call_ (JM_get_job_info jobid header).

(** Lines 138-148. *)
Definition change_job_state (jobID action jobState : string) (header : pyval) : M pyval :=
  call_ (JM_change_job_state jobID action jobState (Header header)).

(** Lines 223-234. *)
Definition wait_for_state (jobid : string) (final_states : list string) : M pyval :=
  call_ (JM_wait_for_job_state jobid final_states).

(** Lines 321-327. *)
Definition get_copy_configuration : M pyval :=
  call_ (CDM_get COPY_CONFIGURATION_ENDPOINT).

(** The [while] loop of [preview_start], lines 183-189; the result is
    [job_ready]. *)
Fixpoint wait_ready (fuel : nat) (job_id : string) (start_time : Q) : M bool :=
  match fuel with
  | O => out_of_fuel
  | S fuel' =>
      now ← time_time;
      timeout ← read_WAIT_START_JOB_TIMEOUT;
      if Qlt_bool (now - start_time) (inject_Z timeout) then
        job_info ← get_job_info job_id PNone;
        st ← lift (get job_info "state" PNone);
        if eq_str st "ready" then mret true
        else _ ← time_sleep 2; wait_ready fuel' job_id start_time
      else mret false
  end.

Definition timeout_message (timeout : Z) : string :=
  "Job has not reached the ready state after " ++ str_of_int timeout ++ " seconds".

(** Lines 166-191. *)
Definition preview_start (fuel : nat) (job_id ticket_id : string) : M unit :=
  _ ← logging_info "Starting job : %s" [PStr job_id];
  initialize_pending_state ←
    call_ (JM_change_job_state job_id "Initialize" "initializeProcessing" NoHeader);
  _ ← assert_ (eq_int initialize_pending_state 200) "";
  start_time ← time_time;
  job_ready ← wait_ready fuel job_id start_time;
  if negb job_ready then
    timeout ← read_WAIT_START_JOB_TIMEOUT;
    raise (Exn TimeoutError (timeout_message timeout))
  else mret tt.

(** Lines 151-164. *)
Definition start (fuel : nat) (job_id ticket_id : string) (preview_reps : Z) : M pyval :=
  _ ← preview_start fuel job_id ticket_id;
  change_job_state job_id "Start" "startProcessing" PNone.

(** Lines 281-287, the rules on the [src] section. *)
Definition src_rules (payload : pyval) : M unit :=
  has_src ← lift (contains "src" payload);
  if has_src : bool then
    has_ms ← lift (item2 payload "src" "scan" ≫= contains "mediaSource");
    _ ← (if has_ms : bool then
           ms ← lift (item3 payload "src" "scan" "mediaSource");
           if eq_str ms "flatbed" then set_adf_loaded (PBool false) else mret tt
         else mret tt);
    has_pm ← lift (item2 payload "src" "scan" ≫= contains "plexMode");
    if has_pm : bool then
      pm ← lift (item3 payload "src" "scan" "plexMode");
      if eq_str pm "duplex" then set_duplex (PBool true) else mret tt
    else mret tt
  else mret tt.

(** Lines 288-298, the rules on the [dest] section.  The returned value is
    the payload as the in-place updates leave it. *)
Definition dest_rules (payload : pyval) : M pyval :=
  has_dest ← lift (contains "dest" payload);
  if has_dest : bool then
    has_pm ← lift (item2 payload "dest" "print" ≫= contains "plexMode");
    if has_pm : bool then
      pm ← lift (item3 payload "dest" "print" "plexMode");
      if eq_str pm "duplex" then
        _ ← set_output_duplex (PBool true);
        has_db ← lift (item2 payload "dest" "print" ≫= contains "duplexBinding");
        if has_db : bool then
          db ← lift (item3 payload "dest" "print" "duplexBinding");
          if eq_str db "oneSided" then
            lift (setitem3 payload "dest" "print" "duplexBinding" (PStr "twoSidedLongEdge"))
          else mret payload
        else lift (setitem3 payload "dest" "print" "duplexBinding" (PStr "twoSidedLongEdge"))
      else mret payload
    else mret payload
  else mret payload.

(** Lines 265-298. *)
Definition _updating_ticket (payload : pyval) : M pyval :=
  _ ← src_rules payload;
  dest_rules payload.

Definition base_payload : pyval :=
  PDict {[ "src" := PDict {[ "scan" := PDict ∅ ]};
           "dest" := PDict {[ "print" := PDict ∅ ]} ]}.

(** Lines 93-112; [self._updating_ticket] is the method of the instance's
    class. *)
Definition create_ticket (self_updating_ticket : pyval -> M pyval) (payload : pyval) : M pyval :=
  payload ← self_updating_ticket payload;
  ticket_id ← call_ (JT_create base_payload);
  _ ← logging_info "Payload copy job ticket : {}" [payload];
  _ ← call_ (JT_update ticket_id payload);
  mret ticket_id.

(** Lines 300-309; the bare [except] handles every exception. *)
Definition _has_two_segment_pipeline (ticket_id : string) : M bool :=
  try_except
    (data ← call_ (JT_get_info ticket_id);
     field_value ← lift (item3 data "src" "scan" "scanCaptureMode");
     mret (eq_str field_value "jobBuild"))
    (fun _ => true)
    (mret false).

End Copy.

(** ** class CopyDune (copy/dune/copy_dune.py) *)

Module CopyDune.

(** One turn of the preview loop, lines 92-97. *)
Definition preview_iteration (job_id : string) : M unit :=
  _ ← call_ (JM_change_job_state job_id "Preview" "prepareProcessing" NoHeader);
  _ ← time_sleep (5 # 2);
  _ ← call_ (JM_wait_for_job_state job_id ["ready"]);
  logging_info "Preview Job Id : {}" [PStr job_id].

(** Lines 79-97. *)
Definition preview_start (fuel : nat) (job_id ticket_id : string) (preview_reps : Z) : M unit :=
  _ ← Copy.preview_start fuel job_id ticket_id;
  if negb (preview_reps =? 0)%Z then for_range preview_reps (preview_iteration job_id)
  else mret tt.

(** The alert exchange of lines 68-71. *)
Definition answer_flatbedAddPage : M unit :=
  _ ← call_ (JM_wait_for_alerts "flatbedAddPage");
  _ ← call_ (JM_alert_action "flatbedAddPage" "Response_02");
  mret tt.

(** Lines 45-77. *)
Definition start (fuel : nat) (job_id ticket_id : string) (preview_reps : Z) : M pyval :=
  _ ← preview_start fuel job_id ticket_id preview_reps;
  if (preview_reps =? 0)%Z then
    Copy.change_job_state job_id "Start" "startProcessing" PNone
  else
    _ ← time_sleep (5 # 2);
    start_state ← Copy.change_job_state job_id "Start" "startProcessing" PNone;
    _ ← logging_info "Waiting for job to be ready" [];
    adf_loaded ← call_ (UDW_isMediaLoaded "ADF");
    _ ← try_except
          (if negb (truthy adf_loaded) then answer_flatbedAddPage
           else logging_info "ADF is loaded, no need to add flatbed page" [])
          is_TimeoutError
          (logging_info "flatbed Add page is not available" []);
    mret start_state.

End CopyDune.

(** ** class CopyEnterprise (copy/dune/enterprise/copy_enterprise.py) *)

Module CopyEnterprise.

(** Lines 14-25. *)
Definition _updating_ticket (payload : pyval) : M pyval :=
  payload ← Copy._updating_ticket payload;
  resolution ← lift (src ← get payload "src" (PDict ∅);
                     scan ← get src "scan" (PDict ∅);
                     get scan "resolution" PNone);
  if truthy resolution then
    lift (setitem3 payload "src" "scan" "resolution" (PStr "e600Dpi"))
  else mret payload.

(** Lines 27-63. *)
Definition start (fuel : nat) (job_id ticket_id : string) (preview_reps : Z) : M pyval :=
  _ ← CopyDune.preview_start fuel job_id ticket_id preview_reps;
  _ ← time_sleep (5 # 2);
  start_state ← Copy.change_job_state job_id "Start" "startProcessing" PNone;
  _ ← logging_info "Waiting for job to be ready" [];
  adf_loaded ← call_ (UDW_isMediaLoaded "ADF");
  _ ← try_except
        (if (preview_reps =? 0)%Z then
           self_adf_loaded ← get_self _adf_loaded;
           self_output_duplex ← get_self _output_duplex;
           if negb (truthy self_adf_loaded) && is_True self_output_duplex
           then CopyDune.answer_flatbedAddPage
           else mret tt
         else if negb (truthy adf_loaded) then CopyDune.answer_flatbedAddPage
         else logging_info "ADF is loaded, no need to add flatbed page" [])
        is_TimeoutError
        (logging_info "flatbed Add page is not available" []);
  mret start_state.

End CopyEnterprise.

(** ** class CopyDesignJet (copy/dune/designjet/copy_designjet.py) *)

Module CopyDesignJet.

(** Lines 25-36, the two-segment branch. *)
Definition two_segment_prepare (job_id : string) : M unit :=
  status_code ←
    call_ (JM_change_job_state job_id "Prepare_Processing" "prepareProcessing" NoHeader);
  _ ← assert_ (eq_int status_code 200) "";
  _ ← Copy.wait_for_state job_id ["processing"];
  result ← call_ (JM_wait_for_all_previews_done job_id);
  _ ← assert_ (truthy result) "Preview jobs did not finish successfully";
  configuration ← Copy.get_copy_configuration;
  copyMode ← lift (getitem configuration "copyMode");
  if eq_str copyMode "printWhileScanning" then
    _ ← logging_info
          "Copy mode is already set to printWhileScanning. Wait for start print to finish job." [];
    _ ← call_ (JM_wait_for_job_processing_sub_status "printing");
    mret tt
  else mret tt.

(** Lines 11-39; [super().preview_start(job_id, ticket_id)] leaves
    [preview_reps] at its default 0. *)
Definition start (fuel : nat) (job_id ticket_id : string) (preview_reps : Z) : M pyval :=
  _ ← CopyDune.preview_start fuel job_id ticket_id 0;
  two_segment ← (if negb (String.eqb ticket_id "")
                 then Copy._has_two_segment_pipeline ticket_id
                 else mret false);
  _ ← (if two_segment : bool then two_segment_prepare job_id else mret tt);
  Copy.change_job_state job_id "Start" "startProcessing" PNone.

End CopyDesignJet.

(** ** The classes *)

Inductive class : Type :=
| ClsCopy
| ClsCopyDune
| ClsCopyEnterprise
| ClsCopyDesignJet
| ClsCopyHomePro
| ClsCopyBeam.

(** [caller_module is None or not caller_module.__name__.startswith(p)] *)
Definition foreign_caller (caller_module : option string) (p : string) : bool :=
  match caller_module with
  | None => true
  | Some name => negb (String.prefix p name)
  end.

(** ** Construction: [__new__], [__init__] and family resolution *)

Module Construction.

(** [issubclass(c, base)] in the class hierarchy
    [Copy > CopyDune > {CopyEnterprise, CopyDesignJet, CopyHomePro > CopyBeam}]. *)
Definition issubclass (c base : class) : bool :=
  match base with
  | ClsCopy => true
  | ClsCopyDune => match c with ClsCopy => false | _ => true end
  | ClsCopyEnterprise => match c with ClsCopyEnterprise => true | _ => false end
  | ClsCopyDesignJet => match c with ClsCopyDesignJet => true | _ => false end
  | ClsCopyHomePro => match c with ClsCopyHomePro | ClsCopyBeam => true | _ => false end
  | ClsCopyBeam => match c with ClsCopyBeam => true | _ => false end
  end.

(** What construction calls outside these classes: the factories and
    constructors that [copy.py] imports, the two attributes read from the
    configuration object, and [CopyBeam], whose module
    [dunetuf.copy.dune.homepro.copy_beam] is outside this source tree (its
    import and its call are one step here).  Each of them may raise. *)
Inductive collaborator : Type :=
| get_ip
| get_dune_underware_instance (ip : pyval)
| get_cdm_instance (addr udw : pyval)
| Configuration (cdm : pyval)
| familyname (configuration : pyval)
| productname (configuration : pyval)
| Job (cdm udw : pyval)
| JobManager
| JobTicket
| JobConfiguration
| CopyBeam (cdm udw : pyval).

Definition setup_event : Type := collaborator * outcome pyval.

(** The platform answers a collaborator from the history of the calls made
    before it. *)
Definition platform : Type := list setup_event -> collaborator -> outcome pyval.

(** The attributes that [Copy.__new__] stores on the class [Copy], where
    every subclass reads them; [None] is an attribute that was never set. *)
Record class_attributes : Type := {
  _udw : option pyval;
  _cdm : option pyval;
  _configuration : option pyval;
  _family_name : option pyval;
  _product_name : option pyval
}.

(** The class attributes of a process in which [Copy] was never called. *)
Definition no_attributes : class_attributes :=
  {| _udw := None; _cdm := None; _configuration := None;
     _family_name := None; _product_name := None |}.

(** ** The monad of construction steps

    A step runs against the platform, the history of the collaborator calls
    that precede it and the class attributes; it yields its outcome, the
    class attributes as it leaves them and the calls it added. *)
Definition N (A : Type) : Type :=
  platform -> list setup_event -> class_attributes ->
  outcome A * class_attributes * list setup_event.

#[local] Instance N_ret : MRet N := fun A a _ _ attrs => (Ret a, attrs, []).

#[local] Instance N_bind : MBind N := fun A B k m pf h attrs =>
  match m pf h attrs with
  | (Ret a, attrs1, evs1) =>
      let '(o, attrs2, evs2) := k a pf (h ++ evs1) attrs1 in (o, attrs2, evs1 ++ evs2)
  | (Raise e, attrs1, evs1) => (Raise e, attrs1, evs1)
  end.

Definition raise_ {A} (e : exn) : N A := fun _ _ attrs => (Raise e, attrs, []).

Definition lift_ {A} (o : outcome A) : N A := fun _ _ attrs => (o, attrs, []).

Definition ask (c : collaborator) : N pyval := fun pf h attrs =>
  let r := pf h c in (r, attrs, [(c, r)]).

(** [cls.<name> = v] *)
Definition set_class (update : class_attributes -> class_attributes) : N unit :=
  fun _ _ attrs => (Ret tt, update attrs, []).

(** [cls.<name>]: an [AttributeError] when the attribute was never set. *)
Definition class_attribute (name : string) (field : class_attributes -> option pyval) : N pyval :=
  fun _ _ attrs =>
    match field attrs with
    | Some v => (Ret v, attrs, [])
    | None => (Raise (Exn AttributeError name), attrs, [])
    end.

(** [v is None] *)
Definition is_None (v : pyval) : bool :=
  match v with PNone => true | _ => false end.

(** [object.__new__(cls)]: the allocation of an instance of [cls].  The
    parent class [AbstractJobActions] of [Copy] comes from another package;
    its [__new__] is taken to be this one.  An object is represented by its
    class; its three flags are set by [__init__]. *)
Definition object__new__ (cls : class) : N class := mret cls.

(** [super().__new__(cls)] written in the body of [base.__new__]:
    [super(base, cls)] raises a [TypeError] unless [cls] is a subclass of
    [base]; otherwise the next [__new__] of the hierarchy runs. *)
Definition super__new__ (base : class) (next : class -> N class) (cls : class) : N class :=
  if issubclass cls base then next cls
  else raise_ (Exn TypeError "super(type, obj): obj must be an instance or subtype of type").

(** Copy.__init__ (copy.py, lines 59-91) with its two optional arguments;
    it leaves the three flags at [None], which is [init_instance]. *)
Definition Copy__init__ (cdm udw : pyval) : N unit :=
  ip_address ← ask get_ip;
  self_udw ← (if is_None udw then ask (get_dune_underware_instance ip_address) else mret udw);
  self_cdm ← (if is_None cdm then ask (get_cdm_instance ip_address self_udw) else mret cdm);
  _ ← ask (Job self_cdm self_udw);
  _ ← ask JobManager;
  _ ← ask JobTicket;
  _ ← ask JobConfiguration;
  self_configuration ← ask (Configuration self_cdm);
  _ ← ask (familyname self_configuration);
  mret tt.

(** [cls(...)], that is [type.__call__]: the object that
    [cls.__new__] returns gets its [__init__] run when it is an instance of
    [cls]; no class here defines an [__init__] other than [Copy]'s. *)
Definition type__call__ (new : class -> N class) (cls : class) (cdm udw : pyval) : N class :=
  obj ← new cls;
  if issubclass obj cls then
    _ ← Copy__init__ cdm udw;
    mret obj
  else mret obj.

(** Copy.__new__ (copy.py, lines 41-57).  For [Copy] itself the family and
    product are fetched and stored on the class, [cls] is rebound to
    [CopyDune] and [super().__new__(cls)] allocates it: [CopyDune.__new__]
    is not run on this path. *)
Definition Copy__new__ (cls : class) : N class :=
  match cls with
  | ClsCopy =>
      ip_address ← ask get_ip;
      udw ← ask (get_dune_underware_instance ip_address);
      _ ← set_class (fun a => {| _udw := Some udw; _cdm := _cdm a;
                                 _configuration := _configuration a;
                                 _family_name := _family_name a;
                                 _product_name := _product_name a |});
      cdm ← ask (get_cdm_instance ip_address udw);
      _ ← set_class (fun a => {| _udw := _udw a; _cdm := Some cdm;
                                 _configuration := _configuration a;
                                 _family_name := _family_name a;
                                 _product_name := _product_name a |});
      configuration ← ask (Configuration cdm);
      _ ← set_class (fun a => {| _udw := _udw a; _cdm := _cdm a;
                                 _configuration := Some configuration;
                                 _family_name := _family_name a;
                                 _product_name := _product_name a |});
      family ← ask (familyname configuration);
      _ ← set_class (fun a => {| _udw := _udw a; _cdm := _cdm a;
                                 _configuration := _configuration a;
                                 _family_name := Some family;
                                 _product_name := _product_name a |});
      product ← ask (productname configuration);
      _ ← set_class (fun a => {| _udw := _udw a; _cdm := _cdm a;
                                 _configuration := _configuration a;
                                 _family_name := _family_name a;
                                 _product_name := Some product |});
      super__new__ ClsCopy object__new__ ClsCopyDune
  | _ => super__new__ ClsCopy object__new__ cls
  end.

(** CopyDune.__new__, lines 41 and 43: [super().__new__(cls)].  This is all
    that [CopyDune.__new__] does for a subclass of [CopyDune], and so the
    [__new__] of [CopyEnterprise] and [CopyDesignJet], which define none. *)
Definition CopyDune__new__inherited (cls : class) : N class :=
  super__new__ ClsCopyDune Copy__new__ cls.

(** [CopyBeam(...)] after its import (copy_homepro.py, lines
    34-35): both are answered by the platform.  The object is taken to be an
    instance of [CopyBeam], a subclass of [CopyHomePro] as the docstring of
    [CopyHomePro.__new__] has it. *)
Definition CopyBeam_call (cdm udw : pyval) : N class :=
  _ ← ask (CopyBeam cdm udw);
  mret ClsCopyBeam.

(** CopyHomePro.__new__ (copy_homepro.py, lines 16-39). *)
Definition CopyHomePro__new__ (caller_module : option string) (cdm udw : pyval)
    (cls : class) : N class :=
  match cls with
  | ClsCopyHomePro =>
      if foreign_caller caller_module "dunetuf.copy.dune.copy_dune" then
        raise_ (Exn RuntimeError
                  "CopyHomePro (and its subclasses) can only be instantiated via CopyDune.")
      else
        product ← class_attribute "_product_name" _product_name;
        is_beam ← lift_ (contains "beam" product);
        if is_beam : bool then CopyBeam_call cdm udw
        else super__new__ ClsCopyHomePro CopyDune__new__inherited cls
  | _ => super__new__ ClsCopyHomePro CopyDune__new__inherited cls
  end.

(** CopyDune.__new__ (copy_dune.py, lines 15-43).  The subclasses are
    instantiated from this module, so the caller that [CopyHomePro.__new__]
    sees is [dunetuf.copy.dune.copy_dune]. *)
Definition CopyDune__new__ (caller_module : option string) (cdm udw : pyval)
    (cls : class) : N class :=
  match cls with
  | ClsCopyDune =>
      if foreign_caller caller_module "dunetuf.copy.copy" then
        raise_ (Exn RuntimeError
                  "CopyDune (and its subclasses) can only be instantiated via Copy.")
      else
        family ← class_attribute "_family_name" _family_name;
        if eq_str family "enterprise" then
          type__call__ CopyDune__new__inherited ClsCopyEnterprise cdm udw
        else if eq_str family "designjet" then
          type__call__ CopyDune__new__inherited ClsCopyDesignJet cdm udw
        else if eq_str family "homepro" then
          type__call__ (CopyHomePro__new__ (Some "dunetuf.copy.dune.copy_dune") cdm udw)
            ClsCopyHomePro cdm udw
        else CopyDune__new__inherited cls
  | _ => CopyDune__new__inherited cls
  end.

(** [cls(cdm, udw)] written in the module [caller_module]: the [__new__] is
    the one that the method resolution order gives [cls]. *)
Definition construct (cls : class) (caller_module : option string) (cdm udw : pyval) : N class :=
  match cls with
  | ClsCopy => type__call__ Copy__new__ cls cdm udw
  | ClsCopyDune | ClsCopyEnterprise | ClsCopyDesignJet =>
      type__call__ (CopyDune__new__ caller_module cdm udw) cls cdm udw
  | ClsCopyHomePro => type__call__ (CopyHomePro__new__ caller_module cdm udw) cls cdm udw
  | ClsCopyBeam => CopyBeam_call cdm udw
  end.

End Construction.

(** Method resolution of [start] and [_updating_ticket] for an instance of
    each class. *)
Definition start (cls : class) : nat -> string -> string -> Z -> M pyval :=
  match cls with
  | ClsCopy => Copy.start
  | ClsCopyEnterprise => CopyEnterprise.start
  | ClsCopyDesignJet => CopyDesignJet.start
  | ClsCopyDune | ClsCopyHomePro | ClsCopyBeam => CopyDune.start
  end.

Definition _updating_ticket (cls : class) : pyval -> M pyval :=
  match cls with
  | ClsCopyEnterprise => CopyEnterprise._updating_ticket
  | _ => Copy._updating_ticket
  end.

Definition create_ticket (cls : class) : pyval -> M pyval :=
  Copy.create_ticket (_updating_ticket cls).

(** ** Scripted devices, as the repository's tests mock them *)

Module Mock.

Definition ready_info : pyval := PDict {[ "state" := PStr "ready" ]}.
Definition initializing_info : pyval := PDict {[ "state" := PStr "initializing" ]}.

(** A clock that advances with what was slept, one second per reading. *)
Fixpoint elapsed (tr : list event) : Q :=
  match tr with
  | [] => 0
  | EvSleep d :: tr' => d + elapsed tr'
  | EvTime _ :: tr' => 1 + elapsed tr'
  | _ :: tr' => elapsed tr'
  end.

(** A device on which every transition succeeds with [status], the job is
    [info], the feeder is loaded or not, the ticket reads [ticket] and the
    alert wait answers [alert]. *)
Definition device (status : Z) (info : pyval) (adf : bool) (ticket : outcome pyval)
    (copy_mode : string) (alert : outcome pyval) (timeout : Z) : Env :=
  {| env_call := fun _ c =>
       match c with
       | JM_change_job_state _ _ _ _ => Ret (PInt status)
       | JM_get_job_info _ _ => Ret info
       | JM_wait_for_job_state _ states => Ret (PStr (List.hd "" states))
       | JM_wait_for_all_previews_done _ => Ret (PBool true)
       | JM_wait_for_job_processing_sub_status _ => Ret PNone
       | JM_wait_for_alerts _ => alert
       | JM_alert_action _ _ => Ret PNone
       | JT_create _ => Ret (PStr "ticket_123")
       | JT_update _ _ => Ret PNone
       | JT_get_info _ => ticket
       | UDW_isMediaLoaded _ => Ret (PBool adf)
       | CDM_get _ => Ret (PDict {[ "copyMode" := PStr copy_mode ]})
       end;
     env_time := elapsed;
     WAIT_START_JOB_TIMEOUT := timeout |}.

Definition plain_ticket : pyval :=
  PDict {[ "src" := PDict {[ "scan" := PDict ∅ ]} ]}.

Definition jobBuild_ticket : pyval :=
  PDict {[ "src" := PDict {[ "scan" := PDict {[ "scanCaptureMode" := PStr "jobBuild" ]} ]} ]}.

Definition no_alert : outcome pyval := Raise (Exn TimeoutError "no alert").

(** The happy device of [test_start]. *)
Definition happy : Env :=
  device 200 ready_info true (Ret plain_ticket) "printAfterScanning" (Ret (PList [])) 10.

End Mock.


(** ** Reading a trace *)

Definition calls (evs : list event) : list call :=
  flat_map (fun e => match e with EvCall c _ => [c] | _ => [] end) evs.

(** The calls that move or await the job's state. *)
Definition job_control (c : call) : bool :=
  match c with
  | JM_change_job_state _ _ _ _
  | JM_wait_for_job_state _ _
  | JM_wait_for_all_previews_done _
  | JM_wait_for_job_processing_sub_status _ => true
  | _ => false
  end.

Definition job_control_calls (evs : list event) : list call :=
  List.filter job_control (calls evs).

Definition is_poll (c : call) : bool :=
  match c with JM_get_job_info _ _ => true | _ => false end.

(** Every call but the readiness polls. *)
Definition steps (evs : list event) : list call :=
  List.filter (fun c => negb (is_poll c)) (calls evs).

Definition Initialize (job_id : string) : call :=
  JM_change_job_state job_id "Initialize" "initializeProcessing" NoHeader.
Definition Preview (job_id : string) : call :=
  JM_change_job_state job_id "Preview" "prepareProcessing" NoHeader.
Definition WaitReady (job_id : string) : call := JM_wait_for_job_state job_id ["ready"].
Definition Start (job_id : string) : call :=
  JM_change_job_state job_id "Start" "startProcessing" (Header PNone).
Definition PrepareProcessing (job_id : string) : call :=
  JM_change_job_state job_id "Prepare_Processing" "prepareProcessing" NoHeader.
Definition WaitProcessing (job_id : string) : call :=
  JM_wait_for_job_state job_id ["processing"].
Definition WaitPrinting : call := JM_wait_for_job_processing_sub_status "printing".
Definition WaitAlert : call := JM_wait_for_alerts "flatbedAddPage".
Definition AnswerAlert : call := JM_alert_action "flatbedAddPage" "Response_02".
Definition AdfLoaded : call := UDW_isMediaLoaded "ADF".
Definition AlertTimeoutLog : event := EvLog "flatbed Add page is not available" [].

(** [n] preview iterations, as job-control calls. *)
Fixpoint preview_iterations (n : nat) (job_id : string) : list call :=
  match n with
  | O => []
  | S n' => Preview job_id :: WaitReady job_id :: preview_iterations n' job_id
  end.

(** Some readiness poll of the trace read state "ready". *)
Definition reads_ready (e : event) : bool :=
  match e with
  | EvCall (JM_get_job_info _ _) (Ret info) =>
      match get info "state" PNone with
      | Ret st => eq_str st "ready"
      | Raise _ => false
      end
  | _ => false
  end.

Definition observed_ready (evs : list event) : bool := existsb reads_ready evs.

Definition slept (e : event) : Q :=
  match e with EvSleep d => d | _ => 0 end.

(** A clock that never runs backwards and on which a sleep of [d] seconds
    takes at least [d] seconds. *)
Definition clock_advances (env : Env) : Prop :=
  forall h e, (env_time env h + slept e <= env_time env (h ++ [e]))%Q.

(** Every reply to a readiness poll of [job_id] is a dict. *)
Definition polls_answered (env : Env) (job_id : string) : Prop :=
  forall h, exists d, env_call env h (JM_get_job_info job_id PNone) = Ret (PDict d).

(** A section [p[top][sub]] of a payload: when [top] is present it is a
    dict whose [sub] entry is a dict. *)
Definition section_ok (d : gmap string pyval) (top sub : string) : Prop :=
  forall x, d !! top = Some x ->
    exists dx ds, x = PDict dx /\ dx !! sub = Some (PDict ds).

(** A valid payload: a dict with well-formed [src.scan] and [dest.print]
    sections, as in the skeleton [{src:{scan:{}}, dest:{print:{}}}]. *)
Definition valid_payload (p : pyval) : Prop :=
  exists d, p = PDict d /\ section_ok d "src" "scan" /\ section_ok d "dest" "print".

(** The events [preview_start] may add: logs, clock and sleeps, the
    Initialize and Preview transitions, polls and waits for "ready". *)
Definition preparation_event (job_id : string) (e : event) : Prop :=
  match e with
  | EvCall c _ =>
      c = Initialize job_id \/ c = JM_get_job_info job_id PNone \/
      c = Preview job_id \/ c = WaitReady job_id
  | EvLog t _ => t = "Starting job : %s" \/ t = "Preview Job Id : {}"
  | EvTime _ | EvSleep _ => True
  end.

(** Every pause of the trace lasts two seconds. *)
Definition two_second_interval (evs : list event) : Prop :=
  forall d, In (EvSleep d) evs -> d = 2%Q.

(** The trace of a wait for readiness that started at [start_time] with
    the bound [timeout]: each round reads the clock; within the bound it
    polls the job, ends the wait when the poll read "ready" and otherwise
    pauses for two seconds before the next round; the first reading at or
    past the bound ends the wait without a poll.  The boolean tells whether
    the wait ended on a poll that read "ready". *)
Inductive wait_rounds (job_id : string) (start_time : Q) (timeout : Z)
    : list event -> bool -> Prop :=
| wait_timed_out now :
    ~ (now - start_time < inject_Z timeout)%Q ->
    wait_rounds job_id start_time timeout [EvTime now] false
| wait_ready now info :
    (now - start_time < inject_Z timeout)%Q ->
    reads_ready (EvCall (JM_get_job_info job_id PNone) (Ret info)) = true ->
    wait_rounds job_id start_time timeout
      [EvTime now; EvCall (JM_get_job_info job_id PNone) (Ret info)] true
| wait_again now info rounds ready :
    (now - start_time < inject_Z timeout)%Q ->
    reads_ready (EvCall (JM_get_job_info job_id PNone) (Ret info)) = false ->
    wait_rounds job_id start_time timeout rounds ready ->
    wait_rounds job_id start_time timeout
      (EvTime now :: EvCall (JM_get_job_info job_id PNone) (Ret info) :: EvSleep 2 :: rounds)
      ready.

(** Every reply and every clock reading of [evs] is what the environment
    gives after [h] and the events of [evs] before it. *)
Fixpoint answered_by (env : Env) (h evs : list event) : Prop :=
  match evs with
  | [] => True
  | e :: rest =>
      match e with
      | EvCall c r => r = env_call env h c
      | EvTime t => t = env_time env h
      | _ => True
      end
      /\ answered_by env (h ++ [e]) rest
  end.

(** What an enterprise [start] adds to the trace after the preparation when
    it handles no alert: the settling pause, the Start transition, the log
    line and the feeder query. *)
Definition start_without_alert (job_id : string) (code adf : pyval) : list event :=
  [ EvSleep (5 # 2);
    EvCall (Start job_id) (Ret code);
    EvLog "Waiting for job to be ready" [];
    EvCall AdfLoaded (Ret adf) ].

(** The alert handling of a run of [start]: the flatbedAddPage wait happens
    exactly when [wanted]; it comes after a Start transition that returned;
    an alert that arrived is answered with "Response_02"; a [TimeoutError]
    of the exchange is logged and [start] returns the status code of the
    Start transition. *)
Definition alert_handling (job_id : string) (wanted : Prop) (o : outcome pyval)
    (evs : list event) : Prop :=
  (In WaitAlert (calls evs) <-> wanted)
  /\ (In WaitAlert (calls evs) ->
      exists pre code post,
        evs = pre ++ EvCall (Start job_id) (Ret code) :: post /\ ~ In WaitAlert (calls pre))
  /\ (forall r, In (EvCall WaitAlert (Ret r)) evs -> In AnswerAlert (calls evs))
  /\ (forall e, is_TimeoutError e = true ->
        In (EvCall WaitAlert (Raise e)) evs \/ In (EvCall AnswerAlert (Raise e)) evs ->
        In AlertTimeoutLog evs /\
        exists code, In (EvCall (Start job_id) (Ret code)) evs /\ o = Ret code).

(** The feeder was reported as not loaded. *)
Definition adf_reported_unloaded (evs : list event) : Prop :=
  exists adf, In (EvCall AdfLoaded (Ret adf)) evs /\ truthy adf = false.

(** When the enterprise variant waits for the alert: without previews, on
    the flags that ticket normalization left in the instance; with
    previews, on the feeder state the device reports. *)
Definition enterprise_wanted (reps : Z) (self : instance) (evs : list event) : Prop :=
  (reps = 0 /\ truthy (_adf_loaded self) = false /\ is_True (_output_duplex self) = true
   /\ exists adf, In (EvCall AdfLoaded (Ret adf)) evs)
  \/ (reps <> 0 /\ adf_reported_unloaded evs).

(** [configuration["copyMode"] == "printWhileScanning"] *)
Definition print_while_scanning (configuration : pyval) : bool :=
  match getitem configuration "copyMode" with
  | Ret mode => eq_str mode "printWhileScanning"
  | Raise _ => false
  end.

(** When [start] waits for the alert, for each class. *)
Definition alert_wanted (cls : class) (reps : Z) (self : instance) (evs : list event) : Prop :=
  match cls with
  | ClsCopyEnterprise => enterprise_wanted reps self evs
  | _ => reps <> 0 /\ adf_reported_unloaded evs
  end.

(** An enterprise instance after a ticket that asked for duplex output. *)
Definition duplex_instance : instance :=
  {| _adf_loaded := PNone; _output_duplex := PBool true; _duplex := PNone |}.

(** ** Normal forms of ticket normalization *)

(** [payload[a][b][c] == v], false when the path is missing. *)
Definition reads (payload : pyval) (a b c v : string) : bool :=
  match item3 payload a b c with
  | Ret x => eq_str x v
  | Raise _ => false
  end.

(** The instance after the base rules on a payload they accept. *)
Definition recorded (payload : pyval) (self : instance) : instance :=
  {| _adf_loaded :=
       if reads payload "src" "scan" "mediaSource" "flatbed" then PBool false
       else _adf_loaded self;
     _output_duplex :=
       if reads payload "dest" "print" "plexMode" "duplex" then PBool true
       else _output_duplex self;
     _duplex :=
       if reads payload "src" "scan" "plexMode" "duplex" then PBool true
       else _duplex self |}.

(** The binding of a duplex payload has to be forced. *)
Definition binding_forced (payload : pyval) : bool :=
  reads payload "dest" "print" "plexMode" "duplex"
  && match item3 payload "dest" "print" "duplexBinding" with
     | Ret x => eq_str x "oneSided"
     | Raise _ => true
     end.

(** The payload after the base rules on a payload they accept. *)
Definition normalized (payload : pyval) : pyval :=
  if binding_forced payload then
    match setitem3 payload "dest" "print" "duplexBinding" (PStr "twoSidedLongEdge") with
    | Ret p => p
    | Raise _ => payload
    end
  else payload.

(** [src.scan.resolution] of the payload is truthy. *)
Definition resolution_set (payload : pyval) : bool :=
  match item3 payload "src" "scan" "resolution" with
  | Ret v => truthy v
  | Raise _ => false
  end.

(** The payload after the enterprise override. *)
Definition overridden (payload : pyval) : pyval :=
  if resolution_set payload then
    match setitem3 payload "src" "scan" "resolution" (PStr "e600Dpi") with
    | Ret p => p
    | Raise _ => payload
    end
  else payload.

(** The payload that [_updating_ticket] of each class leaves. *)
Definition normal_form (cls : class) (payload : pyval) : pyval :=
  match cls with
  | ClsCopyEnterprise => overridden (normalized payload)
  | _ => normalized payload
  end.

(** A flag of the instance is left alone or set to [v]. *)
Definition kept_or (v : pyval) (before after : pyval) : Prop := after = before \/ after = v.

(** Normalization only ever sets [_adf_loaded] to [False] and the two
    duplex flags to [True], and reaches no collaborator. *)
Definition flags_only (self self' : instance) (evs : list event) : Prop :=
  evs = []
  /\ kept_or (PBool false) (_adf_loaded self) (_adf_loaded self')
  /\ kept_or (PBool true) (_output_duplex self) (_output_duplex self')
  /\ kept_or (PBool true) (_duplex self) (_duplex self').

Definition simplex_adf_payload : pyval :=
  PDict {[ "src" := PDict {[ "scan" := PDict {[ "mediaSource" := PStr "adf" ]} ]};
           "dest" := PDict {[ "print" := PDict {[ "plexMode" := PStr "simplex" ]} ]} ]}.

Definition flatbed_duplex_payload : pyval :=
  PDict {[ "src" := PDict {[ "scan" := PDict {[ "resolution" := PStr "e300Dpi";
                                                "mediaSource" := PStr "flatbed" ]} ]};
           "dest" := PDict {[ "print" := PDict {[ "plexMode" := PStr "duplex" ]} ]} ]}.

Definition scanless_payload : pyval :=
  PDict {[ "src" := PDict ∅;
           "dest" := PDict {[ "print" := PDict {[ "plexMode" := PStr "duplex" ]} ]} ]}.

Definition printless_payload : pyval :=
  PDict {[ "src" := PDict {[ "scan" := PDict {[ "mediaSource" := PStr "flatbed" ]} ]};
           "dest" := PDict ∅ ]}.

Definition color_payload : pyval :=
  PDict {[ "src" := PDict {[ "scan" := PDict {[ "colorMode" := PStr "color" ]} ]};
           "dest" := PDict {[ "print" := PDict {[ "copies" := PInt 2 ]} ]} ]}.

(** ** Reading a run of [start] *)

(** A device scripted per action: [status] gives the status code of each
    transition, [previews] the reply of the wait for all previews and
    [configuration] the copy configuration. *)
Definition scripted (status : string -> Z) (ticket : outcome pyval) (previews : pyval)
    (configuration : pyval) : Env :=
  {| env_call := fun _ c =>
       match c with
       | JM_change_job_state _ action _ _ => Ret (PInt (status action))
       | JM_get_job_info _ _ => Ret Mock.ready_info
       | JM_wait_for_all_previews_done _ => Ret previews
       | JT_get_info _ => ticket
       | CDM_get _ => Ret configuration
       | _ => Ret PNone
       end;
     env_time := Mock.elapsed;
     WAIT_START_JOB_TIMEOUT := 10 |}.

Definition all_200 (action : string) : Z := 200.

(** A device whose ticket store is down and whose alert never comes. *)
Definition flaky : Env :=
  Mock.device 200 Mock.ready_info false (Raise (Exn RuntimeError "ticket store down"))
    "printWhileScanning" Mock.no_alert 10.

(** A device on which the job never leaves "initializing". *)
Definition stuck : Env :=
  Mock.device 200 Mock.initializing_info true (Ret Mock.plain_ticket) "" (Ret PNone) 5.

(** The ticket did not read "jobBuild": it was not read at all, the read
    failed, or the field is missing or different. *)
Definition single_segment (ticket_id : string) (evs : list event) : Prop :=
  forall data, In (EvCall (JT_get_info ticket_id) (Ret data)) evs ->
    item3 data "src" "scan" "scanCaptureMode" <> Ret (PStr "jobBuild").

(** Every call of the trace that raised raised the outcome of the run. *)
Definition raises_outcome {A} (o : outcome A) (evs : list event) : Prop :=
  forall c e, In (EvCall c (Raise e)) evs -> o = Raise e.

(** A failed call that [start] outlives: the alert exchange timing out
    (every class with alert handling), the ticket read (DesignJet). *)
Definition tolerated (cls : class) (ticket_id : string) (c : call) (e : exn) : Prop :=
  match cls with
  | ClsCopy => False
  | ClsCopyDesignJet => c = JT_get_info ticket_id
  | _ => (c = WaitAlert \/ c = AnswerAlert) /\ is_TimeoutError e = true
  end.

(** The readiness polls of a trace. *)
Definition polls (evs : list event) : list call := List.filter is_poll (calls evs).

(** How many polls fit in a wait of [timeout] seconds at two-second
    intervals. *)
Definition max_polls (timeout : Z) : nat := Z.to_nat ((timeout + 1) / 2).

(** The pauses of two and a half seconds: one after each Preview
    transition, one before the Start transition. *)
Definition is_settle (e : event) : bool :=
  match e with
  | EvSleep d => Qeq_bool d (5 # 2)
  | _ => false
  end.

Definition settle_pauses (evs : list event) : nat := length (List.filter is_settle evs).

(** How many such pauses a run of each class makes up to its Start
    transition. *)
Definition settle_count (cls : class) (preview_reps : Z) : nat :=
  match cls with
  | ClsCopy | ClsCopyDesignJet => 0
  | ClsCopyEnterprise => S (Z.to_nat preview_reps)
  | _ => if (preview_reps =? 0)%Z then 0 else S (Z.to_nat preview_reps)
  end.

(** The Start transitions of a trace, of any job. *)
Definition is_Start (c : call) : bool :=
  match c with
  | JM_change_job_state _ action _ _ => String.eqb action "Start"
  | _ => false
  end.

Definition Start_calls (evs : list event) : list call := List.filter is_Start (calls evs).

(** Some collaborator call of the trace raised [e]. *)
Definition failed_call (e : exn) (evs : list event) : Prop :=
  exists c, In (EvCall c (Raise e)) evs.

(** Some poll was answered by a value whose [get] raised [e]. *)
Definition unreadable_job_info (job_id : string) (e : exn) (evs : list event) : Prop :=
  exists info, In (EvCall (JM_get_job_info job_id PNone) (Ret info)) evs
               /\ get info "state" PNone = Raise e.

Definition ReadConfiguration : call := CDM_get COPY_CONFIGURATION_ENDPOINT.

(** The ways in which the preparation of a job fails: a collaborator call
    raised; Initialize did not return 200; the job was not ready in time; a
    poll was answered by a value without [get]. *)
Definition preparation_failure (job_id : string) (env : Env) (e : exn) (evs : list event)
    : Prop :=
  failed_call e evs
  \/ (e = Exn AssertionError ""
      /\ exists status, In (EvCall (Initialize job_id) (Ret status)) evs
                        /\ eq_int status 200 = false)
  \/ e = Exn TimeoutError (Copy.timeout_message (WAIT_START_JOB_TIMEOUT env))
  \/ unreadable_job_info job_id e evs.

(** The failures of the two-segment branch of the DesignJet [start]. *)
Definition designjet_failure (job_id : string) (e : exn) (evs : list event) : Prop :=
  (e = Exn AssertionError ""
   /\ exists status, In (EvCall (PrepareProcessing job_id) (Ret status)) evs
                     /\ eq_int status 200 = false)
  \/ (e = Exn AssertionError "Preview jobs did not finish successfully"
      /\ exists result, In (EvCall (JM_wait_for_all_previews_done job_id) (Ret result)) evs
                        /\ truthy result = false)
  \/ (exists configuration,
        In (EvCall ReadConfiguration (Ret configuration)) evs
        /\ getitem configuration "copyMode" = Raise e).

(** Every run of [m] on [env] ends: it returns or raises, whatever the
    history and the instance. *)
Definition terminates {A} (m : M A) (env : Env) : Prop :=
  forall h self, exists r, m env h self = Some r.

Definition CopyDune_guard_message : string :=
  "CopyDune (and its subclasses) can only be instantiated via Copy.".

Definition CopyHomePro_guard_message : string :=
  "CopyHomePro (and its subclasses) can only be instantiated via CopyDune.".

(** ** Reading a construction *)

(** A platform on which every factory answers, whose configuration reports
    [family] and [product], and on which [CopyBeam(...)] answers [beam]. *)
Definition reports (family product : pyval) (beam : outcome pyval) : Construction.platform :=
  fun _ c =>
    match c with
    | Construction.get_ip => Ret (PStr "127.0.0.1")
    | Construction.get_dune_underware_instance _ => Ret (PStr "udw")
    | Construction.get_cdm_instance _ _ => Ret (PStr "cdm")
    | Construction.Configuration _ => Ret (PStr "configuration")
    | Construction.familyname _ => Ret family
    | Construction.productname _ => Ret product
    | Construction.CopyBeam _ _ => beam
    | _ => Ret PNone
    end.

(** The import of [copy_beam] where its module is absent, as in this source
    tree. *)
Definition copy_beam_missing : outcome pyval :=
  Raise (Exn (OtherError "ModuleNotFoundError")
           "No module named 'dunetuf.copy.dune.homepro.copy_beam'").

(** The class attributes after [Copy] was called on a platform that reports
    [family] and [product]. *)
Definition fetched (family product : pyval) : Construction.class_attributes :=
  {| Construction._udw := Some (PStr "udw");
     Construction._cdm := Some (PStr "cdm");
     Construction._configuration := Some (PStr "configuration");
     Construction._family_name := Some family;
     Construction._product_name := Some product |}.

(** The runs of [Copy.__init__] in a trace, counted by the [Job] that each
    of them creates. *)
Definition init_runs (evs : list Construction.setup_event) : nat :=
  length (List.filter (fun e => match fst e with Construction.Job _ _ => true | _ => false end)
            evs).

(** Every collaborator of construction answers. *)
Definition all_answer (pf : Construction.platform) : Prop :=
  forall h c, exists v, pf h c = Ret v.

(** The outcome of [cls(cdm, udw)] when [cls.__new__] only allocates: that
    of [Copy.__init__]. *)
Definition initialized (cls : class) (cdm udw : pyval) : Construction.N class :=
  fun pf h attrs =>
    match Construction.Copy__init__ cdm udw pf h attrs with
    | (Ret _, attrs', evs) => (Ret cls, attrs', evs)
    | (Raise e, attrs', evs) => (Raise e, attrs', evs)
    end.

(** ** class Copy, deprecated methods (copy/copy.py) *)

Module CopyDeprecated.

(** A computation that uses a value of the settings as a dict key.  The
    dicts of [pyval] are keyed by strings: [None] stands for a run that
    keys a dict by another hashable value (a number, a boolean, [None]),
    which this model of values does not represent. *)
Definition K (A : Type) : Type := option (outcome A).

#[local] Instance K_ret : MRet K := fun A a => Some (Ret a).

#[local] Instance K_bind : MBind K := fun A B k m =>
  match m with
  | Some (Ret a) => k a
  | Some (Raise e) => Some (Raise e)
  | None => None
  end.

Definition klift {A} (o : outcome A) : K A := Some o.

(** The key that [d[v] = ...] uses; lists and dicts are unhashable. *)
Definition as_key (v : pyval) : K string :=
  match v with
  | PStr s => Some (Ret s)
  | PList _ => Some (Raise (Exn TypeError "unhashable type: 'list'"))
  | PDict _ => Some (Raise (Exn TypeError "unhashable type: 'dict'"))
  | _ => None
  end.

(** [self[section][field] = settings[name]] when [name in settings]. *)
Definition copy_setting (settings : pyval) (name : string) (section : K string)
    (field : string) (self : gmap string pyval) : K (gmap string pyval) :=
  present ← klift (contains name settings);
  if present : bool then
    value ← klift (getitem settings name);
    section ← section;
    fields ← klift (getitem (PDict self) section);
    fields ← klift (setitem fields field value);
    mret (<[section := fields]> self)
  else mret self.

(** The [pipelineOptions] entry, lines 1024-1032. *)
Definition output_canvas (settings : pyval) : K pyval :=
  outputCanvasMediaSize ← klift (item2 settings "output_canvas" "outputCanvasMediaSize");
  outputCanvasMediaId ← klift (item2 settings "output_canvas" "outputCanvasMediaId");
  outputCanvasCustomWidth ← klift (item2 settings "output_canvas" "outputCanvasCustomWidth");
  outputCanvasCustomLength ← klift (item2 settings "output_canvas" "outputCanvasCustomLength");
  outputCanvasAnchor ← klift (item2 settings "output_canvas" "outputCanvasAnchor");
  outputCanvasOrientation ← klift (item2 settings "output_canvas" "outputCanvasOrientation");
  mret (PDict {[ "imageModifications" := PDict {[
          "outputCanvasMediaSize" := outputCanvasMediaSize;
          "outputCanvasMediaId" := outputCanvasMediaId;
          "outputCanvasCustomWidth" := outputCanvasCustomWidth;
          "outputCanvasCustomLength" := outputCanvasCustomLength;
          "outputCanvasAnchor" := outputCanvasAnchor;
          "outputCanvasOrientation" := outputCanvasOrientation ]} ]}).

(** Lines 1003-1049. *)
Definition build_payload (settings : pyval) : K pyval :=
  let payload : gmap string pyval := ∅ in
  has_src ← klift (contains "src" settings);
  source ← (if has_src : bool then klift (getitem settings "src") else mret (PStr "scan"));
  source ← as_key source;
  let src : gmap string pyval := {[ source := PDict ∅ ]} in
  let settings_src := (v ← klift (getitem settings "src"); as_key v) in
  src ← copy_setting settings "color_mode" settings_src "colorMode" src;
  src ← copy_setting settings "resolution" settings_src "resolution" src;
  let payload := <["src" := PDict src]> payload in
  has_canvas ← klift (contains "output_canvas" settings);
  payload ← (if has_canvas : bool then
               options ← output_canvas settings;
               mret (<["pipelineOptions" := options]> payload)
             else mret payload);
  has_dest ← klift (contains "dest" settings);
  destination ← (if has_dest : bool then klift (getitem settings "dest")
                 else mret (PStr "print"));
  destination ← as_key destination;
  let dest : gmap string pyval := {[ destination := PDict ∅ ]} in
  dest ← copy_setting settings "copies" (mret destination) "copies" dest;
  dest ← copy_setting settings "rotate" (mret destination) "rotate" dest;
  dest ← copy_setting settings "mediaSource" (mret destination) "mediaSource" dest;
  mret (PDict (<["dest" := PDict dest]> payload)).

(** Lines 1358-1363.  The endpoint constant of [CdmEndpoints] is taken to
    be the one that [self._cdm] carries. *)
Definition is_copymode_supported : M bool :=
  response ← call_ (CDM_get COPY_CONFIGURATION_ENDPOINT);
  has_mode ← lift (contains "copyMode" response);
  if has_mode : bool then
    mode ← lift (getitem response "copyMode");
    mret (negb (eq_str mode "_undefined_"))
  else mret false.

(** Lines 1365-1369. *)
Definition is_copymode_indirect : M bool :=
  response ← call_ (CDM_get COPY_CONFIGURATION_ENDPOINT);
  mode ← lift (getitem response "copyMode");
  mret (eq_str mode "printAfterScanning").

(** Lines 1371-1375. *)
Definition is_copymode_direct : M bool :=
  response ← call_ (CDM_get COPY_CONFIGURATION_ENDPOINT);
  mode ← lift (getitem response "copyMode");
  mret (eq_str mode "printWhileScanning").

End CopyDeprecated.

(** The section name that [build_payload] takes from the settings. *)
Definition section_name (settings : gmap string pyval) (key : string) (default : string)
    : pyval :=
  match settings !! key with
  | Some name => name
  | None => PStr default
  end.

Definition copies_settings : pyval :=
  PDict {[ "copies" := PInt 2; "rotate" := PInt 90 ]}.

Definition color_settings : pyval :=
  PDict {[ "color_mode" := PStr "color" ]}.

Definition usb_settings : gmap string pyval :=
  {[ "src" := PStr "usb"; "color_mode" := PStr "color" ]}.

(** * Properties *)

Example str_of_int_10 : str_of_int 10 = "10".
Proof. reflexivity. Qed.

Example str_of_int_0 : str_of_int 0 = "0".
Proof. reflexivity. Qed.

Example str_of_int_neg : str_of_int (-5) = "-5".
Proof. reflexivity. Qed.

(** [test_start]: Initialize with three arguments, Start with an explicit
    [None] header, status 200 returned. *)
Example test_start :
  exists self evs,
    Copy.start 5 "job_456" "ticket_123" 0 Mock.happy [] init_instance
      = Some (Ret (PInt 200), self, evs)
    /\ calls evs =
       [ JM_change_job_state "job_456" "Initialize" "initializeProcessing" NoHeader;
         JM_get_job_info "job_456" PNone;
         JM_change_job_state "job_456" "Start" "startProcessing" (Header PNone) ].
Proof. do 2 eexists. split; vm_compute; reflexivity. Qed.

(** [test_create_ticket]: the id of the ticket store is returned and the
    store is updated once, with the payload. *)
Example test_create_ticket :
  let payload :=
    PDict {[ "src" := PDict {[ "scan" := PDict {[ "colorMode" := PStr "color" ]} ]};
             "dest" := PDict {[ "print" := PDict {[ "copies" := PInt 2 ]} ]} ]} in
  exists self evs,
    create_ticket ClsCopyDune payload Mock.happy [] init_instance
      = Some (Ret (PStr "ticket_123"), self, evs)
    /\ calls evs = [ JT_create Copy.base_payload; JT_update (PStr "ticket_123") payload ].
Proof. do 2 eexists. split; vm_compute; reflexivity. Qed.

(** The fixture of the tests: [Copy()] on a device of the family "dune"
    gives a plain [CopyDune]. *)
Example Copy_new_allocates_CopyDune :
  fst (fst (Construction.construct ClsCopy (Some "tests.copy.test_copy") PNone PNone
              (reports (PStr "dune") (PStr "") copy_beam_missing) []
              Construction.no_attributes))
  = Ret ClsCopyDune.
Proof. reflexivity. Qed.

(** [test_start_timeout_waiting_for_ready] *)
Example test_start_timeout_waiting_for_ready :
  exists self evs,
    Copy.start 10 "job_456" "ticket_123" 0
      (Mock.device 200 Mock.initializing_info true (Ret Mock.plain_ticket) "" (Ret PNone) 5)
      [] init_instance
    = Some (Raise (Exn TimeoutError "Job has not reached the ready state after 5 seconds"),
            self, evs).
Proof. do 2 eexists. vm_compute. reflexivity. Qed.

(** ** The monad *)

Lemma bind_inv {A B} (m : M A) (k : A -> M B) env h self r :
  (m ≫= k) env h self = Some r ->
  (exists a self1 evs1 o self2 evs2,
      m env h self = Some (Ret a, self1, evs1) /\
      k a env (h ++ evs1) self1 = Some (o, self2, evs2) /\
      r = (o, self2, evs1 ++ evs2))
  \/ (exists e self1 evs1, m env h self = Some (Raise e, self1, evs1) /\ r = (Raise e, self1, evs1)).
Proof.
  unfold mbind, M_bind.
  destruct (m env h self) as [[[[a|e] self1] evs1]|]; [|intros [= <-]; right; eauto|discriminate].
  destruct (k a env (h ++ evs1) self1) as [[[o self2] evs2]|] eqn:Hk; [|discriminate].
  intros [= <-]. left. repeat eexists; eauto.
Qed.

(** A bind whose first step is known to return. *)
Lemma bind_run_ret {A B} (m : M A) (k : A -> M B) env h self a self1 evs1 :
  m env h self = Some (Ret a, self1, evs1) ->
  (m ≫= k) env h self =
    match k a env (h ++ evs1) self1 with
    | Some (o, self2, evs2) => Some (o, self2, evs1 ++ evs2)
    | None => None
    end.
Proof. intros H. unfold mbind, M_bind. rewrite H. reflexivity. Qed.

Lemma calls_app evs1 evs2 : calls (evs1 ++ evs2) = calls evs1 ++ calls evs2.
Proof. unfold calls. apply flat_map_app. Qed.

Lemma job_control_calls_app evs1 evs2 :
  job_control_calls (evs1 ++ evs2) = job_control_calls evs1 ++ job_control_calls evs2.
Proof. unfold job_control_calls. rewrite calls_app. apply List.filter_app. Qed.

Lemma steps_app evs1 evs2 : steps (evs1 ++ evs2) = steps evs1 ++ steps evs2.
Proof. unfold steps. rewrite calls_app. apply List.filter_app. Qed.

(** ** Symbolic execution of a run *)

Ltac run_unfold H :=
  unfold Copy.get_job_info, Copy.change_job_state, Copy.wait_for_state,
    Copy.get_copy_configuration, CopyDune.answer_flatbedAddPage in H;
  unfold try_except, assert_ in H;
  unfold mbind, M_bind, mret, M_ret, call_, lift, raise, time_time, time_sleep, logging_info,
    read_WAIT_START_JOB_TIMEOUT, get_self in H.

Ltac find_scrut t :=
  lazymatch t with
  | context [match ?y with _ => _ end] => find_scrut y
  | _ => t
  end.

Ltac exec_step H :=
  lazymatch type of H with
  | Some _ = Some _ => fail
  | None = Some _ => fail
  | context [match ?x with _ => _ end] =>
      let y := find_scrut x in destruct y eqn:?; simpl in H
  end.

Ltac exec H := run_unfold H; simpl in H; repeat exec_step H; try discriminate H.

(** The end of a run: the equation between two results is split. *)
Ltac finish H := injection H as <- <- <-.

Ltac prep_events :=
  repeat first [ assumption | apply List.Forall_nil | apply List.Forall_cons; [simpl; auto 6|] ].

Lemma wait_ready_events fuel job_id t0 env : forall h self o self' evs,
  Copy.wait_ready fuel job_id t0 env h self = Some (o, self', evs) ->
  self' = self /\ Forall (preparation_event job_id) evs /\ steps evs = [] /\
  job_control_calls evs = [].
Proof.
  induction fuel as [|fuel IH]; intros h self o self' evs H; [discriminate|].
  simpl in H. exec H; finish H;
    try (match goal with Hrec : Copy.wait_ready _ _ _ _ _ _ = Some _ |- _ =>
           apply IH in Hrec; destruct Hrec as (-> & Hprep & Hsteps & Hjc) end);
    (split; [reflexivity|split; [prep_events|split; [try assumption; try reflexivity|try assumption; try reflexivity]]]).
Qed.

Lemma calls_cons e evs :
  calls (e :: evs) = match e with EvCall c _ => [c] | _ => [] end ++ calls evs.
Proof. reflexivity. Qed.

Lemma steps_cons e evs :
  steps (e :: evs) =
  match e with EvCall c _ => if is_poll c then [] else [c] | _ => [] end ++ steps evs.
Proof.
  change (e :: evs) with ([e] ++ evs). rewrite steps_app. f_equal.
  destruct e as [c r| | |]; unfold steps; simpl; try destruct (is_poll c); reflexivity.
Qed.

Lemma job_control_calls_cons e evs :
  job_control_calls (e :: evs) =
  match e with EvCall c _ => if job_control c then [c] else [] | _ => [] end
    ++ job_control_calls evs.
Proof.
  change (e :: evs) with ([e] ++ evs). rewrite job_control_calls_app. f_equal.
  destruct e as [c r| | |]; unfold job_control_calls; simpl;
    try destruct (job_control c); reflexivity.
Qed.

(** Normal form of the projections of a trace built from known events
    and the traces of sub-runs. *)
Ltac project :=
  rewrite ?List.app_nil_r;
  repeat first [ rewrite steps_cons | rewrite job_control_calls_cons | rewrite calls_cons
               | rewrite steps_app | rewrite job_control_calls_app | rewrite calls_app ];
  change (steps []) with (@nil call); change (job_control_calls []) with (@nil call);
  change (calls []) with (@nil call);
  simpl.

Lemma Copy_preview_start_events fuel job_id ticket_id env h self o self' evs :
  Copy.preview_start fuel job_id ticket_id env h self = Some (o, self', evs) ->
  self' = self /\ Forall (preparation_event job_id) evs /\
  steps evs = [Initialize job_id] /\ job_control_calls evs = [Initialize job_id].
Proof.
  intros H. unfold Copy.preview_start in H. exec H; finish H;
    try (match goal with Hrec : Copy.wait_ready _ _ _ _ _ _ = Some _ |- _ =>
           apply wait_ready_events in Hrec; destruct Hrec as (-> & Hprep & Hsteps & Hjc) end);
    rewrite ?List.app_nil_r;
    (split; [reflexivity|split; [prep_events|]]);
    project; rewrite ?Hsteps, ?Hjc; auto.
Qed.

Lemma preview_loop_events job_id env n : forall h self o self' evs,
  for_range_nat n (CopyDune.preview_iteration job_id) env h self = Some (o, self', evs) ->
  self' = self /\ Forall (preparation_event job_id) evs /\
  (forall u, o = Ret u ->
     steps evs = preview_iterations n job_id /\
     job_control_calls evs = preview_iterations n job_id).
Proof.
  induction n as [|n IH]; intros h self o self' evs H; simpl in H.
  - exec H. finish H. split; [reflexivity|]. split; [prep_events|]. auto.
  - unfold CopyDune.preview_iteration in H. exec H; finish H;
      try (match goal with Hrec : for_range_nat _ _ _ _ _ = Some _ |- _ =>
           apply IH in Hrec; destruct Hrec as (-> & Hprep & Hfull) end);
      rewrite ?List.app_nil_r;
      (split; [reflexivity|split; [prep_events|]]);
      intros u Hu; try discriminate Hu.
    destruct (Hfull u Hu) as [Hs Hj]. project. rewrite Hs, Hj. auto.
Qed.

Lemma CopyDune_preview_start_events fuel job_id ticket_id reps env h self o self' evs :
  CopyDune.preview_start fuel job_id ticket_id reps env h self = Some (o, self', evs) ->
  self' = self /\ Forall (preparation_event job_id) evs /\
  (forall u, o = Ret u ->
     steps evs = Initialize job_id :: preview_iterations (Z.to_nat reps) job_id /\
     job_control_calls evs = Initialize job_id :: preview_iterations (Z.to_nat reps) job_id).
Proof.
  intros H. unfold CopyDune.preview_start in H.
  apply bind_inv in H as [(u1 & self1 & evs1 & o2 & self2 & evs2 & H1 & H2 & [= -> -> ->])
                         |(e & self1 & evs1 & H1 & [= -> -> ->])];
    apply Copy_preview_start_events in H1 as (-> & Hprep1 & Hs1 & Hj1).
  - destruct (Z.eqb_spec reps 0) as [->|Hne]; simpl in H2.
    + exec H2. finish H2. rewrite List.app_nil_r. repeat split; auto.
    + unfold for_range in H2. apply preview_loop_events in H2 as (-> & Hprep2 & Hfull).
      split; [reflexivity|]. split; [apply Forall_app; auto|].
      intros u Hu. destruct (Hfull u Hu) as [Hs2 Hj2].
      project. rewrite Hs1, Hj1, Hs2, Hj2. auto.
  - repeat split; auto; discriminate.
Qed.

(** A call made while preparing is one of the four preparation calls. *)
Lemma preparation_calls job_id evs c :
  Forall (preparation_event job_id) evs -> In c (calls evs) ->
  c = Initialize job_id \/ c = JM_get_job_info job_id PNone \/
  c = Preview job_id \/ c = WaitReady job_id.
Proof.
  induction 1 as [|e evs He _ IH]; simpl; [tauto|].
  rewrite in_app_iff. intros [Hin|Hin]; [|auto].
  destruct e; simpl in *; try tauto. destruct Hin as [<-|[]]. exact He.
Qed.

(** ** The preview loop *)

(** C1: whenever [CopyDune.start] issues the Start transition, the
    job-control calls of the run are the Initialize transition, then exactly
    [preview_reps] preview iterations (a Preview transition followed by a
    wait for "ready" each; none when [preview_reps] is 0, and [range] is
    empty for a negative count), then the Start transition. *)
Theorem start_preview_iterations env h self fuel job_id ticket_id preview_reps o self' evs :
  CopyDune.start fuel job_id ticket_id preview_reps env h self = Some (o, self', evs) ->
  In (Start job_id) (calls evs) ->
  job_control_calls evs =
    Initialize job_id :: preview_iterations (Z.to_nat preview_reps) job_id ++ [Start job_id].
Proof.
  intros H Hstart. unfold CopyDune.start in H.
  apply bind_inv in H as [(u1 & self1 & evs1 & o2 & self2 & evs2 & H1 & H2 & [= -> -> ->])
                         |(e & self1 & evs1 & H1 & [= -> -> ->])];
    apply CopyDune_preview_start_events in H1 as (-> & Hprep1 & Hfull).
  - destruct (Hfull u1 eq_refl) as [_ Hj1].
    exec H2; finish H2; project; rewrite Hj1; reflexivity.
  - apply (preparation_calls _ _ _ Hprep1) in Hstart.
    destruct Hstart as [Hc|[Hc|[Hc|Hc]]]; discriminate Hc.
Qed.


Lemma start_preview_iterations_witness :
  exists o self' evs,
    CopyDune.start 5 "job_456" "ticket_123" 2 Mock.happy [] init_instance = Some (o, self', evs)
    /\ In (Start "job_456") (calls evs)
    /\ job_control_calls evs =
       [ Initialize "job_456";
         Preview "job_456"; WaitReady "job_456";
         Preview "job_456"; WaitReady "job_456";
         Start "job_456" ].
Proof.
  do 3 eexists. split; [vm_compute; reflexivity|].
  split.
  - vm_compute. tauto.
  - eapply (start_preview_iterations Mock.happy [] init_instance 5 "job_456" "ticket_123" 2).
    + vm_compute. reflexivity.
    + vm_compute. tauto.
Defined.

(** The enterprise variant runs the same preview loop before its Start. *)
Lemma enterprise_preview_iterations env h self fuel job_id ticket_id preview_reps o self' evs :
  CopyEnterprise.start fuel job_id ticket_id preview_reps env h self = Some (o, self', evs) ->
  In (Start job_id) (calls evs) ->
  job_control_calls evs =
    Initialize job_id :: preview_iterations (Z.to_nat preview_reps) job_id ++ [Start job_id].
Proof.
  intros H Hstart. unfold CopyEnterprise.start in H.
  apply bind_inv in H as [(u1 & self1 & evs1 & o2 & self2 & evs2 & H1 & H2 & [= -> -> ->])
                         |(e & self1 & evs1 & H1 & [= -> -> ->])];
    apply CopyDune_preview_start_events in H1 as (-> & Hprep1 & Hfull).
  - destruct (Hfull u1 eq_refl) as [_ Hj1].
    exec H2; finish H2; project; rewrite Hj1; reflexivity.
  - apply (preparation_calls _ _ _ Hprep1) in Hstart.
    destruct Hstart as [Hc|[Hc|[Hc|Hc]]]; discriminate Hc.
Qed.

(** The DesignJet variant does not pass [preview_reps] on: its run is the
    run without previews. *)
Remark designjet_ignores_preview_reps fuel job_id ticket_id preview_reps :
  CopyDesignJet.start fuel job_id ticket_id preview_reps
  = CopyDesignJet.start fuel job_id ticket_id 0.
Proof. reflexivity. Qed.

(** ** The readiness poll *)

Lemma Qlt_bool_true x y : Qlt_bool x y = true -> (x < y)%Q.
Proof.
  unfold Qlt_bool. intros H. apply Qnot_le_lt. intros Hle.
  apply Qle_bool_iff in Hle. rewrite Hle in H. discriminate.
Qed.

Lemma Qlt_bool_false x y : Qlt_bool x y = false -> ~ (x < y)%Q.
Proof.
  unfold Qlt_bool. intros H Hlt. apply negb_false_iff, Qle_bool_iff in H.
  apply (Qlt_not_le _ _ Hlt H).
Qed.

Lemma elapsed_clock_advances env :
  env_time env = Mock.elapsed -> clock_advances env.
Proof.
  intros Heq h e. rewrite Heq. induction h as [|e' h IH]; simpl.
  - destruct e; simpl; lra.
  - destruct e'; simpl; lra.
Qed.

(** A wait that ended on a ready poll is the only one in which a poll read
    "ready", and every pause of a wait lasts two seconds. *)
Lemma wait_rounds_observed job_id t0 T rounds ready :
  wait_rounds job_id t0 T rounds ready ->
  observed_ready rounds = ready /\ two_second_interval rounds.
Proof.
  induction 1 as [now Hout|now info Hin Hready|now info rounds ready Hin Hnot _ [IHo IHt]].
  - split; [reflexivity|]. intros d [Hd|[]]; discriminate.
  - split; [unfold observed_ready; simpl in *; rewrite Hready; reflexivity|].
    intros d [Hd|[Hd|[]]]; discriminate.
  - split.
    + unfold observed_ready in *. simpl in *. rewrite Hnot. exact IHo.
    + intros d [Hd|[Hd|[Hd|Hd]]]; try discriminate; [congruence|auto].
Qed.

Section Readiness.

Variable env : Env.
Variable job_id : string.
Hypothesis Hclock : clock_advances env.
Hypothesis Hpolls : polls_answered env job_id.

Lemma clock_after_round h t r :
  (env_time env h + 2 <=
   env_time env (((h ++ [EvTime t]) ++ [EvCall (JM_get_job_info job_id PNone) r]) ++ [EvSleep 2]))%Q.
Proof.
  pose proof (Hclock h (EvTime t)) as H1.
  pose proof (Hclock (h ++ [EvTime t]) (EvCall (JM_get_job_info job_id PNone) r)) as H2.
  pose proof (Hclock ((h ++ [EvTime t]) ++ [EvCall (JM_get_job_info job_id PNone) r])
                (EvSleep 2)) as H3.
  simpl in H1, H2, H3. lra.
Qed.

Lemma wait_ready_rounds t0 self : forall k fuel h,
  (k < fuel)%nat ->
  (t0 + inject_Z (WAIT_START_JOB_TIMEOUT env) - env_time env h
     <= 2 * inject_Z (Z.of_nat k))%Q ->
  exists rounds ready,
    Copy.wait_ready fuel job_id t0 env h self = Some (Ret ready, self, rounds)
    /\ wait_rounds job_id t0 (WAIT_START_JOB_TIMEOUT env) rounds ready
    /\ answered_by env h rounds.
Proof.
  induction k as [|k IH]; intros [|fuel] h Hfuel Hk; try lia;
    simpl; unfold mbind, M_bind, time_time, read_WAIT_START_JOB_TIMEOUT; simpl;
    destruct (Qlt_bool _ _) eqn:Hlt;
    try (apply Qlt_bool_false in Hlt;
         exists [EvTime (env_time env h)], false;
         split; [reflexivity|split; [constructor; exact Hlt|simpl; auto]]).
  - apply Qlt_bool_true in Hlt. exfalso.
    change (inject_Z (Z.of_nat 0)) with 0%Q in Hk. lra.
  - apply Qlt_bool_true in Hlt.
    unfold Copy.get_job_info, call_, lift. simpl.
    destruct (Hpolls ((h ++ [EvTime (env_time env h)]) ++ [])) as [d Hd].
    rewrite Hd. simpl.
    rewrite List.app_nil_r in Hd.
    destruct (eq_str _ "ready") eqn:Hready.
    + exists [EvTime (env_time env h); EvCall (JM_get_job_info job_id PNone) (Ret (PDict d))],
        true.
      unfold mret, M_ret. simpl.
      split; [reflexivity|]. split.
      * apply wait_ready; [exact Hlt|]. simpl. exact Hready.
      * simpl. auto.
    + unfold time_sleep. simpl.
      rewrite !List.app_nil_r.
      destruct (IH fuel
                  (((h ++ [EvTime (env_time env h)]) ++
                    [EvCall (JM_get_job_info job_id PNone) (Ret (PDict d))]) ++ [EvSleep 2]))
        as (rounds & ready & Hrun & Hrounds & Hans).
      * lia.
      * pose proof (clock_after_round h (env_time env h) (Ret (PDict d))) as Hc.
        rewrite Nat2Z.inj_succ, <- Z.add_1_r, inject_Z_plus in Hk.
        change (inject_Z 1) with 1%Q in Hk. lra.
      * rewrite Hrun.
        exists (EvTime (env_time env h)
                :: EvCall (JM_get_job_info job_id PNone) (Ret (PDict d)) :: EvSleep 2 :: rounds),
          ready.
        split; [reflexivity|]. split.
        -- apply wait_again; [exact Hlt|simpl; exact Hready|exact Hrounds].
        -- simpl. auto.
Qed.

End Readiness.

Lemma prefix_app_l (n s : string) : String.prefix n (n ++ s)%string = true.
Proof.
  induction n as [|c n IH]; simpl; [destruct s; reflexivity|].
  destruct (Ascii.ascii_dec c c) as [_|Hne]; [exact IH|congruence].
Qed.

Lemma str_contains_prefix (n s : string) : String.prefix n s = true -> str_contains n s = true.
Proof. intros H. destruct s; cbn [str_contains]; rewrite H; reflexivity. Qed.

Lemma str_contains_app (n a b : string) : str_contains n (a ++ n ++ b)%string = true.
Proof.
  induction a as [|c a IH].
  - change (str_contains n (n ++ b)%string = true). apply str_contains_prefix, prefix_app_l.
  - change (str_contains n (String c (a ++ n ++ b)%string) = true). cbn [str_contains].
    destruct (String.prefix n (String c (a ++ n ++ b)%string)); [reflexivity|exact IH].
Qed.

(** The message names the ready state and the timeout value. *)
Lemma timeout_message_names timeout :
  str_contains "ready state" (Copy.timeout_message timeout) = true /\
  str_contains (str_of_int timeout) (Copy.timeout_message timeout) = true.
Proof.
  unfold Copy.timeout_message. split.
  - reflexivity.
  - apply str_contains_app.
Qed.

(** C3: on a device whose clock advances with the sleeps, whose polls are
    answered and whose Initialize transition returns 200, [preview_start]
    terminates, and its trace is the log line, the Initialize transition,
    the reading of the start time and the rounds of the wait, each answered
    by the device: within [WAIT_START_JOB_TIMEOUT] seconds of the start
    every round polls the job and a round that did not read "ready" pauses
    for two seconds.  It returns normally when a poll made within the bound
    read "ready"; when the clock reaches the bound before that, it raises
    [TimeoutError] with a message that names the ready state and the
    timeout value. *)
Theorem preview_start_ready_or_timeout env h self job_id ticket_id v fuel :
  clock_advances env ->
  polls_answered env job_id ->
  env_call env (h ++ [EvLog "Starting job : %s" [PStr job_id]]) (Initialize job_id) = Ret v ->
  eq_int v 200 = true ->
  (Z.to_nat (WAIT_START_JOB_TIMEOUT env) < fuel)%nat ->
  exists o evs start_time rounds ready,
    Copy.preview_start fuel job_id ticket_id env h self = Some (o, self, evs)
    /\ evs = EvLog "Starting job : %s" [PStr job_id]
             :: EvCall (Initialize job_id) (Ret v) :: EvTime start_time :: rounds
    /\ answered_by env h evs
    /\ wait_rounds job_id start_time (WAIT_START_JOB_TIMEOUT env) rounds ready
    /\ observed_ready evs = ready
    /\ two_second_interval evs
    /\ o = (if ready then Ret tt
            else Raise (Exn TimeoutError (Copy.timeout_message (WAIT_START_JOB_TIMEOUT env))))
    /\ str_contains "ready state" (Copy.timeout_message (WAIT_START_JOB_TIMEOUT env)) = true
    /\ str_contains (str_of_int (WAIT_START_JOB_TIMEOUT env))
         (Copy.timeout_message (WAIT_START_JOB_TIMEOUT env)) = true.
Proof.
  intros Hclock Hpolls Hinit H200 Hfuel.
  unfold Copy.preview_start, mbind, M_bind, logging_info, call_, assert_, time_time. simpl.
  pose proof Hinit as Hinit'. unfold Initialize in Hinit'. rewrite Hinit', H200.
  unfold mret, M_ret. simpl.
  match goal with
  | |- context [Copy.wait_ready fuel job_id ?t0 env ?h0 self] =>
      destruct (wait_ready_rounds env job_id Hclock Hpolls t0 self
                  (Z.to_nat (WAIT_START_JOB_TIMEOUT env)) fuel h0)
        as (rounds & ready & Hrun & Hrounds & Hans)
  end.
  - exact Hfuel.
  - match goal with
    | |- (env_time env ?hb + _ - env_time env (?hb ++ [?e]) <= _)%Q =>
        pose proof (Hclock hb e) as Hc
    end.
    simpl in Hc.
    assert (Hle : (inject_Z (WAIT_START_JOB_TIMEOUT env)
                   <= 2 * inject_Z (Z.of_nat (Z.to_nat (WAIT_START_JOB_TIMEOUT env))))%Q).
    { change 2%Q with (inject_Z 2). rewrite <- inject_Z_mult, <- Zle_Qle. lia. }
    lra.
  - rewrite Hrun. simpl. rewrite ?List.app_nil_r in *.
    pose proof (timeout_message_names (WAIT_START_JOB_TIMEOUT env)) as [Hm1 Hm2].
    destruct (wait_rounds_observed _ _ _ _ _ Hrounds) as [Hobs Hint].
    exists (if ready then Ret tt
            else Raise (Exn TimeoutError (Copy.timeout_message (WAIT_START_JOB_TIMEOUT env)))).
    do 2 eexists. exists rounds, ready.
    split; [destruct ready; simpl; unfold read_WAIT_START_JOB_TIMEOUT, raise; simpl;
            rewrite ?List.app_nil_r; reflexivity|].
    split; [reflexivity|].
    split; [simpl; repeat split; auto|].
    split; [exact Hrounds|].
    split; [exact Hobs|].
    split; [intros d [Hd|[Hd|[Hd|Hd]]]; try discriminate; auto|].
    auto.
Qed.

Lemma preview_start_ready_or_timeout_witness :
  (exists evs,
     Copy.preview_start 11 "job_456" "ticket_123" Mock.happy [] init_instance
     = Some (Ret tt, init_instance, evs)
     /\ observed_ready evs = true)
  /\ (exists evs,
        Copy.preview_start 6 "job_456" "ticket_123" stuck [] init_instance
        = Some (Raise (Exn TimeoutError "Job has not reached the ready state after 5 seconds"),
                init_instance, evs)
        /\ observed_ready evs = false).
Proof.
  split.
  - destruct (preview_start_ready_or_timeout Mock.happy [] init_instance
                "job_456" "ticket_123" (PInt 200) 11)
      as (o & evs & start_time & rounds & ready & Hrun & _ & _ & _ & Hobs & _ & Ho & _).
    + apply elapsed_clock_advances. reflexivity.
    + intros h. eexists. reflexivity.
    + reflexivity.
    + reflexivity.
    + vm_compute. lia.
    + pose proof Hrun as Hc. vm_compute in Hc. injection Hc as Hc _.
      destruct ready; [|rewrite Ho in Hc; discriminate Hc].
      exists evs. rewrite Ho in Hrun. split; [exact Hrun|exact Hobs].
  - destruct (preview_start_ready_or_timeout stuck [] init_instance
                "job_456" "ticket_123" (PInt 200) 6)
      as (o & evs & start_time & rounds & ready & Hrun & _ & _ & _ & Hobs & _ & Ho & _).
    + apply elapsed_clock_advances. reflexivity.
    + intros h. eexists. reflexivity.
    + reflexivity.
    + reflexivity.
    + vm_compute. lia.
    + pose proof Hrun as Hc. vm_compute in Hc. injection Hc as Hc _.
      destruct ready; [rewrite Ho in Hc; discriminate Hc|].
      exists evs. rewrite Ho in Hrun. split; [exact Hrun|exact Hobs].
Defined.


(** ** Two-segment detection *)

(** C4: [_has_two_segment_pipeline] always returns a boolean and never
    raises; the boolean is true exactly when [get_info] returned a ticket
    whose [src.scan.scanCaptureMode] reads "jobBuild". *)
Theorem has_two_segment_pipeline_total env h self ticket_id :
  exists b,
    Copy._has_two_segment_pipeline ticket_id env h self
      = Some (Ret b, self, [EvCall (JT_get_info ticket_id) (env_call env h (JT_get_info ticket_id))])
    /\ (b = true <->
        exists data v,
          env_call env h (JT_get_info ticket_id) = Ret data /\
          item3 data "src" "scan" "scanCaptureMode" = Ret v /\
          eq_str v "jobBuild" = true).
Proof.
  unfold Copy._has_two_segment_pipeline, try_except, mbind, M_bind, call_, lift, mret, M_ret.
  destruct (env_call env h (JT_get_info ticket_id)) as [data|e] eqn:Hd; simpl.
  - destruct (item3 data "src" "scan" "scanCaptureMode") as [v|e] eqn:Hv; simpl.
    + exists (eq_str v "jobBuild"). split; [reflexivity|].
      split.
      * intros Hb. exists data, v. auto.
      * intros (data' & v' & [= <-] & Hv' & Hb). congruence.
    + exists false. split; [reflexivity|].
      split; [discriminate|]. intros (data' & v' & [= <-] & Hv' & _). congruence.
  - exists false. split; [reflexivity|].
    split; [discriminate|]. intros (data' & v' & Hd' & _). discriminate.
Qed.

(** ** Ticket normalization *)

Ltac run_unfold_goal :=
  unfold mbind, M_bind, mret, M_ret, lift, raise, set_adf_loaded, set_duplex, set_output_duplex;
  simpl.

Section Normalization.

Variable env : Env.
Variable h : list event.

(** On a well-formed [src] section the [src] rules only set flags. *)
Lemma src_rules_valid (d : gmap string pyval) self :
  section_ok d "src" "scan" ->
  exists self',
    Copy.src_rules (PDict d) env h self = Some (Ret tt, self', [])
    /\ _output_duplex self' = _output_duplex self.
Proof.
  intros Hok. unfold Copy.src_rules, item3, item2. run_unfold_goal.
  destruct (d !! "src") as [x|] eqn:Hsrc; simpl.
  - destruct (Hok x Hsrc) as (dx & ds & -> & Hscan). simpl. rewrite Hscan. simpl.
    destruct (ds !! "mediaSource") as [ms|]; simpl;
      [destruct (eq_str ms "flatbed"); simpl|];
      (destruct (ds !! "plexMode") as [pm|]; simpl;
        [destruct (eq_str pm "duplex"); simpl|]);
      eexists; split; reflexivity.
  - eexists; split; reflexivity.
Qed.

Lemma eq_str_true v s : eq_str v s = true <-> v = PStr s.
Proof.
  destruct v; simpl; try (split; [discriminate|intros [=]]).
  rewrite String.eqb_eq. split; [intros ->; reflexivity|intros [= ->]; reflexivity].
Qed.

Lemma eq_str_false v s : eq_str v s = false <-> v <> PStr s.
Proof.
  rewrite <- eq_str_true. destruct (eq_str v s); split; try congruence; auto.
Qed.

(** The [dest] rules on a payload whose [dest.print] section asks for
    duplex output. *)
Lemma dest_rules_duplex (d dd pr : gmap string pyval) self :
  d !! "dest" = Some (PDict dd) ->
  dd !! "print" = Some (PDict pr) ->
  pr !! "plexMode" = Some (PStr "duplex") ->
  let forced :=
    PDict (<["dest" := PDict (<["print" :=
             PDict (<["duplexBinding" := PStr "twoSidedLongEdge"]> pr)]> dd)]> d) in
  Copy.dest_rules (PDict d) env h self =
    Some (Ret (match pr !! "duplexBinding" with
               | Some db => if eq_str db "oneSided" then forced else PDict d
               | None => forced
               end),
          {| _adf_loaded := _adf_loaded self; _output_duplex := PBool true;
             _duplex := _duplex self |}, []).
Proof.
  intros Hdest Hprint Hplex. unfold Copy.dest_rules, setitem3, item3, item2. run_unfold_goal.
  rewrite Hdest. simpl. rewrite Hprint. simpl. rewrite Hplex. simpl.
  destruct (pr !! "duplexBinding") as [db|]; simpl; [destruct (eq_str db "oneSided")|]; reflexivity.
Qed.

End Normalization.

(** C2: on a valid payload whose [dest.print] has [plexMode == "duplex"],
    normalization succeeds and records duplex output; a [duplexBinding] that
    is absent or "oneSided" becomes "twoSidedLongEdge", any other value
    leaves the payload as it was; [create_ticket] creates the ticket from
    the skeleton and persists the normalized payload. *)
Theorem duplex_binding_normalized env h self payload (pr : gmap string pyval) :
  valid_payload payload ->
  item2 payload "dest" "print" = Ret (PDict pr) ->
  pr !! "plexMode" = Some (PStr "duplex") ->
  exists self' payload',
    Copy._updating_ticket payload env h self = Some (Ret payload', self', [])
    /\ _output_duplex self' = PBool true
    /\ (pr !! "duplexBinding" = None \/ pr !! "duplexBinding" = Some (PStr "oneSided") ->
        item3 payload' "dest" "print" "duplexBinding" = Ret (PStr "twoSidedLongEdge"))
    /\ (forall db, pr !! "duplexBinding" = Some db -> db <> PStr "oneSided" ->
        payload' = payload)
    /\ (forall ticket_id, env_call env h (JT_create Copy.base_payload) = Ret ticket_id ->
        let created :=
          [EvCall (JT_create Copy.base_payload) (Ret ticket_id);
           EvLog "Payload copy job ticket : {}" [payload']] in
        let updated := env_call env (h ++ created) (JT_update ticket_id payload') in
        create_ticket ClsCopyDune payload env h self =
          Some (match updated with Ret _ => Ret ticket_id | Raise e => Raise e end,
                self', created ++ [EvCall (JT_update ticket_id payload') updated])).
Proof.
  intros (d & -> & Hsrc & Hdst) Hprint Hplex.
  unfold item2 in Hprint. simpl in Hprint.
  destruct (d !! "dest") as [x|] eqn:Hdest; [|discriminate].
  destruct (Hdst x Hdest) as (dd & ds & -> & Hdd).
  simpl in Hprint. rewrite Hdd in Hprint. injection Hprint as ->.
  destruct (src_rules_valid env h d self Hsrc) as (self1 & Hrun1 & Hod).
  pose proof (dest_rules_duplex env (h ++ []) d dd pr self1 Hdest Hdd Hplex) as Hrun2.
  cbv zeta in Hrun2.
  assert (Hrun : Copy._updating_ticket (PDict d) env h self =
                 Some (Ret (match pr !! "duplexBinding" with
                            | Some db =>
                                if eq_str db "oneSided"
                                then PDict (<["dest" := PDict (<["print" :=
                                       PDict (<["duplexBinding" := PStr "twoSidedLongEdge"]> pr)]> dd)]> d)
                                else PDict d
                            | None =>
                                PDict (<["dest" := PDict (<["print" :=
                                  PDict (<["duplexBinding" := PStr "twoSidedLongEdge"]> pr)]> dd)]> d)
                            end),
                       {| _adf_loaded := _adf_loaded self1; _output_duplex := PBool true;
                          _duplex := _duplex self1 |}, [])).
  { unfold Copy._updating_ticket. unfold mbind at 1. unfold M_bind at 1.
    rewrite Hrun1, Hrun2. reflexivity. }
  do 2 eexists. split; [exact Hrun|]. split; [reflexivity|].
  assert (Hforced : item3 (PDict (<["dest" := PDict (<["print" :=
                       PDict (<["duplexBinding" := PStr "twoSidedLongEdge"]> pr)]> dd)]> d))
                      "dest" "print" "duplexBinding" = Ret (PStr "twoSidedLongEdge")).
  { unfold item3, item2. simpl. rewrite lookup_insert_eq. simpl.
    rewrite lookup_insert_eq. simpl. rewrite lookup_insert_eq. reflexivity. }
  split; [|split].
  - intros [Hnone|Hone]; [rewrite Hnone|rewrite Hone]; [exact Hforced|].
    replace (eq_str (PStr "oneSided") "oneSided") with true by reflexivity. exact Hforced.
  - intros db Hdb Hne. rewrite Hdb. apply eq_str_false in Hne. rewrite Hne. reflexivity.
  - intros ticket_id Hcreate. simpl.
    unfold create_ticket, _updating_ticket, Copy.create_ticket.
    unfold mbind at 1. unfold M_bind at 1. rewrite Hrun.
    unfold mbind, M_bind, call_, logging_info, mret, M_ret. simpl.
    rewrite ?List.app_nil_r, Hcreate. simpl.
    rewrite <- ?List.app_assoc. simpl.
    destruct (env_call env _ (JT_update ticket_id _)); reflexivity.
Qed.

Lemma duplex_binding_normalized_witness :
  exists self' payload',
    Copy._updating_ticket
      (PDict {[ "dest" := PDict {[ "print" :=
         PDict {[ "plexMode" := PStr "duplex"; "duplexBinding" := PStr "oneSided" ]} ]} ]})
      Mock.happy [] init_instance = Some (Ret payload', self', [])
    /\ _output_duplex self' = PBool true
    /\ item3 payload' "dest" "print" "duplexBinding" = Ret (PStr "twoSidedLongEdge").
Proof.
  destruct (duplex_binding_normalized Mock.happy [] init_instance
              (PDict {[ "dest" := PDict {[ "print" :=
                 PDict {[ "plexMode" := PStr "duplex"; "duplexBinding" := PStr "oneSided" ]} ]} ]})
              {[ "plexMode" := PStr "duplex"; "duplexBinding" := PStr "oneSided" ]})
    as (self' & payload' & Hrun & Hflag & Hforce & _).
  - eexists. split; [reflexivity|]. split.
    + intros x Hx. vm_compute in Hx. discriminate Hx.
    + intros x Hx. vm_compute in Hx. injection Hx as <-.
      do 2 eexists. split; [reflexivity|]. vm_compute. reflexivity.
  - vm_compute. reflexivity.
  - vm_compute. reflexivity.
  - exists self', payload'. split; [exact Hrun|]. split; [exact Hflag|].
    apply Hforce. right. vm_compute. reflexivity.
Defined.

Section Enterprise.

Variable env : Env.
Variable h : list event.

(** On a well-formed [dest] section the [dest] rules return a payload with
    the [src] section they were given. *)
Lemma dest_rules_valid (d : gmap string pyval) self :
  section_ok d "dest" "print" ->
  exists self' (d1 : gmap string pyval),
    Copy.dest_rules (PDict d) env h self = Some (Ret (PDict d1), self', [])
    /\ d1 !! "src" = d !! "src".
Proof.
  intros Hok. unfold Copy.dest_rules, setitem3, item3, item2. run_unfold_goal.
  destruct (d !! "dest") as [x|] eqn:Hdest; simpl.
  - destruct (Hok x Hdest) as (dd & pr & -> & Hprint). simpl. rewrite Hprint. simpl.
    destruct (pr !! "plexMode") as [pm|]; simpl;
      [destruct (eq_str pm "duplex"); simpl;
       [destruct (pr !! "duplexBinding") as [db|]; simpl;
        [destruct (eq_str db "oneSided"); simpl|]|]|];
      do 2 eexists; (split; [reflexivity|]);
      rewrite ?lookup_insert_ne by discriminate; reflexivity.
  - do 2 eexists. split; reflexivity.
Qed.

Lemma updating_ticket_valid payload self :
  valid_payload payload ->
  exists self1 (d d1 : gmap string pyval),
    payload = PDict d /\
    Copy._updating_ticket payload env h self = Some (Ret (PDict d1), self1, [])
    /\ d1 !! "src" = d !! "src".
Proof.
  intros (d & -> & Hsrc & Hdst).
  destruct (src_rules_valid env h d self Hsrc) as (self0 & Hrun1 & _).
  destruct (dest_rules_valid d self0 Hdst) as (self1 & d1 & Hrun2 & Hsame).
  exists self1, d, d1. split; [reflexivity|]. split; [|exact Hsame].
  unfold Copy._updating_ticket, mbind, M_bind. rewrite Hrun1, List.app_nil_r, Hrun2.
  reflexivity.
Qed.

End Enterprise.

(** C9: on a valid payload the enterprise normalization is the base
    normalization followed by the resolution override: a truthy
    [src.scan.resolution] is overwritten with "e600Dpi" in the payload the
    base rules returned, and a payload whose resolution is absent or falsy
    comes back exactly as the base rules left it, with its [src] section
    untouched. *)
Theorem enterprise_resolution_override env h self payload :
  valid_payload payload ->
  exists self1 p1,
    Copy._updating_ticket payload env h self = Some (Ret p1, self1, [])
    /\ getitem p1 "src" = getitem payload "src"
    /\ (forall v, item3 payload "src" "scan" "resolution" = Ret v -> truthy v = true ->
        exists p2,
          setitem3 p1 "src" "scan" "resolution" (PStr "e600Dpi") = Ret p2
          /\ CopyEnterprise._updating_ticket payload env h self = Some (Ret p2, self1, [])
          /\ item3 p2 "src" "scan" "resolution" = Ret (PStr "e600Dpi")
          /\ getitem p2 "dest" = getitem p1 "dest")
    /\ ((forall v, item3 payload "src" "scan" "resolution" = Ret v -> truthy v = false) ->
        CopyEnterprise._updating_ticket payload env h self = Some (Ret p1, self1, [])).
Proof.
  intros Hvalid.
  destruct (updating_ticket_valid env h payload self Hvalid)
    as (self1 & d & d1 & -> & Hrun & Hsame).
  destruct Hvalid as (d' & [= <-] & Hsrc & _).
  exists self1, (PDict d1). split; [exact Hrun|].
  split; [simpl; rewrite Hsame; reflexivity|].
  assert (Hent : CopyEnterprise._updating_ticket (PDict d) env h self =
                 match (src ← get (PDict d1) "src" (PDict ∅);
                        scan ← get src "scan" (PDict ∅);
                        get scan "resolution" PNone) with
                 | Ret resolution =>
                     if truthy resolution then
                       Some (setitem3 (PDict d1) "src" "scan" "resolution" (PStr "e600Dpi"),
                             self1, [])
                     else Some (Ret (PDict d1), self1, [])
                 | Raise e => Some (Raise e, self1, [])
                 end).
  { unfold CopyEnterprise._updating_ticket.
    rewrite (bind_run_ret _ _ _ _ _ _ _ _ Hrun). unfold mbind at 1. unfold M_bind at 1.
    unfold lift at 1.
    destruct (src ← get (PDict d1) "src" (PDict ∅);
              scan ← get src "scan" (PDict ∅); get scan "resolution" PNone)
      as [resolution|e]; [|reflexivity].
    destruct (truthy resolution); unfold lift, mret, M_ret; reflexivity. }
  rewrite Hent. clear Hent.
  unfold item3, item2, setitem3, get, mbind. simpl.
  rewrite Hsame.
  destruct (d !! "src") as [x|] eqn:Hx; simpl.
  - destruct (Hsrc x Hx) as (dx & ds & -> & Hscan). simpl. rewrite Hscan. simpl.
    destruct (ds !! "resolution") as [r|] eqn:Hr; simpl.
    + split.
      * intros v [= <-] Htrue. rewrite Htrue. eexists. split; [reflexivity|].
        split; [reflexivity|]. split.
        -- simpl. rewrite lookup_insert_eq. simpl. rewrite lookup_insert_eq. simpl.
           rewrite lookup_insert_eq. reflexivity.
        -- simpl. rewrite lookup_insert_ne by discriminate. reflexivity.
      * intros Hfalse. rewrite (Hfalse r eq_refl). reflexivity.
    + split; [discriminate|]. intros _. reflexivity.
  - rewrite lookup_empty. simpl. rewrite lookup_empty. simpl.
    split; [discriminate|]. intros _. reflexivity.
Qed.

Lemma enterprise_resolution_override_witness :
  exists self1 p2,
    CopyEnterprise._updating_ticket
      (PDict {[ "src" := PDict {[ "scan" := PDict {[ "resolution" := PStr "e300Dpi" ]} ]} ]})
      Mock.happy [] init_instance = Some (Ret p2, self1, [])
    /\ item3 p2 "src" "scan" "resolution" = Ret (PStr "e600Dpi").
Proof.
  destruct (enterprise_resolution_override Mock.happy [] init_instance
              (PDict {[ "src" := PDict {[ "scan" :=
                 PDict {[ "resolution" := PStr "e300Dpi" ]} ]} ]}))
    as (self1 & p1 & _ & _ & Hover & _).
  - eexists. split; [reflexivity|]. split.
    + intros x Hx. vm_compute in Hx. injection Hx as <-.
      do 2 eexists. split; [reflexivity|]. vm_compute. reflexivity.
    + intros x Hx. vm_compute in Hx. discriminate Hx.
  - destruct (Hover (PStr "e300Dpi")) as (p2 & _ & Hrun & Hres & _).
    + vm_compute. reflexivity.
    + reflexivity.
    + exists self1, p2. split; [exact Hrun|exact Hres].
Defined.

(** ** Runs that end *)

Lemma terminates_bind {A B} (m : M A) (k : A -> M B) env :
  terminates m env -> (forall a, terminates (k a) env) -> terminates (m ≫= k) env.
Proof.
  intros Hm Hk h self. unfold mbind, M_bind.
  destruct (Hm h self) as ([[[a|e] self1] evs1] & ->); [|eauto].
  destruct (Hk a (h ++ evs1) self1) as ([[o self2] evs2] & ->). eauto.
Qed.

Lemma terminates_ret {A} (a : A) env : terminates (mret a) env.
Proof. intros h self. unfold mret, M_ret. eauto. Qed.

Lemma terminates_call c env : terminates (call_ c) env.
Proof. intros h self. unfold call_. eauto. Qed.

Lemma terminates_log t args env : terminates (logging_info t args) env.
Proof. intros h self. unfold logging_info. eauto. Qed.

Lemma terminates_sleep d env : terminates (time_sleep d) env.
Proof. intros h self. unfold time_sleep. eauto. Qed.

Lemma terminates_lift {A} (o : outcome A) env : terminates (lift o) env.
Proof. intros h self. unfold lift. eauto. Qed.

Lemma terminates_get_self {A} (f : instance -> A) env : terminates (get_self f) env.
Proof. intros h self. unfold get_self. eauto. Qed.

Lemma terminates_assert cond msg env : terminates (assert_ cond msg) env.
Proof. intros h self. unfold assert_, raise, mret, M_ret. destruct cond; eauto. Qed.

Lemma terminates_try_except {A} (body handler : M A) handles env :
  terminates body env -> terminates handler env ->
  terminates (try_except body handles handler) env.
Proof.
  intros Hb Hh h self. unfold try_except.
  destruct (Hb h self) as ([[[a|e] self1] evs1] & ->); [eauto|].
  destruct (handles e); [|eauto].
  destruct (Hh (h ++ evs1) self1) as ([[o self2] evs2] & ->). eauto.
Qed.

Lemma terminates_for_range_nat n body env :
  terminates body env -> terminates (for_range_nat n body) env.
Proof.
  intros Hb. induction n as [|n IH]; simpl.
  - apply terminates_ret.
  - apply terminates_bind; auto.
Qed.

Ltac run_ends :=
  repeat first
    [ apply terminates_bind; [|intros ?]
    | apply terminates_try_except
    | apply terminates_for_range_nat
    | match goal with |- terminates (if ?b then _ else _) _ => destruct b end
    | apply terminates_ret | apply terminates_call | apply terminates_log
    | apply terminates_sleep | apply terminates_lift | apply terminates_get_self
    | apply terminates_assert ].

Section ReadinessTerminates.

Variable env : Env.
Variable job_id : string.
Hypothesis Hclock : clock_advances env.

Lemma wait_ready_total t0 self : forall k fuel h,
  (k < fuel)%nat ->
  (t0 + inject_Z (WAIT_START_JOB_TIMEOUT env) - env_time env h
     <= 2 * inject_Z (Z.of_nat k))%Q ->
  exists r, Copy.wait_ready fuel job_id t0 env h self = Some r.
Proof.
  induction k as [|k IH]; intros [|fuel] h Hfuel Hk; try lia;
    simpl; unfold mbind, M_bind, time_time, read_WAIT_START_JOB_TIMEOUT; simpl;
    destruct (Qlt_bool _ _) eqn:Hlt; try (unfold mret, M_ret; eauto; fail).
  - apply Qlt_bool_true in Hlt. exfalso.
    change (inject_Z (Z.of_nat 0)) with 0%Q in Hk. lra.
  - unfold Copy.get_job_info, call_, lift. simpl.
    destruct (env_call env _ _) as [info|e] eqn:Hinfo; [|eauto].
    destruct (get info "state" PNone) as [st|e]; simpl; [|eauto].
    destruct (eq_str st "ready"); [unfold mret, M_ret; eauto|].
    unfold time_sleep. simpl. rewrite !List.app_nil_r.
    destruct (IH fuel
                (((h ++ [EvTime (env_time env h)]) ++
                  [EvCall (JM_get_job_info job_id PNone) (Ret info)]) ++ [EvSleep 2]))
      as ([[o self2] evs2] & Hrun).
    + lia.
    + pose proof (Hclock h (EvTime (env_time env h))) as H1.
      pose proof (Hclock (h ++ [EvTime (env_time env h)])
                    (EvCall (JM_get_job_info job_id PNone) (Ret info))) as H2.
      pose proof (Hclock ((h ++ [EvTime (env_time env h)])
                            ++ [EvCall (JM_get_job_info job_id PNone) (Ret info)])
                    (EvSleep 2)) as H3.
      simpl in H1, H2, H3.
      rewrite Nat2Z.inj_succ, <- Z.add_1_r, inject_Z_plus in Hk.
      change (inject_Z 1) with 1%Q in Hk. lra.
    + rewrite Hrun. eauto.
Qed.

Lemma Copy_preview_start_terminates fuel ticket_id :
  (Z.to_nat (WAIT_START_JOB_TIMEOUT env) < fuel)%nat ->
  terminates (Copy.preview_start fuel job_id ticket_id) env.
Proof.
  intros Hfuel h self.
  unfold Copy.preview_start, mbind, M_bind, logging_info, call_, assert_, time_time. simpl.
  destruct (env_call env _ _) as [v|e]; [|eauto].
  destruct (eq_int v 200); unfold mret, M_ret, raise; simpl; [|eauto].
  match goal with
  | |- context [Copy.wait_ready fuel job_id ?t0 env ?h0 self] =>
      destruct (wait_ready_total t0 self (Z.to_nat (WAIT_START_JOB_TIMEOUT env)) fuel h0)
        as ([[[b|e] self2] evs2] & Hrun)
  end.
  - exact Hfuel.
  - match goal with
    | |- (env_time env ?hb + _ - env_time env (?hb ++ [?e]) <= _)%Q =>
        pose proof (Hclock hb e) as Hc
    end.
    simpl in Hc.
    assert (Hle : (inject_Z (WAIT_START_JOB_TIMEOUT env)
                   <= 2 * inject_Z (Z.of_nat (Z.to_nat (WAIT_START_JOB_TIMEOUT env))))%Q).
    { change 2%Q with (inject_Z 2). rewrite <- inject_Z_mult, <- Zle_Qle. lia. }
    lra.
  - rewrite Hrun. simpl. unfold read_WAIT_START_JOB_TIMEOUT. destruct b; simpl; eauto.
  - rewrite Hrun. eauto.
Qed.

Lemma CopyDune_preview_start_terminates fuel ticket_id reps :
  (Z.to_nat (WAIT_START_JOB_TIMEOUT env) < fuel)%nat ->
  terminates (CopyDune.preview_start fuel job_id ticket_id reps) env.
Proof.
  intros Hfuel. unfold CopyDune.preview_start.
  apply terminates_bind; [apply Copy_preview_start_terminates, Hfuel|intros _].
  unfold for_range, CopyDune.preview_iteration. run_ends.
Qed.

End ReadinessTerminates.

(** ** Alerts after Start *)

Lemma In_calls c r evs : In (EvCall c r) evs -> In c (calls evs).
Proof.
  induction evs as [|e evs IH]; simpl; [tauto|].
  intros [->|Hin]; [left; reflexivity|]. apply in_or_app. right. auto.
Qed.

Lemma preparation_event_In job_id evs e :
  Forall (preparation_event job_id) evs -> In e evs -> preparation_event job_id e.
Proof. intros Hall Hin. rewrite List.Forall_forall in Hall. auto. Qed.

(** An event or a call that [preview_start] cannot have produced is not in
    its part of the trace. *)
Ltac not_preparation Hprep H :=
  first [ apply (preparation_event_In _ _ _ Hprep) in H
        | apply (preparation_calls _ _ _ Hprep) in H ];
  simpl in H; decompose [or] H; discriminate.

(** Membership in a trace made of a preparation part and known events. *)
Ltac in_trace Hprep H :=
  rewrite ?calls_app in H; apply in_app_or in H; destruct H as [H|H];
  [not_preparation Hprep H|simpl in H; try tauto; decompose [or] H; try discriminate; try tauto].

Ltac in_tail := rewrite ?calls_app; apply in_or_app; right; simpl; auto 10.

(** C10: an enterprise [start] without previews on an instance whose
    [_adf_loaded] and [_output_duplex] are still [None] never waits for nor
    answers the flatbedAddPage alert and leaves the instance as it is.  A
    run that returns made the Start transition and the feeder query and
    nothing after them, and what it returns is the status code of that
    Start transition; conversely, once Start and the feeder query have
    returned, the run returns that code.  On a clock that advances with the
    sleeps the run ends. *)
Theorem enterprise_start_without_ticket env h self fuel job_id ticket_id :
  _adf_loaded self = PNone ->
  _output_duplex self = PNone ->
  (forall o self' evs,
      CopyEnterprise.start fuel job_id ticket_id 0 env h self = Some (o, self', evs) ->
      self' = self
      /\ ~ In WaitAlert (calls evs)
      /\ ~ In AnswerAlert (calls evs)
      /\ (forall code, o = Ret code ->
            exists pre adf,
              evs = pre ++ start_without_alert job_id code adf
              /\ Forall (preparation_event job_id) pre)
      /\ (forall code adf,
            In (EvCall (Start job_id) (Ret code)) evs ->
            In (EvCall AdfLoaded (Ret adf)) evs ->
            o = Ret code))
  /\ (clock_advances env -> (Z.to_nat (WAIT_START_JOB_TIMEOUT env) < fuel)%nat ->
      exists o evs,
        CopyEnterprise.start fuel job_id ticket_id 0 env h self = Some (o, self, evs)).
Proof.
  intros Hadf Hdup.
  assert (Hruns : forall o self' evs,
      CopyEnterprise.start fuel job_id ticket_id 0 env h self = Some (o, self', evs) ->
      self' = self
      /\ ~ In WaitAlert (calls evs)
      /\ ~ In AnswerAlert (calls evs)
      /\ (forall code, o = Ret code ->
            exists pre adf,
              evs = pre ++ start_without_alert job_id code adf
              /\ Forall (preparation_event job_id) pre)
      /\ (forall code adf,
            In (EvCall (Start job_id) (Ret code)) evs ->
            In (EvCall AdfLoaded (Ret adf)) evs ->
            o = Ret code)).
  { intros o self' evs H. unfold CopyEnterprise.start in H.
    apply bind_inv in H as [(u1 & self1 & evs1 & o2 & self2 & evs2 & H1 & H2 & [= -> -> ->])
                           |(e & self1 & evs1 & H1 & [= -> -> ->])];
      apply CopyDune_preview_start_events in H1 as (-> & Hprep & _).
    - exec H2; rewrite ?Hadf, ?Hdup in *; simpl in *; try discriminate; finish H2;
        (split; [reflexivity|]);
        (split; [intros Hin; in_trace Hprep Hin|]);
        (split; [intros Hin; in_trace Hprep Hin|]);
        (split;
         [ intros code Hcode;
           first [ discriminate Hcode
                 | injection Hcode as <-; exists evs1; eexists;
                   split; [reflexivity|exact Hprep] ]
         | intros code adf Hs Ha; in_trace Hprep Hs; in_trace Hprep Ha; congruence ]).
    - split; [reflexivity|].
      split; [intros Hin; not_preparation Hprep Hin|].
      split; [intros Hin; not_preparation Hprep Hin|].
      split; [intros code Hcode; discriminate Hcode|].
      intros code adf Hs _. not_preparation Hprep Hs. }
  split; [exact Hruns|].
  intros Hclock Hfuel.
  assert (Hterm : terminates (CopyEnterprise.start fuel job_id ticket_id 0) env).
  { unfold CopyEnterprise.start.
    apply terminates_bind; [apply CopyDune_preview_start_terminates; assumption|intros _].
    unfold Copy.change_job_state, CopyDune.answer_flatbedAddPage. run_ends. }
  destruct (Hterm h self) as ([[o self'] evs] & Hrun).
  destruct (Hruns o self' evs Hrun) as (-> & _). eauto.
Qed.

Lemma enterprise_start_without_ticket_witness :
  exists evs pre adf,
    CopyEnterprise.start 11 "job_456" "ticket_123" 0
      (scripted (fun action => if String.eqb action "Initialize" then 200 else 503)
         (Ret Mock.plain_ticket) (PBool true) PNone)
      [] init_instance = Some (Ret (PInt 503), init_instance, evs)
    /\ evs = pre ++ start_without_alert "job_456" (PInt 503) adf
    /\ ~ In WaitAlert (calls evs).
Proof.
  destruct (enterprise_start_without_ticket
              (scripted (fun action => if String.eqb action "Initialize" then 200 else 503)
                 (Ret Mock.plain_ticket) (PBool true) PNone)
              [] init_instance 11 "job_456" "ticket_123" eq_refl eq_refl) as [Hruns Hterm].
  destruct Hterm as (o & evs & Hrun).
  - apply elapsed_clock_advances. reflexivity.
  - vm_compute. lia.
  - destruct (Hruns o init_instance evs Hrun) as (_ & Hno & _ & Hret & _).
    pose proof Hrun as Hc. vm_compute in Hc. injection Hc as Hc _. subst o.
    destruct (Hret (PInt 503) eq_refl) as (pre & adf & Hevs & _).
    exists evs, pre, adf. auto.
Defined.


Ltac inj_events :=
  repeat match goal with
         | Heq : EvCall _ _ = EvCall _ _ |- _ => injection Heq; clear Heq; intros; subst
         end.

(** The last three parts of [alert_handling] on a trace [evs1 ++ tail]
    whose Start transition follows [pre]. *)
Ltac alert_rest Hprep pre :=
  split;
  [ let Hin := fresh "Hin" in
    intros Hin;
    first [ solve [in_trace Hprep Hin]
          | exists pre; do 2 eexists;
            split; [rewrite <- ?List.app_assoc; reflexivity|];
            let Hp := fresh "Hp" in intros Hp; in_trace Hprep Hp ]
  | split;
    [ let Hin := fresh "Hin" in
      intros ? Hin; first [ solve [in_trace Hprep Hin] | in_tail ]
    | let Hin := fresh "Hin" in
      let He := fresh "He" in
      intros ? He [Hin|Hin]; in_trace Hprep Hin; inj_events; try congruence;
      (split; [in_tail|eexists; split; [in_tail|reflexivity]]) ] ].

(** A run that stopped while preparing has no alert exchange. *)
Lemma preparation_alert_handling job_id (wanted : Prop) o evs :
  Forall (preparation_event job_id) evs -> ~ wanted ->
  alert_handling job_id wanted o evs.
Proof.
  intros Hprep Hnot. split; [split|split; [|split]].
  - intros Hin. not_preparation Hprep Hin.
  - tauto.
  - intros Hin. not_preparation Hprep Hin.
  - intros r Hin. not_preparation Hprep Hin.
  - intros e He [Hin|Hin]; not_preparation Hprep Hin.
Qed.

Lemma dune_alert_handling env h self fuel job_id ticket_id reps o self' evs :
  CopyDune.start fuel job_id ticket_id reps env h self = Some (o, self', evs) ->
  alert_handling job_id (reps <> 0 /\ adf_reported_unloaded evs) o evs.
Proof.
  intros H. unfold CopyDune.start in H.
  apply bind_inv in H as [(u1 & self1 & evs1 & o2 & self2 & evs2 & H1 & H2 & [= -> -> ->])
                         |(e & self1 & evs1 & H1 & [= -> -> ->])];
    apply CopyDune_preview_start_events in H1 as (-> & Hprep & _).
  - exec H2; finish H2; (split; [split|alert_rest Hprep (evs1 ++ [EvSleep (5 # 2)])]).
    all: try (intros Hin; in_trace Hprep Hin;
              (split; [intros ->; discriminate|]);
              eexists; (split; [in_tail|]); destruct (truthy _); simpl in *; congruence).
    all: intros [Hne (adf & Hin & Hfalse)];
         try solve [ apply Z.eqb_eq in Heqb; contradiction
               | in_trace Hprep Hin; inj_events; rewrite Hfalse in *; discriminate
               | in_tail ].
  - apply preparation_alert_handling; [exact Hprep|].
    intros [_ (adf & Hin & _)]. not_preparation Hprep Hin.
Qed.

Lemma enterprise_alert_handling env h self fuel job_id ticket_id reps o self' evs :
  CopyEnterprise.start fuel job_id ticket_id reps env h self = Some (o, self', evs) ->
  alert_handling job_id (enterprise_wanted reps self evs) o evs.
Proof.
  intros H. unfold CopyEnterprise.start in H.
  apply bind_inv in H as [(u1 & self1 & evs1 & o2 & self2 & evs2 & H1 & H2 & [= -> -> ->])
                         |(e & self1 & evs1 & H1 & [= -> -> ->])];
    apply CopyDune_preview_start_events in H1 as (-> & Hprep & _).
  - exec H2; finish H2; (split; [split|alert_rest Hprep (evs1 ++ [EvSleep (5 # 2)])]).
    all: try (intros Hin; in_trace Hprep Hin;
              first [ left;
                      match goal with
                      | Hz : (_ =? 0)%Z = true, Hb : negb (truthy _) && is_True _ = true |- _ =>
                          apply Z.eqb_eq in Hz; apply andb_prop in Hb as [Hadf Hdup];
                          apply negb_true_iff in Hadf;
                          (split; [exact Hz|split; [exact Hadf|split; [exact Hdup|]]])
                      end;
                      eexists; in_tail
                    | right; (split; [intros ->; discriminate|]);
                      eexists; (split; [in_tail|]); destruct (truthy _); simpl in *; congruence ]).
    all: intros [(Hz & Hadf & Hdup & adf & Hin)|(Hne & adf & Hin & Hfalse)];
         solve [ in_tail
               | match goal with
                 | Hb : (_ =? 0)%Z = false |- _ => apply Z.eqb_neq in Hb; contradiction
                 | Hb : (_ =? 0)%Z = true |- _ => apply Z.eqb_eq in Hb; contradiction
                 end
               | match goal with
                 | Hb : negb (truthy _) && is_True _ = false |- _ =>
                     rewrite Hadf, Hdup in Hb; discriminate Hb
                 end
               | in_trace Hprep Hin; inj_events; rewrite ?Hfalse in *; discriminate ].
  - apply preparation_alert_handling; [exact Hprep|].
    intros [(_ & _ & _ & adf & Hin)|(_ & adf & Hin & _)]; not_preparation Hprep Hin.
Qed.

(** ** The two-segment pipeline *)

(** C5: a DesignJet [start] with a non-empty ticket id whose ticket reads
    [scanCaptureMode == "jobBuild"], once it issues Start, has made in
    order: Initialize, the ticket read, Prepare_Processing (which returned
    200), the wait for "processing", the wait for all previews, the copy
    configuration read, the wait for the "printing" sub-status exactly when
    [copyMode] is "printWhileScanning", and Start, whose reply is the result
    of [start]. *)
Theorem designjet_two_segment env h self fuel job_id ticket_id reps o self' evs data :
  ticket_id <> "" ->
  CopyDesignJet.start fuel job_id ticket_id reps env h self = Some (o, self', evs) ->
  In (EvCall (JT_get_info ticket_id) (Ret data)) evs ->
  item3 data "src" "scan" "scanCaptureMode" = Ret (PStr "jobBuild") ->
  In (Start job_id) (calls evs) ->
  exists prepared configuration,
    In (EvCall (PrepareProcessing job_id) (Ret prepared)) evs
    /\ eq_int prepared 200 = true
    /\ In (EvCall (CDM_get COPY_CONFIGURATION_ENDPOINT) (Ret configuration)) evs
    /\ steps evs =
         [ Initialize job_id; JT_get_info ticket_id; PrepareProcessing job_id;
           WaitProcessing job_id; JM_wait_for_all_previews_done job_id;
           CDM_get COPY_CONFIGURATION_ENDPOINT ]
         ++ (if print_while_scanning configuration then [WaitPrinting] else [])
         ++ [Start job_id]
    /\ In (EvCall (Start job_id) o) evs.
Proof.
  intros Hticket H Hinfo Hmode Hstart. unfold CopyDesignJet.start in H.
  apply bind_inv in H as [(u1 & self1 & evs1 & o2 & self2 & evs2 & H1 & H2 & [= -> -> ->])
                         |(e & self1 & evs1 & H1 & [= -> -> ->])];
    apply CopyDune_preview_start_events in H1 as (-> & Hprep & Hfull).
  - destruct (Hfull u1 eq_refl) as [Hsteps _]. simpl in Hsteps.
    unfold Copy._has_two_segment_pipeline, CopyDesignJet.two_segment_prepare in H2.
    exec H2; finish H2;
      try solve
        [ match goal with
          | Hb : negb (_ =? "")%string = false |- _ =>
              apply negb_false_iff, String.eqb_eq in Hb; contradiction
          end
        | in_trace Hprep Hstart
        | in_trace Hprep Hinfo; inj_events;
          match goal with
          | Hq : item3 ?d _ _ _ = _, Hm : item3 ?d _ _ _ = _ |- _ =>
              rewrite Hq in Hm; try discriminate Hm; injection Hm as ->; discriminate
          end ].
    all: do 2 eexists; (split; [in_tail|]); (split; [eassumption|]); (split; [in_tail|]);
         (split; [|in_tail]);
         project; rewrite Hsteps; unfold print_while_scanning;
         repeat match goal with
                | Hq : getitem _ _ = _ |- _ => rewrite Hq
                | Hq : eq_str _ _ = _ |- _ => rewrite Hq
                end; reflexivity.
  - not_preparation Hprep Hstart.
Qed.

Lemma designjet_two_segment_witness :
  exists o self' evs,
    CopyDesignJet.start 5 "job_456" "ticket_123" 0
      (Mock.device 200 Mock.ready_info true (Ret Mock.jobBuild_ticket) "printWhileScanning"
         (Ret (PList [])) 10)
      [] init_instance = Some (o, self', evs)
    /\ exists prepared configuration,
        In (EvCall (PrepareProcessing "job_456") (Ret prepared)) evs
        /\ eq_int prepared 200 = true
        /\ In (EvCall (CDM_get COPY_CONFIGURATION_ENDPOINT) (Ret configuration)) evs
        /\ steps evs =
             [ Initialize "job_456"; JT_get_info "ticket_123"; PrepareProcessing "job_456";
               WaitProcessing "job_456"; JM_wait_for_all_previews_done "job_456";
               CDM_get COPY_CONFIGURATION_ENDPOINT ]
             ++ (if print_while_scanning configuration then [WaitPrinting] else [])
             ++ [Start "job_456"]
        /\ In (EvCall (Start "job_456") o) evs.
Proof.
  do 3 eexists. split; [vm_compute; reflexivity|].
  eapply (designjet_two_segment
            (Mock.device 200 Mock.ready_info true (Ret Mock.jobBuild_ticket) "printWhileScanning"
               (Ret (PList [])) 10)
            [] init_instance 5 "job_456" "ticket_123" 0 _ _ _ Mock.jobBuild_ticket).
  - discriminate.
  - vm_compute. reflexivity.
  - vm_compute. tauto.
  - vm_compute. reflexivity.
  - vm_compute. tauto.
Defined.

(** ** The flatbedAddPage alert *)

(** C6, amended: for the base-dune and the enterprise variants the alert
    wait happens exactly when: base-dune, previews were requested and the
    device reports the feeder as not loaded; enterprise without previews,
    the instance's [_adf_loaded] flag is falsy and [_output_duplex] is
    [True]; enterprise with previews, the device reports the feeder as not
    loaded.  The wait follows a Start transition that returned, an alert
    that arrived is answered with "Response_02", and a [TimeoutError] of
    the exchange is logged while [start] returns the status code of Start. *)
Theorem flatbed_alert_handling cls env h self fuel job_id ticket_id reps o self' evs :
  cls = ClsCopyDune \/ cls = ClsCopyEnterprise ->
  start cls fuel job_id ticket_id reps env h self = Some (o, self', evs) ->
  alert_handling job_id (alert_wanted cls reps self evs) o evs.
Proof.
  intros [->| ->] H; simpl in *.
  - eapply dune_alert_handling; eauto.
  - eapply enterprise_alert_handling; eauto.
Qed.

Lemma flatbed_alert_handling_witness :
  exists self' evs,
    start ClsCopyEnterprise 5 "job_456" "ticket_123" 0
      (Mock.device 200 Mock.ready_info false (Ret Mock.plain_ticket) "" Mock.no_alert 10)
      [] duplex_instance = Some (Ret (PInt 200), self', evs)
    /\ In AlertTimeoutLog evs
    /\ alert_handling "job_456" (alert_wanted ClsCopyEnterprise 0 duplex_instance evs)
         (Ret (PInt 200)) evs.
Proof.
  do 2 eexists. split; [vm_compute; reflexivity|]. split; [vm_compute; tauto|].
  eapply (flatbed_alert_handling ClsCopyEnterprise
            (Mock.device 200 Mock.ready_info false (Ret Mock.plain_ticket) "" Mock.no_alert 10)
            [] duplex_instance 5 "job_456" "ticket_123" 0).
  - right. reflexivity.
  - vm_compute. reflexivity.
Defined.

(** C6 as stated fails twice: the base variant without previews returns
    right after Start and never waits for the alert although the feeder is
    not loaded; the enterprise variant with previews waits for it although
    no duplex output was requested. *)
Lemma flatbed_alert_counterexample :
  let env := Mock.device 200 Mock.ready_info false (Ret Mock.plain_ticket) "" (Ret (PList [])) 10 in
  (forall h, env_call env h AdfLoaded = Ret (PBool false))
  /\ (exists self' evs,
        CopyDune.start 5 "job_456" "ticket_123" 0 env [] init_instance
          = Some (Ret (PInt 200), self', evs)
        /\ In (Start "job_456") (calls evs)
        /\ ~ In WaitAlert (calls evs))
  /\ (exists self' evs,
        CopyEnterprise.start 5 "job_456" "ticket_123" 1 env [] init_instance
          = Some (Ret (PInt 200), self', evs)
        /\ _output_duplex init_instance = PNone
        /\ In WaitAlert (calls evs)).
Proof.
  split; [reflexivity|]. split.
  - do 2 eexists. split; [vm_compute; reflexivity|]. split.
    + vm_compute. tauto.
    + vm_compute. intuition discriminate.
  - do 2 eexists. split; [vm_compute; reflexivity|]. split; [reflexivity|].
    vm_compute. tauto.
Qed.

(** ** The Initialize transition *)

(** C7, amended: when the Initialize transition returns a status other
    than 200, [preview_start] raises [AssertionError] right after the call,
    before any clock reading or readiness poll, and so does [start] of
    every class. *)
Theorem initialize_must_return_200 env h self fuel job_id ticket_id v :
  env_call env (h ++ [EvLog "Starting job : %s" [PStr job_id]]) (Initialize job_id) = Ret v ->
  eq_int v 200 = false ->
  let attempted :=
    [EvLog "Starting job : %s" [PStr job_id]; EvCall (Initialize job_id) (Ret v)] in
  Copy.preview_start fuel job_id ticket_id env h self
    = Some (Raise (Exn AssertionError ""), self, attempted)
  /\ (forall reps,
        CopyDune.preview_start fuel job_id ticket_id reps env h self
          = Some (Raise (Exn AssertionError ""), self, attempted))
  /\ (forall cls reps,
        start cls fuel job_id ticket_id reps env h self
          = Some (Raise (Exn AssertionError ""), self, attempted)).
Proof.
  intros Hinit Hv attempted.
  assert (Hbase : Copy.preview_start fuel job_id ticket_id env h self
                  = Some (Raise (Exn AssertionError ""), self, attempted)).
  { unfold Copy.preview_start, mbind, M_bind, logging_info, call_, assert_. simpl.
    unfold Initialize in Hinit. rewrite Hinit, Hv. reflexivity. }
  assert (Hdune : forall reps,
             CopyDune.preview_start fuel job_id ticket_id reps env h self
             = Some (Raise (Exn AssertionError ""), self, attempted)).
  { intros reps. unfold CopyDune.preview_start, mbind, M_bind. rewrite Hbase. reflexivity. }
  split; [exact Hbase|]. split; [exact Hdune|].
  intros [] reps; simpl;
    unfold Copy.start, CopyDune.start, CopyEnterprise.start, CopyDesignJet.start, mbind, M_bind;
    rewrite ?Hbase, ?Hdune; reflexivity.
Qed.

Lemma initialize_must_return_200_witness :
  Copy.preview_start 5 "job_456" "ticket_123"
    (Mock.device 500 Mock.ready_info true (Ret Mock.plain_ticket) "" (Ret (PList [])) 10)
    [] init_instance
  = Some (Raise (Exn AssertionError ""), init_instance,
          [EvLog "Starting job : %s" [PStr "job_456"];
           EvCall (Initialize "job_456") (Ret (PInt 500))]).
Proof.
  apply (initialize_must_return_200
           (Mock.device 500 Mock.ready_info true (Ret Mock.plain_ticket) "" (Ret (PList [])) 10)
           [] init_instance 5 "job_456" "ticket_123" (PInt 500)).
  - reflexivity.
  - reflexivity.
Defined.

(** C7 as stated fails on the error kind: a status other than 200 makes
    the [assert] raise [AssertionError]; no [StateTransitionError] is ever
    raised. *)
Lemma initialize_failure_counterexample :
  let r := Copy.preview_start 5 "job_456" "ticket_123"
             (Mock.device 500 Mock.ready_info true (Ret Mock.plain_ticket) "" (Ret (PList [])) 10)
             [] init_instance in
  (exists self' evs, r = Some (Raise (Exn AssertionError ""), self', evs))
  /\ (forall msg self' evs,
        r <> Some (Raise (Exn (OtherError "StateTransitionError") msg), self', evs)).
Proof.
  split.
  - do 2 eexists. vm_compute. reflexivity.
  - intros msg self' evs H. vm_compute in H. discriminate H.
Qed.

(** ** Family resolution *)

Ltac nrun_unfold H :=
  unfold Construction.construct, Construction.type__call__, Construction.CopyDune__new__,
    Construction.CopyHomePro__new__, Construction.CopyBeam_call,
    Construction.CopyDune__new__inherited, Construction.Copy__new__,
    Construction.super__new__, Construction.object__new__, Construction.Copy__init__ in H;
  unfold mbind, Construction.N_bind, mret, Construction.N_ret, Construction.ask,
    Construction.raise_, Construction.lift_, Construction.set_class,
    Construction.class_attribute in H.

Ltac nexec_step H :=
  lazymatch type of H with
  | (_, _, _) = (_, _, _) => fail
  | context [match ?x with _ => _ end] =>
      let y := find_scrut x in destruct y eqn:?; simpl in H
  end.

Ltac nexec H := nrun_unfold H; simpl in H; repeat nexec_step H; try discriminate H.

(** C8: [Copy(...)] does not resolve the family.  Whatever family and
    product the configuration reports, and whoever calls, a construction
    through [Copy] that returns has fetched both identifiers and stored
    them on the class, and its object is a plain [CopyDune], whose [start]
    and [_updating_ticket] are the generic ones: [Copy.__new__] allocates
    through [super().__new__(cls)], which does not run [CopyDune.__new__]
    and its family table. *)
Theorem Copy_call_skips_family_table caller cdm udw pf h attrs obj attrs' evs :
  Construction.construct ClsCopy caller cdm udw pf h attrs = (Ret obj, attrs', evs) ->
  obj = ClsCopyDune
  /\ start obj = CopyDune.start
  /\ _updating_ticket obj = Copy._updating_ticket
  /\ exists configuration family product,
       In (Construction.familyname configuration, Ret family) evs
       /\ In (Construction.productname configuration, Ret product) evs
       /\ Construction._family_name attrs' = Some family
       /\ Construction._product_name attrs' = Some product.
Proof.
  intros H. nexec H; injection H as <- <- <-; (split; [reflexivity|]);
    (do 2 (split; [reflexivity|])); do 3 eexists; simpl;
    (split; [do 4 right; left; reflexivity|]);
    (split; [do 5 right; left; reflexivity|]); split; reflexivity.
Qed.

Lemma Copy_call_skips_family_table_witness :
  exists evs,
    Construction.construct ClsCopy (Some "tests.copy.test_copy") PNone PNone
      (reports (PStr "enterprise") (PStr "jupiter") copy_beam_missing) []
      Construction.no_attributes
    = (Ret ClsCopyDune, fetched (PStr "enterprise") (PStr "jupiter"), evs)
    /\ start ClsCopyDune = CopyDune.start
    /\ _updating_ticket ClsCopyDune = Copy._updating_ticket.
Proof.
  eexists. split; [vm_compute; reflexivity|].
  match goal with
  | |- ?G =>
      destruct (Copy_call_skips_family_table (Some "tests.copy.test_copy") PNone PNone
                  (reports (PStr "enterprise") (PStr "jupiter") copy_beam_missing) []
                  Construction.no_attributes ClsCopyDune
                  (fetched (PStr "enterprise") (PStr "jupiter"))
                  (snd (Construction.construct ClsCopy (Some "tests.copy.test_copy") PNone PNone
                          (reports (PStr "enterprise") (PStr "jupiter") copy_beam_missing) []
                          Construction.no_attributes)))
        as (_ & Hstart & Hticket & _)
  end.
  - vm_compute. reflexivity.
  - split; [exact Hstart|exact Hticket].
Defined.

(** * Further properties *)

(** ** Normal forms of ticket normalization *)

Section NormalForm.

Variable env : Env.
Variable h : list event.

Lemma src_rules_recorded (d : gmap string pyval) self :
  section_ok d "src" "scan" ->
  Copy.src_rules (PDict d) env h self =
    Some (Ret tt,
          {| _adf_loaded :=
               if reads (PDict d) "src" "scan" "mediaSource" "flatbed" then PBool false
               else _adf_loaded self;
             _output_duplex := _output_duplex self;
             _duplex :=
               if reads (PDict d) "src" "scan" "plexMode" "duplex" then PBool true
               else _duplex self |}, []).
Proof.
  intros Hok. unfold Copy.src_rules, reads, item3, item2. run_unfold_goal.
  destruct self as [adf od du]. simpl.
  destruct (d !! "src") as [x|] eqn:Hsrc; simpl; [|reflexivity].
  destruct (Hok x Hsrc) as (dx & ds & -> & Hscan). simpl. rewrite Hscan. simpl.
  destruct (ds !! "mediaSource") as [ms|]; simpl;
    [destruct (eq_str ms "flatbed"); simpl|];
    (destruct (ds !! "plexMode") as [pm|]; simpl;
      [destruct (eq_str pm "duplex"); simpl|]);
    reflexivity.
Qed.

Lemma dest_rules_normalized (d : gmap string pyval) self :
  section_ok d "dest" "print" ->
  Copy.dest_rules (PDict d) env h self =
    Some (Ret (normalized (PDict d)),
          {| _adf_loaded := _adf_loaded self;
             _output_duplex :=
               if reads (PDict d) "dest" "print" "plexMode" "duplex" then PBool true
               else _output_duplex self;
             _duplex := _duplex self |}, []).
Proof.
  intros Hok.
  unfold Copy.dest_rules, normalized, binding_forced, reads, setitem3, item3, item2.
  run_unfold_goal. destruct self as [adf od du]. simpl.
  destruct (d !! "dest") as [x|] eqn:Hdest; simpl; [|reflexivity].
  destruct (Hok x Hdest) as (dd & pr & -> & Hprint). simpl. rewrite Hprint. simpl.
  destruct (pr !! "plexMode") as [pm|]; simpl; [|reflexivity].
  destruct (eq_str pm "duplex"); simpl; [|reflexivity].
  destruct (pr !! "duplexBinding") as [db|]; simpl; [|reflexivity].
  destruct (eq_str db "oneSided"); reflexivity.
Qed.

Lemma base_normal_form payload self :
  valid_payload payload ->
  Copy._updating_ticket payload env h self
    = Some (Ret (normalized payload), recorded payload self, []).
Proof.
  intros (d & -> & Hsrc & Hdst).
  unfold Copy._updating_ticket.
  rewrite (bind_run_ret _ _ _ _ _ _ _ _ (src_rules_recorded d self Hsrc)).
  rewrite List.app_nil_r, (dest_rules_normalized d _ Hdst). reflexivity.
Qed.

End NormalForm.

Ltac lookups :=
  repeat first [ rewrite lookup_insert_eq | rewrite lookup_insert_ne by discriminate
               | rewrite lookup_empty | progress simpl ].

Lemma normalized_valid payload : valid_payload payload -> valid_payload (normalized payload).
Proof.
  intros (d & -> & Hsrc & Hdst). unfold normalized, binding_forced, reads, setitem3, item3, item2.
  simpl. destruct (d !! "dest") as [x|] eqn:Hdest; simpl;
    [|exists d; repeat split; auto].
  destruct (Hdst x Hdest) as (dd & pr & -> & Hprint). simpl. rewrite Hprint. simpl.
  destruct (pr !! "plexMode") as [pm|]; simpl; [|exists d; repeat split; auto].
  destruct (eq_str pm "duplex"); simpl; [|exists d; repeat split; auto].
  assert (Hforced : valid_payload
            (PDict (<["dest" := PDict (<["print" :=
               PDict (<["duplexBinding" := PStr "twoSidedLongEdge"]> pr)]> dd)]> d))).
  { eexists. split; [reflexivity|]. split.
    - intros x Hx. rewrite lookup_insert_ne in Hx by discriminate. auto.
    - intros x Hx. rewrite lookup_insert_eq in Hx. injection Hx as <-.
      do 2 eexists. split; [reflexivity|]. apply lookup_insert_eq. }
  destruct (pr !! "duplexBinding") as [db|]; simpl; [|exact Hforced].
  destruct (eq_str db "oneSided"); [exact Hforced|exists d; repeat split; auto].
Qed.

(** What the base rules force does not change what they read. *)
Lemma normalized_reads payload :
  valid_payload payload ->
  reads (normalized payload) "src" "scan" "mediaSource" "flatbed"
    = reads payload "src" "scan" "mediaSource" "flatbed"
  /\ reads (normalized payload) "src" "scan" "plexMode" "duplex"
    = reads payload "src" "scan" "plexMode" "duplex"
  /\ reads (normalized payload) "dest" "print" "plexMode" "duplex"
    = reads payload "dest" "print" "plexMode" "duplex"
  /\ binding_forced (normalized payload) = false
  /\ item3 (normalized payload) "src" "scan" "resolution"
    = item3 payload "src" "scan" "resolution".
Proof.
  intros (d & -> & Hsrc & Hdst). unfold normalized, binding_forced, reads, setitem3, item3, item2.
  simpl. destruct (d !! "dest") as [x|] eqn:Hdest; simpl.
  2: { rewrite ?Hdest. simpl. repeat split; reflexivity. }
  destruct (Hdst x Hdest) as (dd & pr & -> & Hprint). simpl. rewrite Hprint. simpl.
  destruct (pr !! "plexMode") as [pm|] eqn:Hpm; simpl;
    [destruct (eq_str pm "duplex") eqn:Hduplex; simpl;
     [destruct (pr !! "duplexBinding") as [db|] eqn:Hdb; simpl;
      [destruct (eq_str db "oneSided") eqn:Hone; simpl|]|]|];
    lookups; rewrite ?Hdest; simpl; rewrite ?Hprint; simpl; rewrite ?Hpm; simpl;
    rewrite ?Hduplex; simpl; rewrite ?Hdb; simpl; rewrite ?Hone;
    repeat split; reflexivity.
Qed.

Lemma recorded_twice payload payload' self :
  reads payload' "src" "scan" "mediaSource" "flatbed"
    = reads payload "src" "scan" "mediaSource" "flatbed" ->
  reads payload' "src" "scan" "plexMode" "duplex"
    = reads payload "src" "scan" "plexMode" "duplex" ->
  reads payload' "dest" "print" "plexMode" "duplex"
    = reads payload "dest" "print" "plexMode" "duplex" ->
  recorded payload' (recorded payload self) = recorded payload self.
Proof.
  intros H1 H2 H3. unfold recorded. rewrite H1, H2, H3. simpl.
  destruct (reads payload "src" "scan" "mediaSource" "flatbed"),
           (reads payload "dest" "print" "plexMode" "duplex"),
           (reads payload "src" "scan" "plexMode" "duplex"); reflexivity.
Qed.

Lemma overridden_facts payload :
  valid_payload payload ->
  valid_payload (overridden payload)
  /\ reads (overridden payload) "src" "scan" "mediaSource" "flatbed"
     = reads payload "src" "scan" "mediaSource" "flatbed"
  /\ reads (overridden payload) "src" "scan" "plexMode" "duplex"
     = reads payload "src" "scan" "plexMode" "duplex"
  /\ reads (overridden payload) "dest" "print" "plexMode" "duplex"
     = reads payload "dest" "print" "plexMode" "duplex"
  /\ binding_forced (overridden payload) = binding_forced payload
  /\ overridden (overridden payload) = overridden payload.
Proof.
  intros (d & -> & Hsrc & Hdst).
  assert (Hsame : overridden (PDict d) = PDict d ->
            valid_payload (overridden (PDict d))
            /\ reads (overridden (PDict d)) "src" "scan" "mediaSource" "flatbed"
               = reads (PDict d) "src" "scan" "mediaSource" "flatbed"
            /\ reads (overridden (PDict d)) "src" "scan" "plexMode" "duplex"
               = reads (PDict d) "src" "scan" "plexMode" "duplex"
            /\ reads (overridden (PDict d)) "dest" "print" "plexMode" "duplex"
               = reads (PDict d) "dest" "print" "plexMode" "duplex"
            /\ binding_forced (overridden (PDict d)) = binding_forced (PDict d)
            /\ overridden (overridden (PDict d)) = overridden (PDict d)).
  { intros Heq. rewrite !Heq. split; [exists d; auto|]. repeat split; reflexivity. }
  destruct (d !! "src") as [x|] eqn:Hx.
  2: { apply Hsame. unfold overridden, resolution_set, item3, item2. simpl. rewrite Hx.
       reflexivity. }
  destruct (Hsrc x Hx) as (dx & ds & -> & Hscan).
  destruct (ds !! "resolution") as [r|] eqn:Hr.
  2: { apply Hsame. unfold overridden, resolution_set, item3, item2. simpl. rewrite Hx. simpl.
       rewrite Hscan. simpl. rewrite Hr. reflexivity. }
  destruct (truthy r) eqn:Htruthy.
  2: { apply Hsame. unfold overridden, resolution_set, item3, item2. simpl. rewrite Hx. simpl.
       rewrite Hscan. simpl. rewrite Hr. simpl. rewrite Htruthy. reflexivity. }
  clear Hsame.
  assert (Hq : overridden (PDict d) =
               PDict (<["src" := PDict (<["scan" :=
                 PDict (<["resolution" := PStr "e600Dpi"]> ds)]> dx)]> d)).
  { unfold overridden, resolution_set, setitem3, item3, item2. simpl. rewrite Hx. simpl.
    rewrite Hscan. simpl. rewrite Hr. simpl. rewrite Htruthy. reflexivity. }
  rewrite Hq. split.
  { eexists. split; [reflexivity|]. split.
    - intros y Hy. rewrite lookup_insert_eq in Hy. injection Hy as <-.
      do 2 eexists. split; [reflexivity|]. apply lookup_insert_eq.
    - intros y Hy. rewrite lookup_insert_ne in Hy by discriminate. auto. }
  unfold binding_forced, reads, overridden, resolution_set, setitem3, item3, item2.
  lookups. rewrite Hx. simpl. rewrite Hscan. simpl. rewrite !insert_insert_eq.
  repeat split; reflexivity.
Qed.

Lemma enterprise_normal_form env h payload self :
  valid_payload payload ->
  CopyEnterprise._updating_ticket payload env h self
    = Some (Ret (overridden (normalized payload)), recorded payload self, []).
Proof.
  intros Hvalid. unfold CopyEnterprise._updating_ticket.
  rewrite (bind_run_ret _ _ _ _ _ _ _ _ (base_normal_form env h payload self Hvalid)).
  destruct (normalized_valid payload Hvalid) as (d & -> & Hsrc & _).
  unfold overridden, resolution_set, setitem3, item3, item2, get.
  unfold mbind at 1. unfold M_bind at 1. unfold lift at 1. simpl.
  destruct (d !! "src") as [x|] eqn:Hx; simpl.
  - destruct (Hsrc x Hx) as (dx & ds & -> & Hscan). simpl. rewrite Hscan. simpl.
    destruct (ds !! "resolution") as [r|]; simpl; [destruct (truthy r)|]; reflexivity.
  - lookups. reflexivity.
Qed.

Lemma class_normal_form cls env h payload self :
  valid_payload payload ->
  _updating_ticket cls payload env h self
    = Some (Ret (normal_form cls payload), recorded payload self, []).
Proof.
  intros Hvalid.
  destruct cls; simpl; first [ apply base_normal_form | apply enterprise_normal_form ];
    exact Hvalid.
Qed.

(** The normal form is valid, is its own normal form and records the same
    flags. *)
Lemma normal_form_fixed cls payload :
  valid_payload payload ->
  valid_payload (normal_form cls payload)
  /\ normal_form cls (normal_form cls payload) = normal_form cls payload
  /\ forall self, recorded (normal_form cls payload) (recorded payload self)
                  = recorded payload self.
Proof.
  intros Hvalid.
  pose proof (normalized_valid payload Hvalid) as Hvalid1.
  destruct (normalized_reads payload Hvalid) as (Hr1 & Hr2 & Hr3 & Hforced & _).
  destruct (overridden_facts (normalized payload) Hvalid1)
    as (Hvalid2 & Ho1 & Ho2 & Ho3 & Hoforced & Hotwice).
  assert (Hbase : valid_payload (normalized payload)
                  /\ normalized (normalized payload) = normalized payload
                  /\ forall self, recorded (normalized payload) (recorded payload self)
                                  = recorded payload self).
  { split; [exact Hvalid1|]. split.
    - unfold normalized at 1. rewrite Hforced. reflexivity.
    - intros self. apply recorded_twice; assumption. }
  destruct cls; simpl; try exact Hbase.
  split; [exact Hvalid2|]. split.
  - unfold normalized at 1. rewrite Hoforced, Hforced. exact Hotwice.
  - intros self. apply recorded_twice; [exact (eq_trans Ho1 Hr1)|exact (eq_trans Ho2 Hr2)
                                        |exact (eq_trans Ho3 Hr3)].
Qed.

Lemma flatbed_duplex_payload_valid : valid_payload flatbed_duplex_payload.
Proof.
  eexists. split; [reflexivity|]. split.
  - intros x Hx. vm_compute in Hx. injection Hx as <-.
    do 2 eexists. split; [reflexivity|]. vm_compute. reflexivity.
  - intros x Hx. vm_compute in Hx. injection Hx as <-.
    do 2 eexists. split; [reflexivity|]. vm_compute. reflexivity.
Qed.

(** A binding that had to be forced reads "twoSidedLongEdge" afterwards. *)
Lemma normalized_binding payload :
  valid_payload payload -> binding_forced payload = true ->
  reads (normalized payload) "dest" "print" "duplexBinding" "twoSidedLongEdge" = true.
Proof.
  intros (d & -> & Hsrc & Hdst).
  unfold normalized, binding_forced, reads, setitem3, item3, item2. simpl.
  destruct (d !! "dest") as [x|] eqn:Hdest; simpl; [|discriminate].
  destruct (Hdst x Hdest) as (dd & pr & -> & Hprint). simpl. rewrite Hprint. simpl.
  destruct (pr !! "plexMode") as [pm|] eqn:Hpm; simpl; [|discriminate].
  destruct (eq_str pm "duplex") eqn:Hduplex; simpl; [|discriminate].
  destruct (pr !! "duplexBinding") as [db|] eqn:Hdb; simpl;
    [destruct (eq_str db "oneSided") eqn:Hone; simpl; [|discriminate]|];
    intros _; lookups; reflexivity.
Qed.

(** The override leaves the binding alone and sets a truthy resolution. *)
Lemma overridden_reads payload :
  valid_payload payload ->
  reads (overridden payload) "dest" "print" "duplexBinding" "twoSidedLongEdge"
    = reads payload "dest" "print" "duplexBinding" "twoSidedLongEdge"
  /\ (resolution_set payload = true ->
      reads (overridden payload) "src" "scan" "resolution" "e600Dpi" = true).
Proof.
  intros (d & -> & Hsrc & Hdst).
  unfold overridden, resolution_set, reads, setitem3, item3, item2. simpl.
  destruct (d !! "src") as [x|] eqn:Hx; simpl; [|split; [reflexivity|discriminate]].
  destruct (Hsrc x Hx) as (dx & ds & -> & Hscan). simpl. rewrite Hscan. simpl.
  destruct (ds !! "resolution") as [r|] eqn:Hr; simpl; [|split; [reflexivity|discriminate]].
  destruct (truthy r) eqn:Htruthy; simpl; [|split; [reflexivity|discriminate]].
  lookups. split; reflexivity.
Qed.

(** X1: on a valid payload [_updating_ticket] of every class returns, it
    never raises, and it reaches no collaborator; the instance holds exactly
    the flags that the payload asks for.  The payload it returns is again
    valid and asks for the same output plex mode; its binding no longer has
    to be forced, and reads "twoSidedLongEdge" where it had to be; for the
    enterprise class a resolution that was truthy reads "e600Dpi"; and a
    payload in which there was nothing to force or to override is returned
    as it was. *)
Theorem normalization_returns cls env h payload self :
  valid_payload payload ->
  exists payload',
    _updating_ticket cls payload env h self = Some (Ret payload', recorded payload self, [])
    /\ valid_payload payload'
    /\ reads payload' "dest" "print" "plexMode" "duplex"
       = reads payload "dest" "print" "plexMode" "duplex"
    /\ binding_forced payload' = false
    /\ (binding_forced payload = true ->
        reads payload' "dest" "print" "duplexBinding" "twoSidedLongEdge" = true)
    /\ (cls = ClsCopyEnterprise -> resolution_set payload = true ->
        reads payload' "src" "scan" "resolution" "e600Dpi" = true)
    /\ (binding_forced payload = false ->
        (cls = ClsCopyEnterprise -> resolution_set payload = false) ->
        payload' = payload).
Proof.
  intros Hvalid. exists (normal_form cls payload).
  split; [apply class_normal_form, Hvalid|].
  split; [apply normal_form_fixed, Hvalid|].
  pose proof (normalized_valid payload Hvalid) as Hvalid1.
  destruct (normalized_reads payload Hvalid) as (_ & _ & Hplex & Hforced & Hres).
  destruct (overridden_facts (normalized payload) Hvalid1) as (_ & _ & _ & Hoplex & Hoforced & _).
  destruct (overridden_reads (normalized payload) Hvalid1) as [Hobind Hores].
  assert (Hset : resolution_set (normalized payload) = resolution_set payload).
  { unfold resolution_set. rewrite Hres. reflexivity. }
  assert (Hkeep : binding_forced payload = false -> normalized payload = payload).
  { intros Hb. unfold normalized. rewrite Hb. reflexivity. }
  destruct cls; simpl;
    (split; [first [exact Hplex|rewrite Hoplex; exact Hplex]|]);
    (split; [first [exact Hforced|rewrite Hoforced; exact Hforced]|]);
    (split; [intros Hb; first [ apply normalized_binding; assumption
                              | rewrite Hobind; apply normalized_binding; assumption ]|]);
    (split; [intros Hcls; try discriminate Hcls; intros Hr; apply Hores; rewrite Hset; exact Hr|]);
    intros Hb Hr; try (apply Hkeep, Hb).
  unfold overridden. rewrite Hset, (Hr eq_refl). apply Hkeep, Hb.
Qed.

Lemma normalization_returns_witness :
  exists payload',
    _updating_ticket ClsCopyEnterprise flatbed_duplex_payload Mock.happy [] init_instance
    = Some (Ret payload',
            {| _adf_loaded := PBool false; _output_duplex := PBool true; _duplex := PNone |},
            [])
    /\ reads payload' "dest" "print" "duplexBinding" "twoSidedLongEdge" = true
    /\ reads payload' "src" "scan" "resolution" "e600Dpi" = true.
Proof.
  destruct (normalization_returns ClsCopyEnterprise Mock.happy [] flatbed_duplex_payload
              init_instance flatbed_duplex_payload_valid)
    as (payload' & Hrun & _ & _ & _ & Hbind & Hres & _).
  exists payload'. split; [exact Hrun|].
  split; [apply Hbind; reflexivity|apply Hres; reflexivity].
Defined.

(** X2: normalization is idempotent: run again on the payload and the
    instance that a run on a valid payload left, [_updating_ticket] of the
    same class returns the same payload and leaves the same instance. *)
Theorem normalization_idempotent cls payload env h self p1 self1 env' h' :
  valid_payload payload ->
  _updating_ticket cls payload env h self = Some (Ret p1, self1, []) ->
  _updating_ticket cls p1 env' h' self1 = Some (Ret p1, self1, []).
Proof.
  intros Hvalid Hrun.
  rewrite (class_normal_form cls env h payload self Hvalid) in Hrun.
  injection Hrun as <- <-.
  destruct (normal_form_fixed cls payload Hvalid) as (Hvalid' & Hfixed & Hrec).
  rewrite (class_normal_form cls env' h' _ _ Hvalid'), Hfixed, Hrec. reflexivity.
Qed.

Lemma normalization_idempotent_witness :
  exists p1 self1,
    _updating_ticket ClsCopyEnterprise flatbed_duplex_payload Mock.happy [] init_instance
      = Some (Ret p1, self1, [])
    /\ _updating_ticket ClsCopyEnterprise p1 Mock.happy [] self1 = Some (Ret p1, self1, []).
Proof.
  do 2 eexists. split; [vm_compute; reflexivity|].
  apply (normalization_idempotent ClsCopyEnterprise flatbed_duplex_payload
           Mock.happy [] init_instance).
  - exact flatbed_duplex_payload_valid.
  - vm_compute. reflexivity.
Defined.

(** X3: normalizing a valid payload before handing it to [create_ticket],
    as [do_preview_job] does, changes nothing: the run has the outcome, the
    instance and the store calls of [create_ticket] on the payload itself. *)
Theorem create_ticket_prenormalized cls payload env h self :
  valid_payload payload ->
  (payload ← _updating_ticket cls payload; create_ticket cls payload) env h self
  = create_ticket cls payload env h self.
Proof.
  intros Hvalid.
  destruct (normal_form_fixed cls payload Hvalid) as (Hvalid' & Hfixed & Hrec).
  rewrite (bind_run_ret _ _ _ _ _ _ _ _ (class_normal_form cls env h payload self Hvalid)).
  unfold create_ticket, Copy.create_ticket.
  rewrite (bind_run_ret _ _ _ _ _ _ _ _
             (class_normal_form cls env (h ++ []) _ (recorded payload self) Hvalid')).
  rewrite (bind_run_ret _ _ _ _ _ _ _ _ (class_normal_form cls env h payload self Hvalid)).
  rewrite Hfixed, Hrec, !List.app_nil_r.
  match goal with
  | |- context [match ?run with Some _ => _ | None => None end] =>
      lazymatch run with
      | context [match _ with Some _ => _ | None => None end] => fail
      | _ => destruct run as [[[o self2] evs2]|]; reflexivity
      end
  end.
Qed.

Lemma create_ticket_prenormalized_witness :
  (payload ← _updating_ticket ClsCopyEnterprise flatbed_duplex_payload;
   create_ticket ClsCopyEnterprise payload) Mock.happy [] init_instance
  = create_ticket ClsCopyEnterprise flatbed_duplex_payload Mock.happy [] init_instance.
Proof.
  apply (create_ticket_prenormalized ClsCopyEnterprise flatbed_duplex_payload
           Mock.happy [] init_instance).
  exact flatbed_duplex_payload_valid.
Defined.

(** ** What normalization may change *)

Lemma flags_only_refl self : flags_only self self [].
Proof. repeat split; left; reflexivity. Qed.

Lemma flags_only_trans s1 s2 s3 evs1 evs2 :
  flags_only s1 s2 evs1 -> flags_only s2 s3 evs2 -> flags_only s1 s3 (evs1 ++ evs2).
Proof.
  unfold flags_only, kept_or. intros (-> & A1 & O1 & D1) (-> & A2 & O2 & D2).
  split; [reflexivity|]. split; [|split].
  - destruct A2 as [A2|A2]; rewrite A2; auto.
  - destruct O2 as [O2|O2]; rewrite O2; auto.
  - destruct D2 as [D2|D2]; rewrite D2; auto.
Qed.

Ltac exec_pure H :=
  unfold set_adf_loaded, set_duplex, set_output_duplex in H;
  unfold mbind, M_bind, mret, M_ret, lift, raise in H;
  simpl in H; repeat exec_step H; try discriminate H.

Lemma src_rules_flags payload env h self o self' evs :
  Copy.src_rules payload env h self = Some (o, self', evs) -> flags_only self self' evs.
Proof.
  intros H. unfold Copy.src_rules in H. exec_pure H; finish H;
    (split; [reflexivity|]); unfold kept_or; simpl; auto.
Qed.

Lemma dest_rules_flags payload env h self o self' evs :
  Copy.dest_rules payload env h self = Some (o, self', evs) -> flags_only self self' evs.
Proof.
  intros H. unfold Copy.dest_rules in H. exec_pure H; finish H;
    (split; [reflexivity|]); unfold kept_or; simpl; auto.
Qed.

Lemma base_normalization_flags payload env h self o self' evs :
  Copy._updating_ticket payload env h self = Some (o, self', evs) -> flags_only self self' evs.
Proof.
  intros H. unfold Copy._updating_ticket in H.
  apply bind_inv in H as [(u1 & self1 & evs1 & o2 & self2 & evs2 & H1 & H2 & [= -> -> ->])
                         |(e & self1 & evs1 & H1 & [= -> -> ->])].
  - exact (flags_only_trans _ _ _ _ _ (src_rules_flags _ _ _ _ _ _ _ H1)
             (dest_rules_flags _ _ _ _ _ _ _ H2)).
  - exact (src_rules_flags _ _ _ _ _ _ _ H1).
Qed.

Lemma updating_ticket_flags cls payload env h self o self' evs :
  _updating_ticket cls payload env h self = Some (o, self', evs) -> flags_only self self' evs.
Proof.
  intros H.
  destruct cls; simpl in H; try (eapply base_normalization_flags; eauto; fail).
  unfold CopyEnterprise._updating_ticket in H.
  apply bind_inv in H as [(p1 & self1 & evs1 & o2 & self2 & evs2 & H1 & H2 & [= -> -> ->])
                         |(e & self1 & evs1 & H1 & [= -> -> ->])];
    apply base_normalization_flags in H1; [|exact H1].
  exec_pure H2; finish H2; rewrite List.app_nil_r; exact H1.
Qed.

(** X4: whatever the payload, and whether it returns or raises,
    [_updating_ticket] of every class reaches no collaborator and touches
    the instance only by setting [_adf_loaded] to [False] and the two duplex
    flags to [True]: a feeder recorded as not loaded stays so, and a duplex
    output once recorded is never taken back. *)
Theorem normalization_flags_only cls payload env h self o self' evs :
  _updating_ticket cls payload env h self = Some (o, self', evs) ->
  flags_only self self' evs
  /\ (truthy (_adf_loaded self) = false -> truthy (_adf_loaded self') = false)
  /\ (is_True (_output_duplex self) = true -> is_True (_output_duplex self') = true).
Proof.
  intros H. pose proof (updating_ticket_flags _ _ _ _ _ _ _ _ H) as Hflags.
  split; [exact Hflags|]. destruct Hflags as (_ & [Ha|Ha] & [Ho|Ho] & _);
    rewrite Ha, Ho; auto.
Qed.

Lemma normalization_flags_only_witness :
  exists o self',
    _updating_ticket ClsCopyDune simplex_adf_payload Mock.happy [] duplex_instance
      = Some (o, self', [])
    /\ flags_only duplex_instance self' []
    /\ is_True (_output_duplex self') = true.
Proof.
  do 2 eexists. split; [vm_compute; reflexivity|].
  destruct (normalization_flags_only ClsCopyDune simplex_adf_payload
              Mock.happy [] duplex_instance _ _ [] ltac:(vm_compute; reflexivity))
    as (Hflags & _ & Hdup).
  split; [exact Hflags|]. apply Hdup. reflexivity.
Defined.

(** ** Errors of ticket creation *)

Lemma base_missing_scan (d dx : gmap string pyval) env h self :
  d !! "src" = Some (PDict dx) ->
  dx !! "scan" = None ->
  Copy._updating_ticket (PDict d) env h self = Some (Raise (Exn KeyError "scan"), self, []).
Proof.
  intros Hsrc Hscan.
  unfold Copy._updating_ticket, Copy.src_rules, item2. run_unfold_goal.
  rewrite Hsrc. simpl. rewrite Hscan. reflexivity.
Qed.

Lemma base_missing_print (d dd : gmap string pyval) env h self :
  section_ok d "src" "scan" ->
  d !! "dest" = Some (PDict dd) ->
  dd !! "print" = None ->
  Copy._updating_ticket (PDict d) env h self
  = Some (Raise (Exn KeyError "print"), recorded (PDict d) self, []).
Proof.
  intros Hsrc Hdest Hprint.
  assert (Hr : reads (PDict d) "dest" "print" "plexMode" "duplex" = false).
  { unfold reads, item3, item2. simpl. rewrite Hdest. simpl. rewrite Hprint. reflexivity. }
  unfold Copy._updating_ticket, recorded.
  rewrite (bind_run_ret _ _ _ _ _ _ _ _ (src_rules_recorded env h d self Hsrc)), Hr.
  unfold Copy.dest_rules, item2. run_unfold_goal.
  rewrite Hdest. simpl. rewrite Hprint. reflexivity.
Qed.

(** A failure of the base rules is the failure of every class and of
    [create_ticket], before any call to the store. *)
Lemma base_failure_propagates cls payload env h self e self' :
  Copy._updating_ticket payload env h self = Some (Raise e, self', []) ->
  _updating_ticket cls payload env h self = Some (Raise e, self', [])
  /\ create_ticket cls payload env h self = Some (Raise e, self', []).
Proof.
  intros Hbase.
  assert (Hcls : _updating_ticket cls payload env h self = Some (Raise e, self', [])).
  { destruct cls; simpl; try exact Hbase.
    unfold CopyEnterprise._updating_ticket. unfold mbind at 1. unfold M_bind at 1.
    rewrite Hbase. reflexivity. }
  split; [exact Hcls|].
  unfold create_ticket, Copy.create_ticket. unfold mbind at 1. unfold M_bind at 1.
  rewrite Hcls. reflexivity.
Qed.

(** X5: a payload whose [src] has no [scan] section, or whose [dest] has no
    [print] section, makes [_updating_ticket] of every class raise the
    [KeyError] of the missing section, and [create_ticket] raise it before
    any call to the ticket store.  Without [scan] the instance is untouched;
    without [print] the flags that the [src] section asks for are already
    set when the error is raised. *)
Theorem missing_section cls (d dx : gmap string pyval) env h self :
  (d !! "src" = Some (PDict dx) -> dx !! "scan" = None ->
   _updating_ticket cls (PDict d) env h self = Some (Raise (Exn KeyError "scan"), self, [])
   /\ create_ticket cls (PDict d) env h self = Some (Raise (Exn KeyError "scan"), self, []))
  /\ (section_ok d "src" "scan" -> d !! "dest" = Some (PDict dx) -> dx !! "print" = None ->
      _updating_ticket cls (PDict d) env h self
        = Some (Raise (Exn KeyError "print"), recorded (PDict d) self, [])
      /\ create_ticket cls (PDict d) env h self
        = Some (Raise (Exn KeyError "print"), recorded (PDict d) self, [])).
Proof.
  split.
  - intros Hsrc Hscan. apply base_failure_propagates, (base_missing_scan d dx); assumption.
  - intros Hsrc Hdest Hprint.
    apply base_failure_propagates, (base_missing_print d dx); assumption.
Qed.

Lemma missing_section_witness :
  create_ticket ClsCopyDune scanless_payload Mock.happy [] init_instance
    = Some (Raise (Exn KeyError "scan"), init_instance, [])
  /\ create_ticket ClsCopyDune printless_payload Mock.happy [] init_instance
    = Some (Raise (Exn KeyError "print"),
            {| _adf_loaded := PBool false; _output_duplex := PNone; _duplex := PNone |}, []).
Proof.
  split.
  - destruct (missing_section ClsCopyDune
                {[ "src" := PDict ∅;
                   "dest" := PDict {[ "print" := PDict {[ "plexMode" := PStr "duplex" ]} ]} ]}
                ∅ Mock.happy [] init_instance) as [Hscan _].
    apply Hscan; vm_compute; reflexivity.
  - destruct (missing_section ClsCopyDune
                {[ "src" := PDict {[ "scan" := PDict {[ "mediaSource" := PStr "flatbed" ]} ]};
                   "dest" := PDict ∅ ]}
                ∅ Mock.happy [] init_instance) as [_ Hprint].
    destruct Hprint as [_ Hcreate].
    + intros x Hx. vm_compute in Hx. injection Hx as <-.
      do 2 eexists. split; [reflexivity|]. vm_compute. reflexivity.
    + vm_compute. reflexivity.
    + vm_compute. reflexivity.
    + unfold printless_payload. rewrite Hcreate. vm_compute. reflexivity.
Defined.

(** X6: the store calls of [create_ticket].  When it returns, it returns
    the id that the store's [create] gave for the fixed skeleton, after one
    [update] of that id with the normalized payload.  Any [update] of the
    run follows a [create] that returned, carries the normalized payload and
    decides the outcome; no other collaborator call is made. *)
Theorem create_ticket_store_calls cls payload env h self o self' evs :
  create_ticket cls payload env h self = Some (o, self', evs) ->
  (forall ticket_id, o = Ret ticket_id ->
     exists normalized_payload r,
       _updating_ticket cls payload env h self = Some (Ret normalized_payload, self', [])
       /\ evs = [ EvCall (JT_create Copy.base_payload) (Ret ticket_id);
                  EvLog "Payload copy job ticket : {}" [normalized_payload];
                  EvCall (JT_update ticket_id normalized_payload) (Ret r) ])
  /\ (forall ticket_id stored r,
        In (EvCall (JT_update ticket_id stored) r) evs ->
        In (EvCall (JT_create Copy.base_payload) (Ret ticket_id)) evs
        /\ _updating_ticket cls payload env h self = Some (Ret stored, self', [])
        /\ o = match r with Ret _ => Ret ticket_id | Raise e => Raise e end)
  /\ (forall c, In c (calls evs) ->
        c = JT_create Copy.base_payload \/ exists ticket_id stored, c = JT_update ticket_id stored).
Proof.
  intros H. unfold create_ticket, Copy.create_ticket in H.
  apply bind_inv in H as [(p1 & self1 & evs1 & o2 & self2 & evs2 & H1 & H2 & [= -> -> ->])
                         |(e & self1 & evs1 & H1 & [= -> -> ->])];
    destruct (updating_ticket_flags _ _ _ _ _ _ _ _ H1) as (-> & _).
  - exec H2; finish H2; simpl; (split; [|split]).
    all: try (intros ticket_id [= <-]; do 2 eexists; split; [exact H1|reflexivity]).
    all: try (intros ticket_id Hret; discriminate Hret).
    all: try (intros ticket_id stored r Hin; simpl in Hin; decompose [or] Hin;
              try discriminate; try tauto; inj_events; simpl; auto).
    all: intros c Hin; simpl in Hin; decompose [or] Hin; subst; try tauto; eauto.
  - simpl. split; [intros ? [=]|]. split; [intros ? ? ? []|intros ? []].
Qed.

Lemma create_ticket_store_calls_witness :
  exists self' evs normalized_payload r,
    create_ticket ClsCopyDune color_payload Mock.happy [] init_instance
      = Some (Ret (PStr "ticket_123"), self', evs)
    /\ _updating_ticket ClsCopyDune color_payload Mock.happy [] init_instance
       = Some (Ret normalized_payload, self', [])
    /\ evs = [ EvCall (JT_create Copy.base_payload) (Ret (PStr "ticket_123"));
               EvLog "Payload copy job ticket : {}" [normalized_payload];
               EvCall (JT_update (PStr "ticket_123") normalized_payload) (Ret r) ].
Proof.
  destruct (create_ticket_store_calls ClsCopyDune color_payload Mock.happy [] init_instance
              (Ret (PStr "ticket_123")) init_instance
              [ EvCall (JT_create Copy.base_payload) (Ret (PStr "ticket_123"));
                EvLog "Payload copy job ticket : {}" [color_payload];
                EvCall (JT_update (PStr "ticket_123") color_payload) (Ret PNone) ])
    as (Hret & _).
  - vm_compute. reflexivity.
  - destruct (Hret (PStr "ticket_123") eq_refl) as (p & r & Hnorm & Hevs).
    exists init_instance. eexists. exists p, r. split; [vm_compute; reflexivity|].
    split; [exact Hnorm|exact Hevs].
Defined.

(** ** Runs of [start] beyond the preview loop *)

(** X7: the base [start] ignores [preview_reps] and the instance: it makes
    the Initialize transition, polls, and then either raises before the
    Start transition or makes the Start transition and ends with whatever
    that transition returned or raised. *)
Theorem base_start_steps env h self fuel job_id ticket_id reps o self' evs :
  Copy.start fuel job_id ticket_id reps env h self = Some (o, self', evs) ->
  self' = self
  /\ ((steps evs = [Initialize job_id] /\ exists e, o = Raise e)
      \/ (steps evs = [Initialize job_id; Start job_id] /\ In (EvCall (Start job_id) o) evs)).
Proof.
  intros H. unfold Copy.start in H.
  apply bind_inv in H as [(u1 & self1 & evs1 & o2 & self2 & evs2 & H1 & H2 & [= -> -> ->])
                         |(e & self1 & evs1 & H1 & [= -> -> ->])];
    apply Copy_preview_start_events in H1 as (-> & Hprep & Hsteps & _).
  - exec H2; finish H2. split; [reflexivity|]. right. split.
    + project. rewrite Hsteps. reflexivity.
    + in_tail.
  - split; [reflexivity|]. left. split; [exact Hsteps|eauto].
Qed.

Lemma base_start_steps_witness :
  exists self' evs,
    Copy.start 5 "job_456" "ticket_123" 3 Mock.happy [] init_instance
      = Some (Ret (PInt 200), self', evs)
    /\ steps evs = [Initialize "job_456"; Start "job_456"].
Proof.
  do 2 eexists. split; [vm_compute; reflexivity|].
  destruct (base_start_steps Mock.happy [] init_instance 5 "job_456" "ticket_123" 3 _ _ _
              ltac:(vm_compute; reflexivity)) as (_ & [(_ & e & He)|(Hsteps & _)]).
  - discriminate He.
  - exact Hsteps.
Defined.

Ltac exec_designjet H :=
  unfold Copy._has_two_segment_pipeline, CopyDesignJet.two_segment_prepare in H; exec H.

(** X8: a DesignJet run that reaches the Start transition without having
    read a "jobBuild" ticket makes no other transition: Initialize, the
    ticket read (none for an empty ticket id), Start, and it ends with what
    Start returned or raised.  A ticket read that fails counts as such. *)
Theorem designjet_single_segment env h self fuel job_id ticket_id reps o self' evs :
  CopyDesignJet.start fuel job_id ticket_id reps env h self = Some (o, self', evs) ->
  single_segment ticket_id evs ->
  In (Start job_id) (calls evs) ->
  steps evs = Initialize job_id
              :: (if String.eqb ticket_id "" then [] else [JT_get_info ticket_id])
              ++ [Start job_id]
  /\ In (EvCall (Start job_id) o) evs.
Proof.
  intros H Hsingle Hstart. unfold CopyDesignJet.start in H.
  apply bind_inv in H as [(u1 & self1 & evs1 & o2 & self2 & evs2 & H1 & H2 & [= -> -> ->])
                         |(e & self1 & evs1 & H1 & [= -> -> ->])];
    apply CopyDune_preview_start_events in H1 as (-> & Hprep & Hfull).
  - destruct (Hfull u1 eq_refl) as [Hsteps _]. simpl in Hsteps.
    exec_designjet H2; finish H2;
      first
        [ solve [ exfalso;
                  match goal with
                  | Hq : item3 ?a _ _ _ = Ret ?v, Hb : eq_str ?v "jobBuild" = true |- _ =>
                      apply eq_str_true in Hb; subst v; apply (Hsingle a); [in_tail|exact Hq]
                  end ]
        | solve [ in_trace Hprep Hstart ]
        | split; [|in_tail];
          project; rewrite Hsteps;
          match goal with
          | Hb : negb (_ =? "")%string = true |- _ => apply negb_true_iff in Hb; rewrite Hb
          | Hb : negb (_ =? "")%string = false |- _ => apply negb_false_iff in Hb; rewrite Hb
          end; reflexivity ].
  - not_preparation Hprep Hstart.
Qed.

Lemma designjet_single_segment_witness :
  exists o self' evs,
    CopyDesignJet.start 5 "job_456" "ticket_123" 0 flaky [] init_instance
      = Some (o, self', evs)
    /\ steps evs = [Initialize "job_456"; JT_get_info "ticket_123"; Start "job_456"]
    /\ In (EvCall (Start "job_456") o) evs.
Proof.
  do 3 eexists. split; [vm_compute; reflexivity|].
  eapply (designjet_single_segment flaky [] init_instance 5 "job_456" "ticket_123" 0).
  - vm_compute. reflexivity.
  - intros data Hin. vm_compute in Hin. decompose [or] Hin; try discriminate; tauto.
  - vm_compute. tauto.
Defined.

(** X9: how the two-segment branch of the DesignJet [start] fails.  A
    Prepare_Processing transition that does not return 200 raises an
    [AssertionError] before the wait for "processing"; previews that did not
    all finish raise an [AssertionError] with its message before the copy
    configuration is read; a configuration without [copyMode] raises the
    [KeyError] of the lookup.  In each case the Start transition is never
    made. *)
Theorem designjet_two_segment_failures env h self fuel job_id ticket_id reps o self' evs :
  CopyDesignJet.start fuel job_id ticket_id reps env h self = Some (o, self', evs) ->
  (forall status,
     In (EvCall (PrepareProcessing job_id) (Ret status)) evs -> eq_int status 200 = false ->
     o = Raise (Exn AssertionError "")
     /\ ~ In (WaitProcessing job_id) (calls evs) /\ ~ In (Start job_id) (calls evs))
  /\ (forall result,
        In (EvCall (JM_wait_for_all_previews_done job_id) (Ret result)) evs ->
        truthy result = false ->
        o = Raise (Exn AssertionError "Preview jobs did not finish successfully")
        /\ ~ In (CDM_get COPY_CONFIGURATION_ENDPOINT) (calls evs)
        /\ ~ In (Start job_id) (calls evs))
  /\ (forall configuration e,
        In (EvCall (CDM_get COPY_CONFIGURATION_ENDPOINT) (Ret configuration)) evs ->
        getitem configuration "copyMode" = Raise e ->
        o = Raise e /\ ~ In WaitPrinting (calls evs) /\ ~ In (Start job_id) (calls evs)).
Proof.
  intros H. unfold CopyDesignJet.start in H.
  apply bind_inv in H as [(u1 & self1 & evs1 & o2 & self2 & evs2 & H1 & H2 & [= -> -> ->])
                         |(e & self1 & evs1 & H1 & [= -> -> ->])];
    apply CopyDune_preview_start_events in H1 as (-> & Hprep & _).
  - exec_designjet H2; finish H2; (split; [|split]).
    all: intros ? ? Hin Hcond || intros ? Hin Hcond.
    all: in_trace Hprep Hin; inj_events; try congruence.
    all: (split; [congruence|]); split; intros Hc; in_trace Hprep Hc.
  - split; [|split]; intros; match goal with Hin : In _ evs1 |- _ => not_preparation Hprep Hin end.
Qed.

Lemma designjet_two_segment_failures_witness :
  exists o self' evs,
    CopyDesignJet.start 5 "job_456" "ticket_123" 0
      (scripted all_200 (Ret Mock.jobBuild_ticket) (PBool false) (PDict ∅))
      [] init_instance = Some (o, self', evs)
    /\ o = Raise (Exn AssertionError "Preview jobs did not finish successfully")
    /\ ~ In (CDM_get COPY_CONFIGURATION_ENDPOINT) (calls evs)
    /\ ~ In (Start "job_456") (calls evs).
Proof.
  do 3 eexists. split; [vm_compute; reflexivity|].
  destruct (designjet_two_segment_failures
              (scripted all_200 (Ret Mock.jobBuild_ticket) (PBool false) (PDict ∅))
              [] init_instance 5 "job_456" "ticket_123" 0 _ _ _
              ltac:(vm_compute; reflexivity)) as (_ & Hpreviews & _).
  apply (Hpreviews (PBool false)).
  - vm_compute. tauto.
  - reflexivity.
Defined.

(** Without previews the preparation makes no call but Initialize and
    the polls, whether it returns or raises. *)
Lemma plain_preparation_steps fuel job_id ticket_id env h self o self' evs :
  CopyDune.preview_start fuel job_id ticket_id 0 env h self = Some (o, self', evs) ->
  steps evs = [Initialize job_id].
Proof.
  intros H. unfold CopyDune.preview_start in H.
  apply bind_inv in H as [(u1 & s1 & e1 & o2 & s2 & e2 & Hb & H2 & Heq)
                         |(e' & s1 & e1 & Hb & Heq)];
    injection Heq; intros; subst;
    apply Copy_preview_start_events in Hb as (-> & _ & Hs & _).
  - simpl in H2. exec H2. finish H2. rewrite List.app_nil_r. exact Hs.
  - exact Hs.
Qed.

Lemma In_steps c evs : In c (calls evs) -> is_poll c = false -> In c (steps evs).
Proof.
  intros Hin Hpoll. unfold steps. apply filter_In. split; [exact Hin|].
  rewrite Hpoll. reflexivity.
Qed.

(** X10: the DesignJet [start] has no part in the flatbed exchange, for any
    [preview_reps] and any device: it never asks whether the feeder is
    loaded, never waits for or answers the flatbedAddPage alert, never makes
    a Preview transition, and leaves the instance as it was. *)
Theorem designjet_no_alert_handling env h self fuel job_id ticket_id reps o self' evs :
  CopyDesignJet.start fuel job_id ticket_id reps env h self = Some (o, self', evs) ->
  self' = self
  /\ ~ In AdfLoaded (calls evs)
  /\ ~ In WaitAlert (calls evs)
  /\ ~ In AnswerAlert (calls evs)
  /\ ~ In (Preview job_id) (calls evs).
Proof.
  intros H. unfold CopyDesignJet.start in H.
  apply bind_inv in H as [(u1 & self1 & evs1 & o2 & self2 & evs2 & H1 & H2 & [= -> -> ->])
                         |(e & self1 & evs1 & H1 & [= -> -> ->])];
    pose proof (plain_preparation_steps _ _ _ _ _ _ _ _ _ H1) as Hsteps;
    apply CopyDune_preview_start_events in H1 as (-> & Hprep & _);
    assert (Hnoprev : ~ In (Preview job_id) (calls evs1))
      by (intros Hin; apply In_steps in Hin; [|reflexivity];
          rewrite Hsteps in Hin; destruct Hin as [Hc|[]]; discriminate Hc).
  - exec_designjet H2; finish H2; (split; [reflexivity|]);
      (split; [intros Hc; in_trace Hprep Hc|]);
      (split; [intros Hc; in_trace Hprep Hc|]);
      (split; [intros Hc; in_trace Hprep Hc|]);
      intros Hin; rewrite calls_app in Hin; apply in_app_or in Hin as [Hin|Hin];
      try contradiction; simpl in Hin; decompose [or] Hin; try discriminate; tauto.
  - split; [reflexivity|].
    split; [intros Hc; not_preparation Hprep Hc|].
    split; [intros Hc; not_preparation Hprep Hc|].
    split; [intros Hc; not_preparation Hprep Hc|]. exact Hnoprev.
Qed.

Lemma designjet_no_alert_handling_witness :
  exists o self' evs,
    CopyDesignJet.start 5 "job_456" "ticket_123" 3 flaky [] init_instance
      = Some (o, self', evs)
    /\ ~ In WaitAlert (calls evs) /\ ~ In (Preview "job_456") (calls evs).
Proof.
  do 3 eexists. split; [vm_compute; reflexivity|].
  destruct (designjet_no_alert_handling flaky [] init_instance 5 "job_456" "ticket_123" 3 _ _ _
              ltac:(vm_compute; reflexivity)) as (_ & _ & Hw & _ & Hp).
  split; [exact Hw|exact Hp].
Defined.

(** ** Failures propagate *)

Ltac in_known H :=
  simpl in H; try tauto; decompose [or] H; try discriminate; inj_events; try tauto.

Lemma wait_ready_raises fuel job_id t0 env : forall h self o self' evs,
  Copy.wait_ready fuel job_id t0 env h self = Some (o, self', evs) -> raises_outcome o evs.
Proof.
  induction fuel as [|fuel IH]; intros h self o self' evs H; [discriminate|].
  simpl in H. exec H; finish H; intros c e' Hin;
    try (match goal with Hrec : Copy.wait_ready _ _ _ _ _ _ = Some _ |- _ =>
           apply IH in Hrec end);
    in_known Hin; eauto.
Qed.

Lemma Copy_preview_start_raises fuel job_id ticket_id env h self o self' evs :
  Copy.preview_start fuel job_id ticket_id env h self = Some (o, self', evs) ->
  raises_outcome o evs.
Proof.
  intros H. unfold Copy.preview_start in H. exec H; finish H; intros c e' Hin;
    try (match goal with Hrec : Copy.wait_ready _ _ _ _ _ _ = Some _ |- _ =>
           apply wait_ready_raises in Hrec end);
    rewrite ?List.app_nil_r in Hin; in_known Hin;
    try match goal with Hr : raises_outcome _ _, Hi : In _ _ |- _ =>
      apply Hr in Hi; first [discriminate Hi | congruence] end.
Qed.

Lemma preview_loop_raises job_id env n : forall h self o self' evs,
  for_range_nat n (CopyDune.preview_iteration job_id) env h self = Some (o, self', evs) ->
  raises_outcome o evs.
Proof.
  induction n as [|n IH]; intros h self o self' evs H; simpl in H.
  - exec H. finish H. intros c e [].
  - unfold CopyDune.preview_iteration in H. exec H; finish H; intros c e' Hin;
      try (match goal with Hrec : for_range_nat _ _ _ _ _ = Some _ |- _ =>
             apply IH in Hrec end);
      in_known Hin; eauto.
Qed.

Lemma CopyDune_preview_start_raises fuel job_id ticket_id reps env h self o self' evs :
  CopyDune.preview_start fuel job_id ticket_id reps env h self = Some (o, self', evs) ->
  raises_outcome o evs.
Proof.
  intros H. unfold CopyDune.preview_start in H.
  apply bind_inv in H as [(u1 & s1 & e1 & o2 & s2 & e2 & Hb & H2 & Heq)
                         |(e' & s1 & e1 & Hb & Heq)];
    injection Heq; intros; subst; apply Copy_preview_start_raises in Hb.
  - intros c e Hin. apply in_app_or in Hin as [Hin|Hin].
    + apply Hb in Hin. discriminate Hin.
    + destruct (reps =? 0)%Z; simpl in H2.
      * exec H2. finish H2. destruct Hin.
      * unfold for_range in H2. apply preview_loop_raises in H2. eauto.
  - exact Hb.
Qed.

Ltac propagate Hr Hin :=
  rewrite ?List.app_nil_r in Hin |- *; apply in_app_or in Hin as [Hin|Hin];
  [ apply Hr in Hin; discriminate Hin
  | simpl in Hin; try tauto; decompose [or] Hin; try discriminate; inj_events; try tauto;
    first [ left; congruence | right; simpl; auto ] ].

(** X11: a collaborator call that raises ends [start] with that exception,
    for every class, with two exceptions that the code handles: a
    [TimeoutError] of the flatbedAddPage wait or answer (the classes with
    alert handling) and any failure of the ticket read (DesignJet).  The
    base [start] tolerates none. *)
Theorem start_failures_propagate cls env h self fuel job_id ticket_id reps o self' evs :
  start cls fuel job_id ticket_id reps env h self = Some (o, self', evs) ->
  forall c e, In (EvCall c (Raise e)) evs -> o = Raise e \/ tolerated cls ticket_id c e.
Proof.
  intros H c e Hin.
  destruct cls; unfold start in H.
  - unfold Copy.start in H.
    apply bind_inv in H as [(u1 & s1 & e1 & o2 & s2 & e2 & Hb & H2 & Heq)
                           |(e' & s1 & e1 & Hb & Heq)];
      injection Heq; intros; subst; apply Copy_preview_start_raises in Hb.
    + exec H2; finish H2; propagate Hb Hin.
    + left. apply Hb in Hin. congruence.
  - unfold CopyDune.start in H.
    apply bind_inv in H as [(u1 & s1 & e1 & o2 & s2 & e2 & Hb & H2 & Heq)
                           |(e' & s1 & e1 & Hb & Heq)];
      injection Heq; intros; subst; apply CopyDune_preview_start_raises in Hb.
    + exec H2; finish H2; propagate Hb Hin.
    + left. apply Hb in Hin. congruence.
  - unfold CopyEnterprise.start in H.
    apply bind_inv in H as [(u1 & s1 & e1 & o2 & s2 & e2 & Hb & H2 & Heq)
                           |(e' & s1 & e1 & Hb & Heq)];
      injection Heq; intros; subst; apply CopyDune_preview_start_raises in Hb.
    + exec H2; finish H2; propagate Hb Hin.
    + left. apply Hb in Hin. congruence.
  - unfold CopyDesignJet.start in H.
    apply bind_inv in H as [(u1 & s1 & e1 & o2 & s2 & e2 & Hb & H2 & Heq)
                           |(e' & s1 & e1 & Hb & Heq)];
      injection Heq; intros; subst; apply CopyDune_preview_start_raises in Hb.
    + exec_designjet H2; finish H2; propagate Hb Hin.
    + left. apply Hb in Hin. congruence.
  - unfold CopyDune.start in H.
    apply bind_inv in H as [(u1 & s1 & e1 & o2 & s2 & e2 & Hb & H2 & Heq)
                           |(e' & s1 & e1 & Hb & Heq)];
      injection Heq; intros; subst; apply CopyDune_preview_start_raises in Hb.
    + exec H2; finish H2; propagate Hb Hin.
    + left. apply Hb in Hin. congruence.
  - unfold CopyDune.start in H.
    apply bind_inv in H as [(u1 & s1 & e1 & o2 & s2 & e2 & Hb & H2 & Heq)
                           |(e' & s1 & e1 & Hb & Heq)];
      injection Heq; intros; subst; apply CopyDune_preview_start_raises in Hb.
    + exec H2; finish H2; propagate Hb Hin.
    + left. apply Hb in Hin. congruence.
Qed.

Lemma start_failures_propagate_witness :
  exists self' evs,
    start ClsCopyDune 5 "job_456" "ticket_123" 1 flaky [] init_instance
      = Some (Ret (PInt 200), self', evs)
    /\ In (EvCall WaitAlert (Raise (Exn TimeoutError "no alert"))) evs
    /\ tolerated ClsCopyDune "ticket_123" WaitAlert (Exn TimeoutError "no alert").
Proof.
  do 2 eexists. split; [vm_compute; reflexivity|].
  split; [vm_compute; tauto|].
  destruct (start_failures_propagate ClsCopyDune flaky [] init_instance 5
              "job_456" "ticket_123" 1 _ _ _ ltac:(vm_compute; reflexivity)
              WaitAlert (Exn TimeoutError "no alert") ltac:(vm_compute; tauto))
    as [Ho|Ht].
  - discriminate Ho.
  - exact Ht.
Defined.

(** ** The number of polls *)

Lemma polls_app evs1 evs2 : polls (evs1 ++ evs2) = polls evs1 ++ polls evs2.
Proof. unfold polls. rewrite calls_app. apply List.filter_app. Qed.

Section PollBound.

Variable env : Env.
Variable job_id : string.
Hypothesis Hclock : clock_advances env.

Lemma wait_ready_polls t0 : forall fuel k h self o self' evs,
  Copy.wait_ready fuel job_id t0 env h self = Some (o, self', evs) ->
  (t0 + inject_Z (WAIT_START_JOB_TIMEOUT env) - env_time env h
     <= 2 * inject_Z (Z.of_nat k))%Q ->
  (length (polls evs) <= k)%nat.
Proof.
  induction fuel as [|fuel IH]; intros k h self o self' evs H Hk; [discriminate|].
  simpl in H. exec H; try (finish H; simpl; lia).
  all: match goal with Hlt : Qlt_bool _ _ = true |- _ => apply Qlt_bool_true in Hlt end.
  all: destruct k as [|k];
    [exfalso; change (inject_Z (Z.of_nat 0)) with 0%Q in Hk; lra|].
  all: try (finish H; simpl; lia).
  finish H.
  match goal with Hrec : Copy.wait_ready _ _ _ _ _ _ = Some _ |- _ =>
    apply (IH k) in Hrec end.
  - simpl. unfold polls in *. simpl. lia.
  - rewrite !List.app_nil_r.
    match goal with
    | |- context [EvCall (JM_get_job_info job_id PNone) ?r] =>
        pose proof (Hclock h (EvTime (env_time env h))) as H1;
        pose proof (Hclock (h ++ [EvTime (env_time env h)])
                      (EvCall (JM_get_job_info job_id PNone) r)) as H2;
        pose proof (Hclock ((h ++ [EvTime (env_time env h)])
                              ++ [EvCall (JM_get_job_info job_id PNone) r]) (EvSleep 2)) as H3
    end.
    simpl in H1, H2, H3.
    rewrite Nat2Z.inj_succ, <- Z.add_1_r, inject_Z_plus in Hk.
    change (inject_Z 1) with 1%Q in Hk. lra.
Qed.

End PollBound.

Lemma max_polls_covers timeout :
  (inject_Z timeout <= 2 * inject_Z (Z.of_nat (max_polls timeout)))%Q.
Proof.
  unfold max_polls. change 2%Q with (inject_Z 2). rewrite <- inject_Z_mult, <- Zle_Qle.
  destruct (Z_le_gt_dec timeout 0) as [Hle|Hgt].
  - lia.
  - rewrite Z2Nat.id by (apply Z.div_pos; lia).
    pose proof (Z.mod_pos_bound (timeout + 1) 2 ltac:(lia)).
    pose proof (Z.div_mod (timeout + 1) 2 ltac:(lia)). lia.
Qed.

(** X12: on a clock that advances with the sleeps, [preview_start] reads
    the job state at most (timeout + 1) / 2 times, whatever the device
    answers and however the run ends; with a timeout of zero or less it
    never reads it. *)
Theorem preview_start_polls_bounded env h self fuel job_id ticket_id o self' evs :
  clock_advances env ->
  Copy.preview_start fuel job_id ticket_id env h self = Some (o, self', evs) ->
  (length (polls evs) <= max_polls (WAIT_START_JOB_TIMEOUT env))%nat
  /\ (WAIT_START_JOB_TIMEOUT env <= 0 -> polls evs = []).
Proof.
  intros Hclock H.
  assert (Hbound : (length (polls evs) <= max_polls (WAIT_START_JOB_TIMEOUT env))%nat).
  { unfold Copy.preview_start in H. exec H; finish H; try (simpl; lia);
      match goal with Hrec : Copy.wait_ready _ _ _ _ _ _ = Some _ |- _ =>
        apply (wait_ready_polls env job_id Hclock _ _ (max_polls (WAIT_START_JOB_TIMEOUT env)))
          in Hrec end;
      try (rewrite ?List.app_nil_r; unfold polls in *; simpl; assumption);
      match goal with
      | |- (env_time _ ?hb + _ - env_time _ (?hb ++ [?e]) <= _)%Q =>
          pose proof (Hclock hb e) as Hc
      end;
      simpl in Hc; pose proof (max_polls_covers (WAIT_START_JOB_TIMEOUT env)); lra. }
  split; [exact Hbound|].
  intros Hzero. unfold max_polls in Hbound.
  assert (Hdiv : ((WAIT_START_JOB_TIMEOUT env + 1) / 2 < 1)%Z).
  { apply Z.div_lt_upper_bound; lia. }
  destruct (polls evs); [reflexivity|simpl in Hbound; lia].
Qed.

Lemma preview_start_polls_bounded_witness :
  exists o self' evs,
    Copy.preview_start 10 "job_456" "ticket_123" stuck [] init_instance = Some (o, self', evs)
    /\ (length (polls evs) <= 3)%nat.
Proof.
  do 3 eexists. split; [vm_compute; reflexivity|].
  eapply (preview_start_polls_bounded stuck [] init_instance 10 "job_456" "ticket_123").
  - apply elapsed_clock_advances. reflexivity.
  - vm_compute. reflexivity.
Defined.

(** ** Settling pauses *)

Lemma settle_pauses_app evs1 evs2 :
  settle_pauses (evs1 ++ evs2) = (settle_pauses evs1 + settle_pauses evs2)%nat.
Proof. unfold settle_pauses. rewrite List.filter_app, List.length_app. reflexivity. Qed.

Lemma wait_ready_settle fuel job_id t0 env : forall h self o self' evs,
  Copy.wait_ready fuel job_id t0 env h self = Some (o, self', evs) -> settle_pauses evs = 0%nat.
Proof.
  induction fuel as [|fuel IH]; intros h self o self' evs H; [discriminate|].
  simpl in H. exec H; finish H; try reflexivity.
  match goal with Hrec : Copy.wait_ready _ _ _ _ _ _ = Some _ |- _ => apply IH in Hrec end.
  unfold settle_pauses in *. simpl. assumption.
Qed.

Lemma Copy_preview_start_settle fuel job_id ticket_id env h self o self' evs :
  Copy.preview_start fuel job_id ticket_id env h self = Some (o, self', evs) ->
  settle_pauses evs = 0%nat.
Proof.
  intros H. unfold Copy.preview_start in H. exec H; finish H; try reflexivity;
    match goal with Hrec : Copy.wait_ready _ _ _ _ _ _ = Some _ |- _ =>
      apply wait_ready_settle in Hrec end;
    rewrite ?List.app_nil_r; unfold settle_pauses in *; simpl; assumption.
Qed.

Lemma preview_loop_settle job_id env n : forall h self u self' evs,
  for_range_nat n (CopyDune.preview_iteration job_id) env h self = Some (Ret u, self', evs) ->
  settle_pauses evs = n.
Proof.
  induction n as [|n IH]; intros h self u self' evs H; simpl in H.
  - exec H. injection H as _ _ <-. reflexivity.
  - unfold CopyDune.preview_iteration in H. exec H.
    match goal with Hrec : for_range_nat _ _ _ _ _ = Some (?o, _, _) |- _ =>
      destruct o; [apply IH in Hrec|discriminate H] end.
    injection H as _ _ <-. unfold settle_pauses in *. simpl. congruence.
Qed.

Lemma CopyDune_preview_start_settle fuel job_id ticket_id reps env h self u self' evs :
  CopyDune.preview_start fuel job_id ticket_id reps env h self = Some (Ret u, self', evs) ->
  settle_pauses evs = Z.to_nat reps.
Proof.
  intros H. unfold CopyDune.preview_start in H.
  apply bind_inv in H as [(u1 & s1 & e1 & o2 & s2 & e2 & Hb & H2 & Heq)
                         |(e' & s1 & e1 & Hb & Heq)]; [|discriminate Heq].
  injection Heq; intros; subst. apply Copy_preview_start_settle in Hb.
  rewrite settle_pauses_app, Hb. simpl.
  destruct (reps =? 0)%Z eqn:Hreps; simpl in H2.
  - exec H2. injection H2 as _ _ <-. apply Z.eqb_eq in Hreps. subst reps. reflexivity.
  - unfold for_range in H2. apply preview_loop_settle in H2. exact H2.
Qed.

Ltac settle Hsettle :=
  rewrite ?List.app_nil_r, settle_pauses_app, Hsettle; unfold settle_pauses; simpl;
  repeat match goal with
         | Hz : (_ =? 0)%Z = _ |- _ => rewrite ?Hz; clear Hz
         end;
  simpl; lia.

(** X13: the pauses of two and a half seconds in a run that reaches the
    Start transition.  The base and the DesignJet [start] make none; the
    generic [start] makes none without previews and otherwise one per
    preview and one before Start; the enterprise [start] always pauses
    before Start, also without previews. *)
Theorem start_settle_pauses cls env h self fuel job_id ticket_id reps o self' evs :
  start cls fuel job_id ticket_id reps env h self = Some (o, self', evs) ->
  In (Start job_id) (calls evs) ->
  settle_pauses evs = settle_count cls reps.
Proof.
  intros H Hstart.
  destruct cls; unfold start in H; unfold settle_count.
  - unfold Copy.start in H.
    apply bind_inv in H as [(u1 & s1 & e1 & o2 & s2 & e2 & Hb & H2 & Heq)
                           |(e' & s1 & e1 & Hb & Heq)];
      injection Heq; intros; subst;
      pose proof (Copy_preview_start_settle _ _ _ _ _ _ _ _ _ Hb) as Hsettle;
      apply Copy_preview_start_events in Hb as (_ & Hprep & _).
    + exec H2; finish H2; settle Hsettle.
    + not_preparation Hprep Hstart.
  - unfold CopyDune.start in H.
    apply bind_inv in H as [(u1 & s1 & e1 & o2 & s2 & e2 & Hb & H2 & Heq)
                           |(e' & s1 & e1 & Hb & Heq)];
      injection Heq; intros; subst;
      try pose proof (CopyDune_preview_start_settle _ _ _ _ _ _ _ _ _ _ Hb) as Hsettle;
      apply CopyDune_preview_start_events in Hb as (_ & Hprep & _).
    + exec H2; finish H2;
        repeat match goal with
               | Hz : (_ =? 0)%Z = true |- _ => apply Z.eqb_eq in Hz; subst
               end;
        settle Hsettle.
    + not_preparation Hprep Hstart.
  - unfold CopyEnterprise.start in H.
    apply bind_inv in H as [(u1 & s1 & e1 & o2 & s2 & e2 & Hb & H2 & Heq)
                           |(e' & s1 & e1 & Hb & Heq)];
      injection Heq; intros; subst;
      try pose proof (CopyDune_preview_start_settle _ _ _ _ _ _ _ _ _ _ Hb) as Hsettle;
      apply CopyDune_preview_start_events in Hb as (_ & Hprep & _).
    + exec H2; finish H2; settle Hsettle.
    + not_preparation Hprep Hstart.
  - unfold CopyDesignJet.start in H.
    apply bind_inv in H as [(u1 & s1 & e1 & o2 & s2 & e2 & Hb & H2 & Heq)
                           |(e' & s1 & e1 & Hb & Heq)];
      injection Heq; intros; subst;
      try pose proof (CopyDune_preview_start_settle _ _ _ _ _ _ _ _ _ _ Hb) as Hsettle;
      apply CopyDune_preview_start_events in Hb as (_ & Hprep & _).
    + exec_designjet H2; finish H2; settle Hsettle.
    + not_preparation Hprep Hstart.
  - unfold CopyDune.start in H.
    apply bind_inv in H as [(u1 & s1 & e1 & o2 & s2 & e2 & Hb & H2 & Heq)
                           |(e' & s1 & e1 & Hb & Heq)];
      injection Heq; intros; subst;
      try pose proof (CopyDune_preview_start_settle _ _ _ _ _ _ _ _ _ _ Hb) as Hsettle;
      apply CopyDune_preview_start_events in Hb as (_ & Hprep & _).
    + exec H2; finish H2;
        repeat match goal with
               | Hz : (_ =? 0)%Z = true |- _ => apply Z.eqb_eq in Hz; subst
               end;
        settle Hsettle.
    + not_preparation Hprep Hstart.
  - unfold CopyDune.start in H.
    apply bind_inv in H as [(u1 & s1 & e1 & o2 & s2 & e2 & Hb & H2 & Heq)
                           |(e' & s1 & e1 & Hb & Heq)];
      injection Heq; intros; subst;
      try pose proof (CopyDune_preview_start_settle _ _ _ _ _ _ _ _ _ _ Hb) as Hsettle;
      apply CopyDune_preview_start_events in Hb as (_ & Hprep & _).
    + exec H2; finish H2;
        repeat match goal with
               | Hz : (_ =? 0)%Z = true |- _ => apply Z.eqb_eq in Hz; subst
               end;
        settle Hsettle.
    + not_preparation Hprep Hstart.
Qed.

Lemma start_settle_pauses_witness :
  exists o self' evs,
    start ClsCopyEnterprise 5 "job_456" "ticket_123" 2 Mock.happy [] init_instance
      = Some (o, self', evs)
    /\ settle_pauses evs = 3%nat.
Proof.
  do 3 eexists. split; [vm_compute; reflexivity|].
  eapply (start_settle_pauses ClsCopyEnterprise Mock.happy [] init_instance 5
            "job_456" "ticket_123" 2).
  - vm_compute. reflexivity.
  - vm_compute. tauto.
Defined.

(** ** Construction guards *)

(** X14: [CopyDune(...)] written in a module whose name does not start with
    "dunetuf.copy.copy" raises the [RuntimeError] of the guard before
    anything else happens: no collaborator is called and no class attribute
    is read or set, whatever family and product are stored.  The same holds
    for [CopyHomePro(...)] outside "dunetuf.copy.dune.copy_dune".  The guard
    does not cover the subclasses that define no [__new__]:
    [CopyEnterprise(...)] and [CopyDesignJet(...)] from any module are
    allocated without a check of the caller or of the family, and their
    outcome is that of [Copy.__init__]. *)
Theorem construction_guard caller cdm udw pf h attrs :
  (foreign_caller caller "dunetuf.copy.copy" = true ->
   Construction.construct ClsCopyDune caller cdm udw pf h attrs
   = (Raise (Exn RuntimeError CopyDune_guard_message), attrs, []))
  /\ (foreign_caller caller "dunetuf.copy.dune.copy_dune" = true ->
      Construction.construct ClsCopyHomePro caller cdm udw pf h attrs
      = (Raise (Exn RuntimeError CopyHomePro_guard_message), attrs, []))
  /\ Construction.construct ClsCopyEnterprise caller cdm udw pf h attrs
     = initialized ClsCopyEnterprise cdm udw pf h attrs
  /\ Construction.construct ClsCopyDesignJet caller cdm udw pf h attrs
     = initialized ClsCopyDesignJet cdm udw pf h attrs.
Proof.
  split; [|split; [|split]].
  - intros Hc. unfold Construction.construct, Construction.type__call__,
      Construction.CopyDune__new__, mbind, Construction.N_bind.
    rewrite Hc. reflexivity.
  - intros Hc. unfold Construction.construct, Construction.type__call__,
      Construction.CopyHomePro__new__, mbind, Construction.N_bind.
    rewrite Hc. reflexivity.
  - unfold initialized, Construction.construct, Construction.type__call__,
      Construction.CopyDune__new__, Construction.CopyDune__new__inherited,
      Construction.Copy__new__, Construction.super__new__, Construction.object__new__.
    unfold mbind at 1, Construction.N_bind at 1. simpl.
    unfold mbind at 1, Construction.N_bind at 1.
    destruct (Construction.Copy__init__ cdm udw pf (h ++ []) attrs) as [[[u|e] a] evs] eqn:Hi;
      rewrite List.app_nil_r in Hi; rewrite Hi; simpl; rewrite ?List.app_nil_r; reflexivity.
  - unfold initialized, Construction.construct, Construction.type__call__,
      Construction.CopyDune__new__, Construction.CopyDune__new__inherited,
      Construction.Copy__new__, Construction.super__new__, Construction.object__new__.
    unfold mbind at 1, Construction.N_bind at 1. simpl.
    unfold mbind at 1, Construction.N_bind at 1.
    destruct (Construction.Copy__init__ cdm udw pf (h ++ []) attrs) as [[[u|e] a] evs] eqn:Hi;
      rewrite List.app_nil_r in Hi; rewrite Hi; simpl; rewrite ?List.app_nil_r; reflexivity.
Qed.

Lemma construction_guard_witness :
  Construction.construct ClsCopyDune (Some "tests.copy.test_copy") PNone PNone
    (reports (PStr "enterprise") (PStr "jupiter") copy_beam_missing) []
    (fetched (PStr "enterprise") (PStr "jupiter"))
  = (Raise (Exn RuntimeError CopyDune_guard_message),
     fetched (PStr "enterprise") (PStr "jupiter"), []).
Proof.
  apply (construction_guard (Some "tests.copy.test_copy") PNone PNone
           (reports (PStr "enterprise") (PStr "jupiter") copy_beam_missing) []
           (fetched (PStr "enterprise") (PStr "jupiter"))).
  reflexivity.
Defined.

Ltac answered Hall :=
  match goal with
  | Hr : ?pf ?h ?c = Raise _ |- _ =>
      let v := fresh "v" in let Hv := fresh "Hv" in
      destruct (Hall h c) as [v Hv]; rewrite Hv in Hr; discriminate Hr
  end.

(** X23: the family table.  [CopyDune(...)] called from a module whose name
    starts with "dunetuf.copy.copy", with a family stored on the class,
    leaves the class attributes alone, and when it returns its object is:
    a [CopyEnterprise] for the family "enterprise"; a [CopyDesignJet] for
    "designjet"; for "homepro" a [CopyBeam] when the stored product contains
    "beam" and a [CopyHomePro] otherwise; a plain [CopyDune] for any other
    family.  These constructors have then run [Copy.__init__] once on a plain
    [CopyDune] and twice on every other object (what [CopyBeam(...)] runs
    is the platform's).  The call does return when every collaborator
    answers and, for "homepro", the stored product is a string. *)
Theorem family_table caller cdm udw pf h attrs family o attrs' evs :
  foreign_caller caller "dunetuf.copy.copy" = false ->
  Construction._family_name attrs = Some family ->
  Construction.construct ClsCopyDune caller cdm udw pf h attrs = (o, attrs', evs) ->
  attrs' = attrs
  /\ (forall obj, o = Ret obj ->
        (eq_str family "enterprise" = true -> obj = ClsCopyEnterprise)
        /\ (eq_str family "designjet" = true -> obj = ClsCopyDesignJet)
        /\ (eq_str family "homepro" = true ->
            exists product b,
              Construction._product_name attrs = Some product
              /\ contains "beam" product = Ret b
              /\ obj = (if b : bool then ClsCopyBeam else ClsCopyHomePro))
        /\ (eq_str family "enterprise" = false -> eq_str family "designjet" = false ->
            eq_str family "homepro" = false -> obj = ClsCopyDune)
        /\ init_runs evs = (match obj with ClsCopyDune => 1 | _ => 2 end)%nat)
  /\ (all_answer pf ->
      (eq_str family "homepro" = true ->
       exists s, Construction._product_name attrs = Some (PStr s)) ->
      exists obj, o = Ret obj).
Proof.
  intros Hcaller Hfam H.
  unfold Construction.construct, Construction.type__call__, Construction.CopyDune__new__ in H.
  rewrite Hcaller in H.
  nexec H;
    try congruence;
    match goal with
    | Hx : Construction._family_name attrs = Some ?p |- _ =>
        assert (p = family) by congruence; subst p
    end;
    try match goal with
        | Hx : eq_str family _ = true |- _ => apply eq_str_true in Hx; subst family
        end;
    injection H as <- <- <-; (split; [reflexivity|]);
    (split;
     [ intros obj Hobj; try discriminate Hobj; injection Hobj as <-;
       repeat split; try congruence; try reflexivity; try (simpl; discriminate);
       try (intros _; do 2 eexists; repeat split; try eassumption; reflexivity)
     | intros Hall Hprod; try (eexists; reflexivity); try answered Hall;
       try (destruct (Hprod eq_refl) as [s Hs]; try discriminate Hs;
            injection Hs as ->; simpl in *; congruence) ]).
Qed.

Lemma family_table_witness :
  exists evs,
    Construction.construct ClsCopyDune (Some "dunetuf.copy.copy") PNone PNone
      (reports (PStr "homepro") (PStr "beam_mfp") (Ret PNone)) []
      (fetched (PStr "homepro") (PStr "beam_mfp"))
    = (Ret ClsCopyBeam, fetched (PStr "homepro") (PStr "beam_mfp"), evs)
    /\ init_runs evs = 2%nat.
Proof.
  eexists. split; [vm_compute; reflexivity|].
  match goal with
  | |- init_runs ?evs = _ =>
      destruct (family_table (Some "dunetuf.copy.copy") PNone PNone
                  (reports (PStr "homepro") (PStr "beam_mfp") (Ret PNone)) []
                  (fetched (PStr "homepro") (PStr "beam_mfp")) (PStr "homepro")
                  (Ret ClsCopyBeam) (fetched (PStr "homepro") (PStr "beam_mfp")) evs)
        as (_ & Hobj & _);
      [reflexivity|reflexivity|vm_compute; reflexivity|]
  end.
  destruct (Hobj ClsCopyBeam eq_refl) as (_ & _ & _ & _ & Hruns). exact Hruns.
Defined.

(** ** Copy-mode getters *)

Ltac exec_getters H :=
  unfold CopyDeprecated.is_copymode_supported, CopyDeprecated.is_copymode_indirect,
    CopyDeprecated.is_copymode_direct in H;
  exec H.

(** X15: [is_copymode_supported] guards the two mode getters.  When it
    returned [True], [is_copymode_direct] and [is_copymode_indirect] return
    on the same configuration reply instead of raising, they are never
    both [True], and [is_copymode_direct] is the test that the DesignJet
    [start] makes before it waits for the printing sub-status. *)
Theorem copymode_supported_guards env h self self1 evs env' h' self' :
  CopyDeprecated.is_copymode_supported env h self = Some (Ret true, self1, evs) ->
  env_call env' h' ReadConfiguration = env_call env h ReadConfiguration ->
  exists configuration direct indirect,
    evs = [EvCall ReadConfiguration (Ret configuration)]
    /\ CopyDeprecated.is_copymode_direct env' h' self'
       = Some (Ret direct, self', [EvCall ReadConfiguration (Ret configuration)])
    /\ CopyDeprecated.is_copymode_indirect env' h' self'
       = Some (Ret indirect, self', [EvCall ReadConfiguration (Ret configuration)])
    /\ direct && indirect = false
    /\ direct = print_while_scanning configuration.
Proof.
  intros H Henv. exec_getters H. injection H as Hmode <- <-.
  unfold ReadConfiguration in *.
  match goal with
  | Hc : env_call _ _ _ = Ret ?a, Hg : getitem ?a "copyMode" = Ret ?m |- _ =>
      exists a, (eq_str m "printWhileScanning"), (eq_str m "printAfterScanning");
      unfold CopyDeprecated.is_copymode_direct, CopyDeprecated.is_copymode_indirect,
        print_while_scanning;
      unfold mbind, M_bind, mret, M_ret, call_, lift; simpl;
      rewrite Henv, Hc; simpl; rewrite Hg; simpl;
      repeat (split; [reflexivity|]); split; [|reflexivity];
      destruct m; simpl; try reflexivity
  end.
  match goal with |- (?s =? _)%string && _ = _ =>
    destruct (String.eqb_spec s "printWhileScanning") as [->|]; reflexivity end.
Qed.

Lemma copymode_supported_guards_witness :
  exists configuration direct indirect,
    CopyDeprecated.is_copymode_direct Mock.happy [] init_instance
      = Some (Ret direct, init_instance, [EvCall ReadConfiguration (Ret configuration)])
    /\ CopyDeprecated.is_copymode_indirect Mock.happy [] init_instance
       = Some (Ret indirect, init_instance, [EvCall ReadConfiguration (Ret configuration)])
    /\ direct && indirect = false.
Proof.
  destruct (copymode_supported_guards Mock.happy [] init_instance init_instance
              [EvCall ReadConfiguration
                 (Ret (PDict {[ "copyMode" := PStr "printAfterScanning" ]}))]
              Mock.happy [] init_instance)
    as (configuration & direct & indirect & _ & Hd & Hi & Hex & _).
  - vm_compute. reflexivity.
  - reflexivity.
  - exists configuration, direct, indirect. auto.
Defined.

(** X16: on a configuration without [copyMode] the probe and the getters
    part ways: [is_copymode_supported] returns [False], while
    [is_copymode_direct] and [is_copymode_indirect] raise the [KeyError] of
    the lookup. *)
Theorem copymode_missing env h self (d : gmap string pyval) :
  env_call env h ReadConfiguration = Ret (PDict d) ->
  d !! "copyMode" = None ->
  CopyDeprecated.is_copymode_supported env h self
    = Some (Ret false, self, [EvCall ReadConfiguration (Ret (PDict d))])
  /\ CopyDeprecated.is_copymode_direct env h self
    = Some (Raise (Exn KeyError "copyMode"), self, [EvCall ReadConfiguration (Ret (PDict d))])
  /\ CopyDeprecated.is_copymode_indirect env h self
    = Some (Raise (Exn KeyError "copyMode"), self, [EvCall ReadConfiguration (Ret (PDict d))]).
Proof.
  intros Hc Hd. unfold ReadConfiguration in *.
  unfold CopyDeprecated.is_copymode_supported, CopyDeprecated.is_copymode_direct,
    CopyDeprecated.is_copymode_indirect.
  unfold mbind, M_bind, mret, M_ret, call_, lift. simpl.
  rewrite Hc. simpl. rewrite Hd. simpl. repeat split; reflexivity.
Qed.

Lemma copymode_missing_witness :
  CopyDeprecated.is_copymode_supported
    (scripted all_200 (Ret Mock.plain_ticket) (PBool true) (PDict ∅)) [] init_instance
    = Some (Ret false, init_instance, [EvCall ReadConfiguration (Ret (PDict ∅))])
  /\ CopyDeprecated.is_copymode_direct
       (scripted all_200 (Ret Mock.plain_ticket) (PBool true) (PDict ∅)) [] init_instance
    = Some (Raise (Exn KeyError "copyMode"), init_instance,
            [EvCall ReadConfiguration (Ret (PDict ∅))]).
Proof.
  destruct (copymode_missing
              (scripted all_200 (Ret Mock.plain_ticket) (PBool true) (PDict ∅))
              [] init_instance ∅) as (Hs & Hd & _).
  - reflexivity.
  - reflexivity.
  - split; [exact Hs|exact Hd].
Defined.

(** ** Payloads built from settings *)

Example build_payload_defaults :
  CopyDeprecated.build_payload copies_settings
  = Some (Ret (PDict {[ "src" := PDict {[ "scan" := PDict ∅ ]};
                        "dest" := PDict {[ "print" :=
                           PDict {[ "copies" := PInt 2; "rotate" := PInt 90 ]} ]} ]})).
Proof. vm_compute. reflexivity. Qed.

Ltac run_unfold_K :=
  unfold mbind, CopyDeprecated.K_bind, mret, CopyDeprecated.K_ret, CopyDeprecated.klift; simpl.

(** X17: [build_payload] writes the color mode and the resolution under
    [settings["src"]], not under the section name it chose: settings that
    give a color mode or a resolution but no [src] raise [KeyError] "src"
    instead of filling the default "scan" section. *)
Theorem build_payload_needs_src (d : gmap string pyval) :
  d !! "src" = None ->
  is_Some (d !! "color_mode") \/ is_Some (d !! "resolution") ->
  CopyDeprecated.build_payload (PDict d) = Some (Raise (Exn KeyError "src")).
Proof.
  intros Hsrc Hgiven.
  unfold CopyDeprecated.build_payload, CopyDeprecated.copy_setting. run_unfold_K.
  rewrite Hsrc. simpl.
  destruct (d !! "color_mode") as [cm|]; simpl; [reflexivity|].
  destruct Hgiven as [[x Hx]|[x Hx]]; [discriminate Hx|]. rewrite Hx. reflexivity.
Qed.

Lemma build_payload_needs_src_witness :
  CopyDeprecated.build_payload color_settings = Some (Raise (Exn KeyError "src")).
Proof.
  apply (build_payload_needs_src {[ "color_mode" := PStr "color" ]}).
  - reflexivity.
  - left. exists (PStr "color"). reflexivity.
Defined.

(** A setting is copied into the one section of its dict. *)
Lemma copy_setting_singleton settings name section field key fields self' :
  CopyDeprecated.copy_setting settings name section field {[ key := PDict fields ]}
    = Some (Ret self') ->
  exists fields',
    self' = {[ key := PDict fields' ]} /\ forall k, k <> field -> fields' !! k = fields !! k.
Proof.
  unfold CopyDeprecated.copy_setting. run_unfold_K.
  destruct (contains name settings) as [[|]|]; simpl; try discriminate.
  - destruct (getitem settings name) as [value|]; simpl; [|discriminate].
    destruct section as [[s|]|]; simpl; try discriminate.
    destruct (decide (key = s)) as [<-|Hne].
    + rewrite lookup_singleton_eq. simpl. intros [= <-].
      exists (<[field := value]> fields). split.
      * apply insert_singleton_eq.
      * intros k Hk. apply lookup_insert_ne. congruence.
    + rewrite lookup_singleton_ne by exact Hne. discriminate.
  - intros [= <-]. exists fields. split; [reflexivity|auto].
Qed.

Ltac kstep H :=
  lazymatch type of H with
  | Some _ = Some _ => fail
  | None = Some _ => fail
  | context [match ?x with _ => _ end] =>
      let y := find_scrut x in
      destruct y eqn:?;
      cbn -[CopyDeprecated.copy_setting CopyDeprecated.output_canvas] in H
  end.

(** What [build_payload] returns: one section under [src] and one under
    [dest], named as the settings ask, that hold no media source or plex
    mode of the scan and no plex mode of the print. *)
Lemma build_payload_shape (d : gmap string pyval) payload source destination :
  CopyDeprecated.build_payload (PDict d) = Some (Ret payload) ->
  section_name d "src" "scan" = PStr source ->
  section_name d "dest" "print" = PStr destination ->
  exists (p sf df : gmap string pyval),
    payload = PDict p
    /\ p !! "src" = Some (PDict {[ source := PDict sf ]})
    /\ p !! "dest" = Some (PDict {[ destination := PDict df ]})
    /\ sf !! "mediaSource" = None /\ sf !! "plexMode" = None
    /\ df !! "plexMode" = None.
Proof.
  intros H Hs Hd. unfold section_name in Hs, Hd.
  unfold CopyDeprecated.build_payload in H.
  unfold mbind, CopyDeprecated.K_bind, mret, CopyDeprecated.K_ret, CopyDeprecated.klift in H.
  cbn -[CopyDeprecated.copy_setting CopyDeprecated.output_canvas] in H.
  repeat kstep H; try discriminate H.
  all: injection H as <-.
  all: repeat match goal with
              | Hk : CopyDeprecated.as_key ?v = Some (Ret _) |- _ =>
                  destruct v; try discriminate Hk; injection Hk as <-
              end.
  all: repeat match goal with
              | Hcs : CopyDeprecated.copy_setting _ _ _ _ {[ _ := PDict _ ]} = Some (Ret _)
                |- _ =>
                  let Hf := fresh "Hf" in
                  apply copy_setting_singleton in Hcs as (? & -> & Hf)
              end.
  all: repeat match goal with
              | Hg : match ?x with Some _ => _ | None => _ end = Ret _ |- _ =>
                  destruct x eqn:?; try discriminate Hg; injection Hg as ->
              | Hg : Ret _ = Ret _ |- _ => injection Hg as <-
              end.
  all: try (injection Hs as <-); try (injection Hd as <-).
  all: match goal with
       | |- exists p sf df, PDict ?P = PDict p /\ _ =>
           match P with
           | context [<["src" := PDict {[ _ := PDict ?sf ]}]> _] =>
               match P with
               | context [<["dest" := PDict {[ _ := PDict ?df ]}]> _] => exists P, sf, df
               end
           end
       end.
  all: split; [reflexivity|]; lookups.
  all: split; [reflexivity|]; split; [reflexivity|].
  all: repeat match goal with
              | Hf : forall k, k <> _ -> _ !! k = _ !! k |- _ =>
                  try pose proof (Hf "mediaSource" ltac:(discriminate));
                  try pose proof (Hf "plexMode" ltac:(discriminate)); clear Hf
              end.
  all: rewrite ?lookup_empty in *; repeat split; congruence.
Qed.

Lemma reads_missing (p f : gmap string pyval) a b c v :
  p !! a = Some (PDict {[ b := PDict f ]}) ->
  f !! c = None ->
  reads (PDict p) a b c v = false.
Proof.
  intros Ha Hc. unfold reads, item3, item2. simpl. rewrite Ha. simpl.
  rewrite lookup_singleton_eq. simpl. rewrite Hc. reflexivity.
Qed.

(** X18: what ticket normalization makes of a payload that [build_payload]
    returned.  With the default section names the payload is valid:
    [_updating_ticket] of every class accepts it, sets no flag and, the
    enterprise override apart, returns it unchanged.  With another [src]
    section name [create_ticket] raises [KeyError] "scan", and with another
    [dest] section name [KeyError] "print", before any call to the store. *)
Theorem built_payload_normalization (d : gmap string pyval) payload source destination :
  CopyDeprecated.build_payload (PDict d) = Some (Ret payload) ->
  section_name d "src" "scan" = PStr source ->
  section_name d "dest" "print" = PStr destination ->
  (source = "scan" -> destination = "print" ->
   valid_payload payload
   /\ forall cls env h self,
        _updating_ticket cls payload env h self
          = Some (Ret (normal_form cls payload), self, [])
        /\ (cls <> ClsCopyEnterprise -> normal_form cls payload = payload))
  /\ (source <> "scan" -> forall cls env h self,
        create_ticket cls payload env h self
          = Some (Raise (Exn KeyError "scan"), self, []))
  /\ (source = "scan" -> destination <> "print" -> forall cls env h self,
        create_ticket cls payload env h self
          = Some (Raise (Exn KeyError "print"), self, [])).
Proof.
  intros Hbuild Hs Hd.
  destruct (build_payload_shape d payload source destination Hbuild Hs Hd)
    as (p & sf & df & -> & Hsrc & Hdest & Hms & Hpm & Hdpm).
  assert (Hrec : source = "scan" -> forall self, recorded (PDict p) self = self).
  { intros -> [adf od du]. unfold recorded.
    rewrite (reads_missing p sf "src" "scan" "mediaSource" _ Hsrc Hms).
    rewrite (reads_missing p sf "src" "scan" "plexMode" _ Hsrc Hpm).
    destruct (decide (destination = "print")) as [->|Hne].
    - rewrite (reads_missing p df "dest" "print" "plexMode" _ Hdest Hdpm). reflexivity.
    - unfold reads at 1. unfold item3, item2. simpl. rewrite Hdest. simpl.
      rewrite lookup_singleton_ne by exact Hne. reflexivity. }
  split; [|split].
  - intros -> ->.
    assert (Hvalid : valid_payload (PDict p)).
    { exists p. split; [reflexivity|]. split.
      - intros x Hx. rewrite Hsrc in Hx. injection Hx as <-.
        do 2 eexists. split; [reflexivity|]. apply lookup_singleton_eq.
      - intros x Hx. rewrite Hdest in Hx. injection Hx as <-.
        do 2 eexists. split; [reflexivity|]. apply lookup_singleton_eq. }
    split; [exact Hvalid|]. intros cls env h self. split.
    + rewrite (class_normal_form cls env h _ self Hvalid), (Hrec eq_refl). reflexivity.
    + intros Hcls.
      assert (Hn : normalized (PDict p) = PDict p).
      { unfold normalized, binding_forced.
        rewrite (reads_missing p df "dest" "print" "plexMode" _ Hdest Hdpm). reflexivity. }
      destruct cls; simpl; try exact Hn. congruence.
  - intros Hne cls env h self.
    apply base_failure_propagates, (base_missing_scan p {[ source := PDict sf ]}).
    + exact Hsrc.
    + apply lookup_singleton_ne. exact Hne.
  - intros -> Hne cls env h self.
    rewrite <- (Hrec eq_refl self) at 2.
    apply base_failure_propagates, (base_missing_print p {[ destination := PDict df ]}).
    + intros x Hx. rewrite Hsrc in Hx. injection Hx as <-.
      do 2 eexists. split; [reflexivity|]. apply lookup_singleton_eq.
    + exact Hdest.
    + apply lookup_singleton_ne. exact Hne.
Qed.

Lemma built_payload_normalization_witness :
  exists payload,
    CopyDeprecated.build_payload (PDict usb_settings) = Some (Ret payload)
    /\ create_ticket ClsCopyDune payload Mock.happy [] init_instance
       = Some (Raise (Exn KeyError "scan"), init_instance, []).
Proof.
  eexists. split; [vm_compute; reflexivity|].
  eapply (built_payload_normalization usb_settings _ "usb" "print").
  - vm_compute. reflexivity.
  - reflexivity.
  - reflexivity.
  - discriminate.
Defined.

(** ** The Start transition *)

Lemma preparation_no_Start job_id evs :
  Forall (preparation_event job_id) evs -> Start_calls evs = [].
Proof.
  unfold Start_calls.
  induction 1 as [|e evs He _ IH]; [reflexivity|].
  rewrite calls_cons, List.filter_app, IH, List.app_nil_r.
  destruct e; try reflexivity. simpl in He |- *.
  destruct He as [-> | [-> | [-> | ->]]]; reflexivity.
Qed.

Lemma Start_calls_app evs1 evs2 : Start_calls (evs1 ++ evs2) = Start_calls evs1 ++ Start_calls evs2.
Proof. unfold Start_calls. rewrite calls_app. apply List.filter_app. Qed.

Ltac one_Start Hprep :=
  rewrite ?List.app_nil_r, Start_calls_app, (preparation_no_Start _ _ Hprep);
  unfold Start_calls; simpl;
  split; [lia|]; split; intros ? Hret;
  first [ discriminate Hret
        | injection Hret as <-; first [reflexivity | in_tail]
        | rewrite ?Hret; first [reflexivity | in_tail] ].

(** X19: [start] of every class makes the Start transition at most once,
    and exactly once when it returns; the value it returns is the status
    that this transition returned, whatever that status is. *)
Theorem start_returns_Start_status cls env h self fuel job_id ticket_id reps o self' evs :
  start cls fuel job_id ticket_id reps env h self = Some (o, self', evs) ->
  (length (Start_calls evs) <= 1)%nat
  /\ (forall code, o = Ret code -> In (EvCall (Start job_id) (Ret code)) evs)
  /\ (forall code, o = Ret code -> length (Start_calls evs) = 1%nat).
Proof.
  intros H.
  destruct cls; unfold start in H.
  - unfold Copy.start in H.
    apply bind_inv in H as [(u1 & s1 & e1 & o2 & s2 & e2 & Hb & H2 & Heq)
                           |(e' & s1 & e1 & Hb & Heq)];
      injection Heq; intros; subst;
      apply Copy_preview_start_events in Hb as (_ & Hprep & _).
    + exec H2; finish H2; one_Start Hprep.
    + rewrite (preparation_no_Start _ _ Hprep). simpl.
      split; [lia|]. split; intros ? Hret; discriminate Hret.
  - unfold CopyDune.start in H.
    apply bind_inv in H as [(u1 & s1 & e1 & o2 & s2 & e2 & Hb & H2 & Heq)
                           |(e' & s1 & e1 & Hb & Heq)];
      injection Heq; intros; subst;
      apply CopyDune_preview_start_events in Hb as (_ & Hprep & _).
    + exec H2; finish H2; one_Start Hprep.
    + rewrite (preparation_no_Start _ _ Hprep). simpl.
      split; [lia|]. split; intros ? Hret; discriminate Hret.
  - unfold CopyEnterprise.start in H.
    apply bind_inv in H as [(u1 & s1 & e1 & o2 & s2 & e2 & Hb & H2 & Heq)
                           |(e' & s1 & e1 & Hb & Heq)];
      injection Heq; intros; subst;
      apply CopyDune_preview_start_events in Hb as (_ & Hprep & _).
    + exec H2; finish H2; one_Start Hprep.
    + rewrite (preparation_no_Start _ _ Hprep). simpl.
      split; [lia|]. split; intros ? Hret; discriminate Hret.
  - unfold CopyDesignJet.start in H.
    apply bind_inv in H as [(u1 & s1 & e1 & o2 & s2 & e2 & Hb & H2 & Heq)
                           |(e' & s1 & e1 & Hb & Heq)];
      injection Heq; intros; subst;
      apply CopyDune_preview_start_events in Hb as (_ & Hprep & _).
    + exec_designjet H2; finish H2; one_Start Hprep.
    + rewrite (preparation_no_Start _ _ Hprep). simpl.
      split; [lia|]. split; intros ? Hret; discriminate Hret.
  - unfold CopyDune.start in H.
    apply bind_inv in H as [(u1 & s1 & e1 & o2 & s2 & e2 & Hb & H2 & Heq)
                           |(e' & s1 & e1 & Hb & Heq)];
      injection Heq; intros; subst;
      apply CopyDune_preview_start_events in Hb as (_ & Hprep & _).
    + exec H2; finish H2; one_Start Hprep.
    + rewrite (preparation_no_Start _ _ Hprep). simpl.
      split; [lia|]. split; intros ? Hret; discriminate Hret.
  - unfold CopyDune.start in H.
    apply bind_inv in H as [(u1 & s1 & e1 & o2 & s2 & e2 & Hb & H2 & Heq)
                           |(e' & s1 & e1 & Hb & Heq)];
      injection Heq; intros; subst;
      apply CopyDune_preview_start_events in Hb as (_ & Hprep & _).
    + exec H2; finish H2; one_Start Hprep.
    + rewrite (preparation_no_Start _ _ Hprep). simpl.
      split; [lia|]. split; intros ? Hret; discriminate Hret.
Qed.

Lemma start_returns_Start_status_witness :
  exists self' evs,
    start ClsCopyEnterprise 5 "job_456" "ticket_123" 1
      (scripted (fun action => if String.eqb action "Initialize" then 200 else 503)
         (Ret Mock.plain_ticket) (PBool true) (PDict ∅))
      [] init_instance = Some (Ret (PInt 503), self', evs)
    /\ In (EvCall (Start "job_456") (Ret (PInt 503))) evs
    /\ length (Start_calls evs) = 1%nat.
Proof.
  do 2 eexists. split; [vm_compute; reflexivity|].
  destruct (start_returns_Start_status ClsCopyEnterprise
              (scripted (fun action => if String.eqb action "Initialize" then 200 else 503)
                 (Ret Mock.plain_ticket) (PBool true) (PDict ∅))
              [] init_instance 5 "job_456" "ticket_123" 1 _ _ _
              ltac:(vm_compute; reflexivity)) as (_ & Hin & Hone).
  split; [apply Hin; reflexivity|apply (Hone (PInt 503)); reflexivity].
Defined.

(** ** What [preview_start] does and how it fails *)

(** X20: [CopyDune.preview_start] only prepares: it leaves the instance as
    it was, calls nothing but the Initialize transition, the polls, the
    Preview transitions and the waits for "ready", and when it returns it
    has made exactly [preview_reps] preview iterations after Initialize.
    Any of these calls raising ends it with that exception. *)
Theorem preview_start_prepares_only env h self fuel job_id ticket_id reps o self' evs :
  CopyDune.preview_start fuel job_id ticket_id reps env h self = Some (o, self', evs) ->
  self' = self
  /\ (forall c, In c (calls evs) ->
        c = Initialize job_id \/ c = JM_get_job_info job_id PNone \/
        c = Preview job_id \/ c = WaitReady job_id)
  /\ (forall u, o = Ret u ->
        steps evs = Initialize job_id :: preview_iterations (Z.to_nat reps) job_id)
  /\ (forall c e, In (EvCall c (Raise e)) evs -> o = Raise e).
Proof.
  intros H.
  pose proof (CopyDune_preview_start_raises _ _ _ _ _ _ _ _ _ _ H) as Hraises.
  apply CopyDune_preview_start_events in H as (-> & Hprep & Hfull).
  split; [reflexivity|]. split; [intros c; apply preparation_calls; exact Hprep|].
  split; [intros u Hu; apply (Hfull u Hu)|exact Hraises].
Qed.

Lemma preview_start_prepares_only_witness :
  exists self' evs,
    CopyDune.preview_start 5 "job_456" "ticket_123" 2 Mock.happy [] init_instance
      = Some (Ret tt, self', evs)
    /\ steps evs = [ Initialize "job_456"; Preview "job_456"; WaitReady "job_456";
                     Preview "job_456"; WaitReady "job_456" ].
Proof.
  do 2 eexists. split; [vm_compute; reflexivity|].
  destruct (preview_start_prepares_only Mock.happy [] init_instance 5
              "job_456" "ticket_123" 2 _ _ _ ltac:(vm_compute; reflexivity))
    as (_ & _ & Hsteps & _).
  apply (Hsteps tt). reflexivity.
Defined.

Lemma preparation_failure_app job_id env e evs1 evs2 :
  preparation_failure job_id env e evs1 -> preparation_failure job_id env e (evs1 ++ evs2).
Proof.
  unfold preparation_failure, failed_call, unreadable_job_info.
  intros [(c & Hc)|[(-> & status & Hs & H200)|[->|(info & Hi & Hg)]]].
  - left. exists c. apply in_or_app. auto.
  - right. left. split; [reflexivity|]. exists status. split; [apply in_or_app; auto|exact H200].
  - right. right. left. reflexivity.
  - right. right. right. exists info. split; [apply in_or_app; auto|exact Hg].
Qed.

Ltac failure_case H :=
  let Ho := fresh "Ho" in
  injection H as Ho <- <-; try discriminate Ho; try (injection Ho as Ho); subst.

Ltac failure_cause IH :=
  first
    [ solve [ right; right; left; reflexivity ]
    | solve [ right; left; split; [reflexivity|];
              eexists; split; [simpl; eauto 10|assumption] ]
    | match goal with
      | Hrec : _ = Some (Raise _, _, _) |- _ =>
          apply IH in Hrec;
          first [ destruct Hrec as [(c & Hc)|(info & Hi & Hg)];
                  [ left; exists c; simpl; rewrite ?List.app_nil_r; auto 10
                  | solve [ right; exists info; simpl; rewrite ?List.app_nil_r; auto 10
                          | right; right; right; exists info; simpl;
                            rewrite ?List.app_nil_r; auto 10 ] ]
                | destruct Hrec as (c & Hc);
                  solve [ exists c; simpl; auto 10 | left; exists c; simpl; auto 10 ] ]
      end
    | solve [ right; eexists; split; [simpl; eauto 10|assumption] ]
    | solve [ right; right; right; eexists; split; [simpl; eauto 10|assumption] ]
    | solve [ left; eexists; simpl; eauto 10 ]
    | solve [ eexists; simpl; eauto 10 ] ].

Lemma wait_ready_failure fuel job_id t0 env : forall h self e self' evs,
  Copy.wait_ready fuel job_id t0 env h self = Some (Raise e, self', evs) ->
  failed_call e evs \/ unreadable_job_info job_id e evs.
Proof.
  induction fuel as [|fuel IH]; intros h self e self' evs H; [discriminate|].
  simpl in H. exec H; failure_case H; failure_cause IH.
Qed.

Lemma preview_loop_failure job_id env n : forall h self e self' evs,
  for_range_nat n (CopyDune.preview_iteration job_id) env h self = Some (Raise e, self', evs) ->
  failed_call e evs.
Proof.
  induction n as [|n IH]; intros h self e self' evs H; simpl in H.
  - exec H.
  - unfold CopyDune.preview_iteration in H. exec H; failure_case H; failure_cause IH.
Qed.

Lemma Copy_preview_start_failure env h self fuel job_id ticket_id e self' evs :
  Copy.preview_start fuel job_id ticket_id env h self = Some (Raise e, self', evs) ->
  preparation_failure job_id env e evs.
Proof.
  intros H. unfold preparation_failure.
  unfold Copy.preview_start in H. exec H; failure_case H; failure_cause wait_ready_failure.
Qed.

Lemma CopyDune_preview_start_failure env h self fuel job_id ticket_id reps e self' evs :
  CopyDune.preview_start fuel job_id ticket_id reps env h self = Some (Raise e, self', evs) ->
  preparation_failure job_id env e evs.
Proof.
  intros H. unfold CopyDune.preview_start in H.
  apply bind_inv in H as [(u1 & s1 & e1 & o2 & s2 & e2 & Hb & H2 & Heq)
                         |(e' & s1 & e1 & Hb & Heq)];
    injection Heq; intros; subst.
  - destruct (reps =? 0)%Z; simpl in H2; [exec H2|].
    unfold for_range in H2. apply preview_loop_failure in H2 as (c & Hc).
    left. exists c. apply in_or_app. auto.
  - apply Copy_preview_start_failure in Hb. exact Hb.
Qed.

Ltac start_failure :=
  rewrite ?List.app_nil_r in *;
  try match goal with Hx : env_call _ _ _ = Raise _ |- _ => rewrite Hx end;
  first
    [ solve [ left; left; eexists; apply in_or_app; right; simpl; eauto 10 ]
    | solve [ right; split; [reflexivity|]; left; split; [reflexivity|];
              eexists; split; [apply in_or_app; right; simpl; eauto 10|assumption] ]
    | solve [ right; split; [reflexivity|]; right; left; split; [reflexivity|];
              eexists; split; [apply in_or_app; right; simpl; eauto 10|assumption] ]
    | solve [ right; split; [reflexivity|]; right; right;
              eexists; split; [apply in_or_app; right; simpl; eauto 10|assumption] ] ].

(** X21: every way in which [start] fails.  A collaborator call raised the
    exception; or the Initialize transition returned a status other than
    200 ([AssertionError]); or the job did not read "ready" in time
    ([TimeoutError] with the timeout message); or a poll was answered by
    something that has no [get]; or, for DesignJet only, the
    Prepare_Processing transition returned a status other than 200, the
    previews did not all finish, or the copy configuration has no
    [copyMode].  The statuses that the Preview and Start transitions return
    are never a cause of failure. *)
Theorem start_failure_causes cls env h self fuel job_id ticket_id reps e self' evs :
  start cls fuel job_id ticket_id reps env h self = Some (Raise e, self', evs) ->
  preparation_failure job_id env e evs
  \/ (cls = ClsCopyDesignJet /\ designjet_failure job_id e evs).
Proof.
  intros H.
  destruct cls; unfold start in H.
  - unfold Copy.start in H.
    apply bind_inv in H as [(u1 & s1 & e1 & o2 & s2 & e2 & Hb & H2 & Heq)
                           |(e' & s1 & e1 & Hb & Heq)];
      injection Heq; intros; subst.
    + exec H2; failure_case H2; start_failure.
    + left. apply (Copy_preview_start_failure _ _ _ _ _ _ _ _ _ Hb).
  - unfold CopyDune.start in H.
    apply bind_inv in H as [(u1 & s1 & e1 & o2 & s2 & e2 & Hb & H2 & Heq)
                           |(e' & s1 & e1 & Hb & Heq)];
      injection Heq; intros; subst.
    + exec H2; failure_case H2; start_failure.
    + left. apply (CopyDune_preview_start_failure _ _ _ _ _ _ _ _ _ _ Hb).
  - unfold CopyEnterprise.start in H.
    apply bind_inv in H as [(u1 & s1 & e1 & o2 & s2 & e2 & Hb & H2 & Heq)
                           |(e' & s1 & e1 & Hb & Heq)];
      injection Heq; intros; subst.
    + exec H2; failure_case H2; start_failure.
    + left. apply (CopyDune_preview_start_failure _ _ _ _ _ _ _ _ _ _ Hb).
  - unfold CopyDesignJet.start in H.
    apply bind_inv in H as [(u1 & s1 & e1 & o2 & s2 & e2 & Hb & H2 & Heq)
                           |(e' & s1 & e1 & Hb & Heq)];
      injection Heq; intros; subst.
    + unfold designjet_failure, ReadConfiguration.
      exec_designjet H2; failure_case H2; start_failure.
    + left. apply (CopyDune_preview_start_failure _ _ _ _ _ _ _ _ _ _ Hb).
  - unfold CopyDune.start in H.
    apply bind_inv in H as [(u1 & s1 & e1 & o2 & s2 & e2 & Hb & H2 & Heq)
                           |(e' & s1 & e1 & Hb & Heq)];
      injection Heq; intros; subst.
    + exec H2; failure_case H2; start_failure.
    + left. apply (CopyDune_preview_start_failure _ _ _ _ _ _ _ _ _ _ Hb).
  - unfold CopyDune.start in H.
    apply bind_inv in H as [(u1 & s1 & e1 & o2 & s2 & e2 & Hb & H2 & Heq)
                           |(e' & s1 & e1 & Hb & Heq)];
      injection Heq; intros; subst.
    + exec H2; failure_case H2; start_failure.
    + left. apply (CopyDune_preview_start_failure _ _ _ _ _ _ _ _ _ _ Hb).
Qed.

Lemma start_failure_causes_witness :
  let e := Exn TimeoutError "Job has not reached the ready state after 5 seconds" in
  exists self' evs,
    start ClsCopyDune 10 "job_456" "ticket_123" 2 stuck [] init_instance
      = Some (Raise e, self', evs)
    /\ (preparation_failure "job_456" stuck e evs
        \/ (ClsCopyDune = ClsCopyDesignJet /\ designjet_failure "job_456" e evs)).
Proof.
  intros e. do 2 eexists. split; [vm_compute; reflexivity|].
  eapply (start_failure_causes ClsCopyDune stuck [] init_instance 10 "job_456" "ticket_123" 2).
  vm_compute. reflexivity.
Defined.

(** ** Termination *)

(** X22: on a clock that advances with the sleeps, [start] of every class
    terminates, whatever the device answers: the readiness loop leaves
    after at most [WAIT_START_JOB_TIMEOUT] rounds and nothing else loops
    without bound, so every run ends by returning or by raising. *)
Theorem start_terminates cls env fuel job_id ticket_id reps :
  clock_advances env ->
  (Z.to_nat (WAIT_START_JOB_TIMEOUT env) < fuel)%nat ->
  forall h self, exists o self' evs,
    start cls fuel job_id ticket_id reps env h self = Some (o, self', evs).
Proof.
  intros Hclock Hfuel.
  assert (Hterm : terminates (start cls fuel job_id ticket_id reps) env).
  { destruct cls; unfold start, Copy.start, CopyDune.start, CopyEnterprise.start,
      CopyDesignJet.start;
      (apply terminates_bind;
       [ first [ apply Copy_preview_start_terminates; assumption
               | apply CopyDune_preview_start_terminates; assumption ]
       | intros _ ]);
      unfold Copy.change_job_state, CopyDune.answer_flatbedAddPage,
        Copy._has_two_segment_pipeline, CopyDesignJet.two_segment_prepare,
        Copy.wait_for_state, Copy.get_copy_configuration;
      run_ends. }
  intros h self. destruct (Hterm h self) as ([[o self'] evs] & Hrun). eauto.
Qed.

Lemma start_terminates_witness :
  exists o self' evs,
    start ClsCopyEnterprise 6 "job_456" "ticket_123" 2 stuck [] init_instance
      = Some (o, self', evs).
Proof.
  apply (start_terminates ClsCopyEnterprise stuck 6 "job_456" "ticket_123" 2).
  - apply elapsed_clock_advances. reflexivity.
  - vm_compute. lia.
Defined.
